(** * URL shortener: validators, shortcode allocator, link records, handlers

    A shallow embedding of the service's core
    ([utils/validation.js], [services/shortcodeService.js], [models/Url.js],
    [routes/urlRoutes.js]) and the properties its specification states
    about it. *)

From Stdlib Require Import ZArith QArith Qround String Ascii List Bool Lia.
From Stdlib Require Import DecimalString Qpower Lqa.
From stdpp Require Import base gmap strings list.

Local Open Scope string_scope.
Local Open Scope Z_scope.

(** ** JavaScript values *)

(** A JS number: IEEE special values, or a finite value.  Every finite
    double is a rational, and the operations the service applies to the
    numbers it validates (comparison with a constant, [Math.round],
    [Math.floor]) are exact on finite doubles, so a finite number is
    modelled by its rational value. *)
Inductive jsnum : Type :=
| NaN
| PosInf
| NegInf
| Fin (q : Q).

(** The values a request body or a query string can carry.  An object or
    an array is represented by the string its conversion to a primitive
    yields ([[]] gives the empty string, [[5]] gives ["5"], a plain object
    gives ["[object Object]"]). *)
Inductive jsval : Type :=
| JUndefined
| JNull
| JBool (b : bool)
| JNum (n : jsnum)
| JStr (s : string)
| JObj (prim : string).

Definition isNaN (n : jsnum) : bool :=
  match n with NaN => true | _ => false end.

(** [a <= b] on numbers; any comparison with NaN is false. *)
Definition js_le (a b : jsnum) : bool :=
  match a, b with
  | NaN, _ | _, NaN => false
  | NegInf, _ => true
  | _, PosInf => true
  | PosInf, _ => false
  | _, NegInf => false
  | Fin x, Fin y => Qle_bool x y
  end.

(** [a < b] on numbers. *)
Definition js_lt (a b : jsnum) : bool :=
  match a, b with
  | NaN, _ | _, NaN => false
  | PosInf, _ => false
  | _, NegInf => false
  | NegInf, _ => true
  | _, PosInf => true
  | Fin x, Fin y => negb (Qle_bool y x)
  end.

(** [a > b] on numbers. *)
Definition js_gt (a b : jsnum) : bool := js_lt b a.

Definition num (z : Z) : jsnum := Fin (inject_Z z).

(** [Math.round]: the closest integer, ties towards +infinity. *)
Definition Math_round (n : jsnum) : jsnum :=
  match n with
  | Fin q => num (Qfloor (q + (1 # 2)))
  | other => other
  end.

(** [Math.floor]. *)
Definition Math_floor (n : jsnum) : jsnum :=
  match n with
  | Fin q => num (Qfloor q)
  | other => other
  end.

(** JS truthiness, as used by [if (x)] and [!x]. *)
Definition truthy (v : jsval) : bool :=
  match v with
  | JUndefined | JNull => false
  | JBool b => b
  | JNum NaN => false
  | JNum (Fin q) => negb (Qeq_bool q 0)
  | JNum _ => true
  | JStr s => negb (String.eqb s "")
  | JObj _ => true
  end.

(** ** Strings

    A string is a sequence of 8-bit code units (the Latin-1 range of
    JavaScript's code units). *)

Definition code (c : ascii) : nat := nat_of_ascii c.

(** White space and line terminators removed by [String.prototype.trim],
    within the 8-bit range: TAB, LF, VT, FF, CR, SPACE, NBSP. *)
Definition isWhiteSpace (c : ascii) : bool :=
  let n := code c in
  ((9 <=? n) && (n <=? 13) || (n =? 32) || (n =? 160))%nat.

Fixpoint trimStart (s : string) : string :=
  match s with
  | EmptyString => EmptyString
  | String c r => if isWhiteSpace c then trimStart r else s
  end.

Fixpoint trimEnd (s : string) : string :=
  match s with
  | EmptyString => EmptyString
  | String c r =>
      match trimEnd r with
      | EmptyString => if isWhiteSpace c then EmptyString else String c EmptyString
      | r' => String c r'
      end
  end.

Definition trim (s : string) : string := trimEnd (trimStart s).

(** [s.startsWith(p)] *)
Fixpoint startsWith (s p : string) {struct p} : bool :=
  match p with
  | EmptyString => true
  | String a p' =>
      match s with
      | EmptyString => false
      | String b s' => Ascii.eqb a b && startsWith s' p'
      end
  end.

Definition isDigit (c : ascii) : bool :=
  let n := code c in ((48 <=? n) && (n <=? 57))%nat.

Definition isUpper (c : ascii) : bool :=
  let n := code c in ((65 <=? n) && (n <=? 90))%nat.

Definition isLower (c : ascii) : bool :=
  let n := code c in ((97 <=? n) && (n <=? 122))%nat.

(** The character class [[a-zA-Z0-9]]. *)
Definition isAlnum (c : ascii) : bool := isLower c || isUpper c || isDigit c.

Fixpoint allChars (p : ascii -> bool) (s : string) : bool :=
  match s with
  | EmptyString => true
  | String c r => p c && allChars p r
  end.

(** [/^[a-zA-Z0-9]+$/.test(s)]. *)
Definition isAlphanumeric (s : string) : bool :=
  match s with
  | EmptyString => false
  | _ => allChars isAlnum s
  end.

(** [toLowerCase] on 8-bit code units: A-Z and the accented capitals
    0xC0-0xDE (0xD7, the multiplication sign, apart). *)
Definition lowerChar (c : ascii) : ascii :=
  let n := code c in
  if ((65 <=? n) && (n <=? 90) ||
      (192 <=? n) && (n <=? 222) && negb (n =? 215))%nat
  then ascii_of_nat (n + 32) else c.

Fixpoint toLowerCase (s : string) : string :=
  match s with
  | EmptyString => EmptyString
  | String c r => String (lowerChar c) (toLowerCase r)
  end.

(** [s.charAt(i)]: the empty string when [i] is out of range. *)
Definition charAt (s : string) (i : Z) : string :=
  if i <? 0 then ""
  else match String.get (Z.to_nat i) s with
       | Some c => String c ""
       | None => ""
       end.

(** ** The platform

    Library and runtime functions the service calls but does not define:
    the runtime's string-to-number conversion, [validator.isURL] with the
    options [validateUrl] passes, the WHATWG [URL] parser ([None] when the
    constructor throws), and [geoip.lookup] ([None] when it throws, [Some
    None] when it finds nothing). *)

Record URL : Type := mkURL {
  hostname : string;
  protocol : string
}.

Record Platform : Type := mkPlatform {
  StringToNumber : string -> jsnum;
  isURL : string -> bool;
  newURL : string -> option URL;
  geoip_lookup : string -> option (option string)
}.

(** [Number(v)]. *)
Definition Number (P : Platform) (v : jsval) : jsnum :=
  match v with
  | JUndefined => NaN
  | JNull => num 0
  | JBool b => if b then num 1 else num 0
  | JNum n => n
  | JStr s => StringToNumber P s
  | JObj prim => StringToNumber P prim
  end.

(** ** [ValidationService] *)

Module ValidationService.

Inductive UrlResult : Type :=
| UrlValid (url : string)
| UrlInvalid (error : string).

Inductive ValidityResult : Type :=
| ValidityValid (validity : jsnum)
| ValidityInvalid (error : string).

Inductive PaginationResult : Type :=
| PaginationValid (page limit : jsnum)
| PaginationInvalid (error : string).

(** [/^172\.(1[6-9]|2[0-9]|3[0-1])\./] *)
Definition matches172 (h : string) : bool :=
  match h with
  | String "1" (String "7" (String "2" (String "."
      (String a (String b (String "." _)))))) =>
      let n := code b in
      (Ascii.eqb a "1" && (54 <=? n) && (n <=? 57) ||
       Ascii.eqb a "2" && (48 <=? n) && (n <=? 57) ||
       Ascii.eqb a "3" && (48 <=? n) && (n <=? 49))%nat
  | _ => false
  end.

(** The host test of the SSRF guard, on the lower-cased hostname. *)
Definition isPrivateHost (h : string) : bool :=
  String.eqb h "localhost" ||
  String.eqb h "127.0.0.1" ||
  String.eqb h "0.0.0.0" ||
  startsWith h "192.168." ||
  startsWith h "10." ||
  matches172 h.

(** [/^https?:\/\//] *)
Definition hasHttpScheme (s : string) : bool :=
  startsWith s "http://" || startsWith s "https://".

Section WithPlatform.
Variable P : Platform.

Definition validateUrl (url : jsval) : UrlResult :=
  match url with
  | JStr s =>
      if negb (truthy url) then UrlInvalid "URL is required and must be a string"
      else
        let trimmedUrl := trim s in
        if String.eqb trimmedUrl "" then UrlInvalid "URL cannot be empty"
        else if negb (hasHttpScheme trimmedUrl) then
          UrlInvalid "URL must include http:// or https:// protocol"
        else if negb (isURL P trimmedUrl) then UrlInvalid "Invalid URL format"
        else
          match newURL P trimmedUrl with
          | None => UrlInvalid "Malformed URL"
          | Some urlObj =>
              let hostname := toLowerCase (hostname urlObj) in
              if isPrivateHost hostname then
                UrlInvalid "URLs pointing to private/local addresses are not allowed"
              else if negb (String.eqb (protocol urlObj) "http:" ||
                            String.eqb (protocol urlObj) "https:") then
                UrlInvalid "Only HTTP and HTTPS protocols are allowed"
              else UrlValid trimmedUrl
          end
  | _ => UrlInvalid "URL is required and must be a string"
  end.

Definition validateValidity (validity : jsval) (defaultValue : jsnum)
  : ValidityResult :=
  match validity with
  | JUndefined | JNull => ValidityValid defaultValue
  | _ =>
      let validityNum := Number P validity in
      if isNaN validityNum then ValidityInvalid "Validity must be a number"
      else if js_le validityNum (num 0) then
        ValidityInvalid "Validity must be greater than 0 minutes"
      else if js_gt validityNum (num 525600) then
        ValidityInvalid "Validity cannot exceed 1 year (525600 minutes)"
      else ValidityValid (Math_round validityNum)
  end.

(** The page half of [validatePagination]: [inl] the page, [inr] the
    error. *)
Definition checkPage (page : jsval) : jsnum + string :=
  match page with
  | JUndefined | JNull => inl (num 1)
  | _ =>
      let pageNum := Number P page in
      if isNaN pageNum || js_lt pageNum (num 1) then
        inr "Page must be a positive integer"
      else inl (Math_floor pageNum)
  end.

(** The limit half of [validatePagination]. *)
Definition checkLimit (limit : jsval) : jsnum + string :=
  match limit with
  | JUndefined | JNull => inl (num 50)
  | _ =>
      let limitNum := Number P limit in
      if isNaN limitNum || js_lt limitNum (num 1) then
        inr "Limit must be a positive integer"
      else if js_gt limitNum (num 1000) then inr "Limit cannot exceed 1000"
      else inl (Math_floor limitNum)
  end.

Definition validatePagination (page limit : jsval) : PaginationResult :=
  match checkPage page with
  | inr e => PaginationInvalid e
  | inl p =>
      match checkLimit limit with
      | inr e => PaginationInvalid e
      | inl l => PaginationValid p l
      end
  end.

End WithPlatform.

End ValidationService.

(** ** Number arithmetic used by the handlers

    Sums and products of finite numbers are taken exactly.  The handlers
    multiply and add integers only (a validity in minutes by 60000, a
    page number minus one by a limit of at most 1000): such a result is
    exact in double precision below 2^53, and a start index beyond that
    lies past the end of every array whether it is rounded or not. *)

Definition js_neg (a : jsnum) : jsnum :=
  match a with
  | NaN => NaN
  | PosInf => NegInf
  | NegInf => PosInf
  | Fin q => Fin (- q)
  end.

Definition js_add (a b : jsnum) : jsnum :=
  match a, b with
  | NaN, _ | _, NaN => NaN
  | PosInf, NegInf | NegInf, PosInf => NaN
  | PosInf, _ | _, PosInf => PosInf
  | NegInf, _ | _, NegInf => NegInf
  | Fin x, Fin y => Fin (x + y)
  end.

Definition js_sub (a b : jsnum) : jsnum := js_add a (js_neg b).

(** An infinity times a finite number: the sign of the product, NaN for
    zero. *)
Definition inf_times (positive : bool) (q : Q) : jsnum :=
  match Qcompare q 0 with
  | Eq => NaN
  | Gt => if positive then PosInf else NegInf
  | Lt => if positive then NegInf else PosInf
  end.

Definition js_mul (a b : jsnum) : jsnum :=
  match a, b with
  | NaN, _ | _, NaN => NaN
  | Fin x, Fin y => Fin (x * y)
  | PosInf, Fin y => inf_times true y
  | NegInf, Fin y => inf_times false y
  | Fin x, PosInf => inf_times true x
  | Fin x, NegInf => inf_times false x
  | PosInf, PosInf | NegInf, NegInf => PosInf
  | PosInf, NegInf | NegInf, PosInf => NegInf
  end.

(** Truncation towards zero. *)
Definition Qtruncate (q : Q) : Z := Z.quot (Qnum q) (Zpos (Qden q)).

(** An integer or an infinity, the result of [ToIntegerOrInfinity]. *)
Inductive index : Type :=
| IdxNegInf
| IdxPosInf
| Idx (z : Z).

Definition ToIntegerOrInfinity (n : jsnum) : index :=
  match n with
  | NaN => Idx 0
  | PosInf => IdxPosInf
  | NegInf => IdxNegInf
  | Fin q => Idx (Qtruncate q)
  end.

(** ** Double precision

    The product [Math.random() * charactersLength] of two doubles is in
    general not a double: the hardware rounds it to the nearest one, ties
    to the even significand, before [Math.floor] sees it. *)

(** The nearest integer, ties to the even one. *)
Definition roundHalfEven (q : Q) : Z :=
  let f := Qfloor q in
  match (q - inject_Z f ?= 1 # 2)%Q with
  | Lt => f
  | Gt => f + 1
  | Eq => if Z.even f then f else f + 1
  end.

(** [floor (log2 q)], for [q > 0]. *)
Definition ilog2 (q : Q) : Z :=
  let k := Z.log2 (Qnum q) - Z.log2 (Zpos (Qden q)) in
  if Qle_bool (Qpower 2 k) q then k else k - 1.

(** The exponent of the unit in the last place of the doubles around
    [q > 0]: 52 binary places below the leading one, and never below
    [2^-1074]. *)
Definition ulpExponent (q : Q) : Z := Z.max (ilog2 q - 52) (-1074).

(** The multiple of that unit nearest to [q > 0]. *)
Definition nearestDouble (q : Q) : Q :=
  let ulp := Qpower 2 (ulpExponent q) in
  (inject_Z (roundHalfEven (q / ulp)) * ulp)%Q.

Definition roundPositive (q : Q) : jsnum :=
  let d := nearestDouble q in
  if Qle_bool (Qpower 2 1024) d then PosInf else Fin d.

(** The double nearest to a rational, an infinity beyond the range. *)
Definition roundToDouble (q : Q) : jsnum :=
  match (q ?= 0)%Q with
  | Eq => num 0
  | Gt => roundPositive q
  | Lt => js_neg (roundPositive (- q))
  end.

(** [s.charAt(n)] for a number [n]. *)
Definition charAtNumber (s : string) (n : jsnum) : string :=
  match ToIntegerOrInfinity n with
  | Idx i => charAt s i
  | _ => ""
  end.

(** The clamping of one [slice] bound against the length. *)
Definition clampIndex (len : Z) (i : index) : Z :=
  match i with
  | IdxNegInf => 0
  | IdxPosInf => len
  | Idx z => if z <? 0 then Z.max (len + z) 0 else Z.min z len
  end.

(** [Array.prototype.slice(start, end)]. *)
Definition slice {A : Type} (l : list A) (startIndex endIndex : jsnum) : list A :=
  let len := Z.of_nat (length l) in
  let k := clampIndex len (ToIntegerOrInfinity startIndex) in
  let final := clampIndex len (ToIntegerOrInfinity endIndex) in
  take (Z.to_nat (Z.max (final - k) 0)) (drop (Z.to_nat k) l).

(** A [Date]: its time value in milliseconds, [None] for an invalid date.
    [new Date(n)] clips the number to the range of time values. *)
Definition Date : Type := option Z.

Definition newDate (n : jsnum) : Date :=
  match n with
  | Fin q =>
      let t := Qtruncate q in
      if Z.abs t <=? 8640000000000000 then Some t else None
  | _ => None
  end.

(** ** Configuration *)

(** The configuration module ([config/index.js]; its text follows the
    error handlers and the database connection in
    [src/middleware/errorHandler.js]).  The fields are the ones the
    sources read; the default values below are the module's, which are
    also the ones the specification gives (a 62-symbol alphabet of digits,
    lowercase and uppercase letters, default length 6, 5 retries per
    length, custom codes of 4 to 20 characters, a default validity of 30
    minutes, and the host name used when [HOSTNAME] is not set). *)
Record Config : Type := mkConfig {
  base62Chars : string;
  defaultLength : nat;
  maxRetries : nat;
  minCustomLength : nat;
  maxCustomLength : nat;
  defaultValidityMinutes : Z;
  config_hostname : string
}.

Definition defaultConfig : Config := {|
  base62Chars := "0123456789abcdefghijklmnopqrstuvwxyzABCDEFGHIJKLMNOPQRSTUVWXYZ";
  defaultLength := 6;
  maxRetries := 5;
  minCustomLength := 4;
  maxCustomLength := 20;
  defaultValidityMinutes := 30;
  config_hostname := "http://localhost:3000"
|}.

(** ** Link records ([models/Url.js]) *)

Record Click : Type := mkClick {
  ts : Z;
  ip : string;
  referrer : option string;
  userAgent : option string;
  country : option string
}.

Record UrlDoc : Type := mkUrlDoc {
  shortcode : string;
  originalUrl : string;
  createdAt : Z;
  expiryAt : Date;
  clickCount : Z;
  clicks : list Click
}.

(** ** The world a request runs in *)

(** Errors that can be thrown.  Only a duplicate-key error of the store
    carries the error code 11000. *)
Inductive JsError : Type :=
| MongoDuplicateKey
| ValidationError (message : string)
| Error (message : string).

Definition error_code (e : JsError) : option Z :=
  match e with
  | MongoDuplicateKey => Some 11000
  | _ => None
  end.

(** What the environment does at one store operation: nothing, a failure
    of the operation, or a concurrent creation request whose record is
    committed just before the operation takes effect. *)
Inductive Weather : Type :=
| Calm
| Down
| Race (shortcode originalUrl : string) (createdAt expiryAt : Z).

(** What a request did, in order. *)
Inductive Event : Type :=
| Drew (length : nat) (shortcode : string)
| Checked (shortcode : string) (available : bool)
| CheckFailed (shortcode : string)
| Found (shortcode : string) (found : bool)
| Inserted (shortcode : string)
| InsertRejected (shortcode : string) (e : JsError)
| ClickSaved (shortcode : string)
| ClickRejected (shortcode : string) (e : JsError)
| Logged (message : string).

Record World : Type := mkWorld {
  urls : gmap string UrlDoc;   (* the collection, under its unique index *)
  weather : list Weather;      (* one entry per store operation to come *)
  random : list Q;             (* the results of Math.random() to come *)
  now : Z;                     (* the clock, in milliseconds *)
  elapsed : list Z;            (* time that passes before each clock read *)
  trace : list Event
}.

Inductive Outcome (A : Type) : Type :=
| Returned (a : A)
| Thrown (e : JsError)
| OutOfFuel.
Arguments Returned {A} a.
Arguments Thrown {A} e.
Arguments OutOfFuel {A}.

(** A computation: it runs in a world and returns, throws, or runs out of
    the fuel given to its loop. *)
Definition M (A : Type) : Type := World -> Outcome A * World.

Definition ret {A : Type} (a : A) : M A := fun w => (Returned a, w).

Definition throw {A : Type} (e : JsError) : M A := fun w => (Thrown e, w).

Definition bind {A B : Type} (m : M A) (k : A -> M B) : M B :=
  fun w =>
    match m w with
    | (Returned a, w') => k a w'
    | (Thrown e, w') => (Thrown e, w')
    | (OutOfFuel, w') => (OutOfFuel, w')
    end.

(** [try { m } catch (e) { h e }] *)
Definition try_catch {A : Type} (m : M A) (h : JsError -> M A) : M A :=
  fun w =>
    match m w with
    | (Thrown e, w') => h e w'
    | r => r
    end.

Notation "'let!' x ':=' m 'in' k" := (bind m (fun x => k))
  (at level 10, x name, m at level 100, k at level 200).
Notation "'do!' m 'in' k" := (bind m (fun _ => k))
  (at level 10, m at level 100, k at level 200).

Definition emit (e : Event) : M unit :=
  fun w => (Returned tt,
            {| urls := urls w; weather := weather w; random := random w;
               now := now w; elapsed := elapsed w;
               trace := trace w ++ [e] |}).

(** [Date.now()]: the clock after the time that passed since the last
    read (never negative). *)
Definition Date_now : M Z :=
  fun w =>
    let t := now w + Z.max 0 (hd 0 (elapsed w)) in
    (Returned t,
     {| urls := urls w; weather := weather w; random := random w;
        now := t; elapsed := tl (elapsed w); trace := trace w |}).

(** [Math.random()]. *)
Definition Math_random : M Q :=
  fun w =>
    (Returned (hd 0%Q (random w)),
     {| urls := urls w; weather := weather w; random := tl (random w);
        now := now w; elapsed := elapsed w; trace := trace w |}).

Definition raceDoc (sc url : string) (created expiry : Z) : UrlDoc :=
  {| shortcode := sc; originalUrl := url; createdAt := created;
     expiryAt := Some expiry; clickCount := 0; clicks := [] |}.

(** The start of a store operation: the environment's move.  A racing
    creation commits only when its shortcode is free (the unique index). *)
Definition storeOp : M unit :=
  fun w =>
    let w' db := {| urls := db; weather := tl (weather w); random := random w;
                    now := now w; elapsed := elapsed w; trace := trace w |} in
    match hd Calm (weather w) with
    | Calm => (Returned tt, w' (urls w))
    | Down => (Thrown (Error "store unavailable"), w' (urls w))
    | Race sc url created expiry =>
        match urls w !! sc with
        | Some _ => (Returned tt, w' (urls w))
        | None => (Returned tt, w' (<[sc := raceDoc sc url created expiry]> (urls w)))
        end
    end.

Definition readUrls : M (gmap string UrlDoc) := fun w => (Returned (urls w), w).

Definition writeUrl (d : UrlDoc) : M unit :=
  fun w => (Returned tt,
            {| urls := <[shortcode d := d]> (urls w); weather := weather w;
               random := random w; now := now w; elapsed := elapsed w;
               trace := trace w |}).

(** Decimal rendering of a number interpolated into a message. *)
Definition decimal (n : nat) : string := NilEmpty.string_of_uint (Nat.to_uint n).

(** [prefix ++ rest = s] gives [Some rest]. *)
Fixpoint stripPrefix (prefix s : string) : option string :=
  match prefix, s with
  | EmptyString, _ => Some s
  | String a p', String b s' => if Ascii.eqb a b then stripPrefix p' s' else None
  | String _ _, EmptyString => None
  end.

(** A line terminator, which [.] does not match in a regular expression. *)
Definition isLineTerminator (c : ascii) : bool :=
  ((code c =? 10) || (code c =? 13))%nat.

(** The model of [models/Url.js]: schema, hooks, methods and statics. *)
Module Url.

(** [/^https?:\/\/.+/.test(url)] *)
Definition hasProtocolAndMore (url : string) : bool :=
  let more rest :=
    match rest with
    | Some (String c _) => negb (isLineTerminator c)
    | _ => false
    end in
  more (stripPrefix "https://" url) || more (stripPrefix "http://" url).

Definition validClick (c : Click) : bool := negb (String.eqb (ip c) "").

(** The schema's validators, run before every save: the first path that
    fails, if any. *)
Definition validate (d : UrlDoc) : option string :=
  let sc := shortcode d in
  if String.eqb sc "" then Some "Path `shortcode` is required."
  else if (String.length sc <? 4)%nat then
    Some "Path `shortcode` is shorter than the minimum allowed length (4)."
  else if (20 <? String.length sc)%nat then
    Some "Path `shortcode` is longer than the maximum allowed length (20)."
  else if negb (isAlphanumeric sc) then Some "Path `shortcode` is invalid."
  else if String.eqb (originalUrl d) "" then Some "Path `originalUrl` is required."
  else if negb (hasProtocolAndMore (originalUrl d)) then
    Some "Original URL must include http:// or https:// protocol"
  else if negb (bool_decide (is_Some (expiryAt d))) then
    Some "Path `expiryAt` is required."
  else if clickCount d <? 0 then
    Some "Path `clickCount` is less than minimum allowed value (0)."
  else if negb (forallb validClick (clicks d)) then Some "Path `ip` is required."
  else None.

(** [new Url({shortcode, originalUrl, expiryAt, clickCount: 0, clicks: []})]:
    the string setters trim, [createdAt] takes its default. *)
Definition new (sc url : string) (expiry : Date) : M UrlDoc :=
  let! t := Date_now in
  ret {| shortcode := trim sc; originalUrl := trim url; createdAt := t;
         expiryAt := expiry; clickCount := 0; clicks := [] |}.

(** [a <= b] on dates: false when either is invalid. *)
Definition date_le (a b : Date) : bool :=
  match a, b with
  | Some x, Some y => x <=? y
  | _, _ => false
  end.

(** [a > b] on dates. *)
Definition date_gt (a b : Date) : bool :=
  match a, b with
  | Some x, Some y => y <? x
  | _, _ => false
  end.

(** [doc.save()] on a new document: validation, the [pre('save')] hook,
    then the insertion under the unique index on [shortcode]. *)
Definition saveNew (d : UrlDoc) : M unit :=
  try_catch
    (match validate d with
     | Some message => throw (ValidationError message)
     | None =>
         let! t := Date_now in
         if date_le (expiryAt d) (Some t) then
           throw (Error "Expiry date must be in the future")
         else
           do! storeOp in
           let! db := readUrls in
           match db !! shortcode d with
           | Some _ => throw MongoDuplicateKey
           | None =>
               do! writeUrl d in
               emit (Inserted (shortcode d))
           end
     end)
    (fun e => do! emit (InsertRejected (shortcode d) e) in throw e).

(** [doc.save()] on a document read from the store: validation, then the
    update.  The [pre('save')] hook does nothing when [isNew] is false. *)
Definition saveExisting (d : UrlDoc) : M unit :=
  try_catch
    (match validate d with
     | Some message => throw (ValidationError message)
     | None =>
         do! storeOp in
         do! writeUrl d in
         emit (ClickSaved (shortcode d))
     end)
    (fun e => do! emit (ClickRejected (shortcode d) e) in throw e).

(** [urlSchema.methods.isExpired] *)
Definition isExpired (d : UrlDoc) : M bool :=
  let! t := Date_now in
  ret (date_gt (Some t) (expiryAt d)).

(** [urlSchema.methods.addClick]: the document is mutated, then saved. *)
Definition pushClick (d : UrlDoc) (clickData : Click) : UrlDoc :=
  let clicks' := (clicks d ++ [clickData])%list in
  {| shortcode := shortcode d; originalUrl := originalUrl d;
     createdAt := createdAt d; expiryAt := expiryAt d;
     clickCount := Z.of_nat (length clicks'); clicks := clicks' |}.

Definition addClick (d : UrlDoc) (clickData : Click) : M UrlDoc :=
  let d' := pushClick d clickData in
  do! saveExisting d' in
  ret d'.

(** [Url.findOne({ shortcode })].  The filter is looked up as the
    request gives it; Mongoose first casts it with the schema, which
    trims it, so this is the lookup of a code without surrounding white
    space. *)
Definition findOne (sc : string) : M (option UrlDoc) :=
  do! storeOp in
  let! db := readUrls in
  do! emit (Found sc (bool_decide (is_Some (db !! sc)))) in
  ret (db !! sc).

(** [urlSchema.statics.shortcodeExists] *)
Definition shortcodeExists (sc : string) : M bool :=
  try_catch
    (do! storeOp in
     let! db := readUrls in
     let found := bool_decide (is_Some (db !! sc)) in
     do! emit (Checked sc (negb found)) in
     ret found)
    (fun e => do! emit (CheckFailed sc) in throw e).

End Url.

(** ** [ShortcodeService] *)

Module ShortcodeService.

Inductive CustomResult : Type :=
| CustomValid (shortcode : string)
| CustomInvalid (error : string).

Inductive ShortcodeResult : Type :=
| Success (shortcode : string)
| Failure (error : string) (statusCode : Z).

Section WithConfig.
Variable cfg : Config.

(** The body of the [for] loop of [generateRandomBase62], [n] iterations
    to go. *)
Fixpoint appendRandom (n : nat) (result : string) : M string :=
  match n with
  | O => ret result
  | S n' =>
      let! r := Math_random in
      let charactersLength := inject_Z (Z.of_nat (String.length (base62Chars cfg))) in
      appendRandom n'
        (result ++ charAtNumber (base62Chars cfg)
                     (Math_floor (roundToDouble (r * charactersLength))))%string
  end.

Definition generateRandomBase62 (length : nat) : M string :=
  let! result := appendRandom length "" in
  do! emit (Drew length result) in
  ret result.

Definition validateCustomShortcode (shortcode : jsval) : CustomResult :=
  match shortcode with
  | JStr s =>
      if negb (truthy shortcode) then
        CustomInvalid "Shortcode must be a non-empty string"
      else
        let trimmedShortcode := trim s in
        if (String.length trimmedShortcode <? minCustomLength cfg)%nat then
          CustomInvalid ("Shortcode must be at least " ++
                         decimal (minCustomLength cfg) ++ " characters long")%string
        else if (maxCustomLength cfg <? String.length trimmedShortcode)%nat then
          CustomInvalid ("Shortcode must be at most " ++
                         decimal (maxCustomLength cfg) ++ " characters long")%string
        else if negb (isAlphanumeric trimmedShortcode) then
          CustomInvalid
            "Shortcode must contain only alphanumeric characters (a-z, A-Z, 0-9)"
        else CustomValid trimmedShortcode
  | _ => CustomInvalid "Shortcode must be a non-empty string"
  end.

Definition isShortcodeAvailable (shortcode : string) : M bool :=
  try_catch
    (let! exists_ := Url.shortcodeExists shortcode in
     ret (negb exists_))
    (fun _ => throw (Error "Database error while checking shortcode availability")).

(** The [while] loop of [generateUniqueShortcode].  [fuel] bounds the
    number of iterations the model may run; the loop's own test is the
    source's. *)
Fixpoint generateLoop (fuel : nat) (currentLength attempts : nat) : M string :=
  match fuel with
  | O => fun w => (OutOfFuel, w)
  | S fuel' =>
      if (attempts <? maxRetries cfg * 3)%nat then
        let! shortcode := generateRandomBase62 currentLength in
        let! isAvailable :=
          try_catch (isShortcodeAvailable shortcode) (fun error => throw error) in
        if isAvailable then ret shortcode
        else
          let attempts := S attempts in
          let currentLength :=
            if (attempts mod maxRetries cfg =? 0)%nat then S currentLength
            else currentLength in
          generateLoop fuel' currentLength attempts
      else
        throw (Error "Unable to generate unique shortcode after maximum attempts. Database may be experiencing high load.")
  end.

Definition generateUniqueShortcode (fuel : nat) (length : nat) : M string :=
  generateLoop fuel length 0%nat.

Definition processShortcode (fuel : nat) (customShortcode : jsval)
  : M ShortcodeResult :=
  let customShortcode :=
    match customShortcode with JUndefined => JNull | v => v end in
  try_catch
    (if truthy customShortcode then
       match validateCustomShortcode customShortcode with
       | CustomInvalid error => ret (Failure error 400)
       | CustomValid shortcode =>
           let! isAvailable := isShortcodeAvailable shortcode in
           if negb isAvailable then
             ret (Failure "Custom shortcode is already taken" 409)
           else ret (Success shortcode)
       end
     else
       let! shortcode := generateUniqueShortcode fuel (defaultLength cfg) in
       ret (Success shortcode))
    (fun _ => ret (Failure "Internal server error during shortcode processing" 500)).

End WithConfig.

End ShortcodeService.

(** ** Requests and responses *)

(** The body of a creation request. *)
Record CreateBody : Type := mkCreateBody {
  body_url : jsval;
  body_validity : jsval;
  body_shortcode : jsval
}.

(** What a redirect request carries: the route parameter, the headers the
    handler reads ([None] for an absent header) and the socket's
    addresses ([None] for an absent one). *)
Record Request : Type := mkRequest {
  params_shortcode : string;
  header_x_forwarded_for : option string;
  header_referrer : option string;
  header_referer : option string;
  header_user_agent : option string;
  connection_remoteAddress : option string;
  socket_remoteAddress : option string;
  connection_socket_remoteAddress : option string
}.

Inductive ResponseBody : Type :=
| Message (message : string)
| Created (shortLink : string) (expiry : Z)
| Redirect (location : string)
| Stats (shortcode originalUrl : string) (createdAt : Z) (expiry : Date)
        (totalClicks : Z) (clicks : list Click).

Record Response : Type := mkResponse {
  status : Z;
  body : ResponseBody
}.

(** [a || b] on values that are a string or undefined. *)
Definition orElse (a b : option string) : option string :=
  match a with
  | Some s => if String.eqb s "" then b else a
  | None => b
  end.

(** The part of a string before its first comma: [s.split(',')[0]]. *)
Fixpoint beforeComma (s : string) : string :=
  match s with
  | EmptyString => EmptyString
  | String c r => if Ascii.eqb c "," then EmptyString else String c (beforeComma r)
  end.

(** [s.replace(/[<>]/g, '')] *)
Fixpoint removeAngleBrackets (s : string) : string :=
  match s with
  | EmptyString => EmptyString
  | String c r =>
      if Ascii.eqb c "<" || Ascii.eqb c ">" then removeAngleBrackets r
      else String c (removeAngleBrackets r)
  end.

Module ValidationHelpers.

(** [ValidationService.sanitizeInput], on a string. *)
Definition sanitizeInput (input : string) (maxLength : nat) : string :=
  if String.eqb input "" then ""
  else removeAngleBrackets (String.substring 0 maxLength (trim input)).

(** Express's [req.get] for the referrer: both spellings read
    [headers.referrer || headers.referer]. *)
Definition getReferrer (req : Request) : option string :=
  orElse (header_referrer req) (header_referer req).

(** [ValidationService.extractClientIP] *)
Definition extractClientIP (req : Request) : string :=
  let fallback :=
    match orElse (connection_remoteAddress req)
            (orElse (socket_remoteAddress req)
               (orElse (connection_socket_remoteAddress req) (Some "unknown"))) with
    | Some a => a
    | None => "unknown"
    end in
  match header_x_forwarded_for req with
  | Some xForwardedFor =>
      if String.eqb xForwardedFor "" then fallback
      else trim (beforeComma xForwardedFor)
  | None => fallback
  end.

(** [ValidationService.extractSafeHeaders]: the sanitized referrer and
    user agent, [None] for [null]. *)
Definition extractSafeHeaders (req : Request) : option string * option string :=
  let sanitized (h : option string) :=
    match h with
    | Some s => if String.eqb s "" then None else Some (sanitizeInput s 500)
    | None => None
    end in
  (sanitized (orElse (getReferrer req) (getReferrer req)),
   sanitized (header_user_agent req)).

End ValidationHelpers.

(** [loggingClient.Log]: it catches its own failures, so it always
    returns; the message reaches the audit sink or is dropped. *)
Definition Log (stack level packageName message : string) : M unit :=
  emit (Logged message).

(** ** The request handlers ([routes/urlRoutes.js]) *)

Module urlRoutes.

Import ValidationService ShortcodeService ValidationHelpers.

Section WithPlatformAndConfig.
Variable P : Platform.
Variable cfg : Config.

Definition json (code : Z) (message : string) : Response :=
  {| status := code; body := Message message |}.

(** [router.post('/shorturls')] *)
Definition postShorturls (fuel : nat) (req : CreateBody) : M Response :=
  try_catch
    (match validateUrl P (body_url req) with
     | UrlInvalid error => ret (json 400 error)
     | UrlValid url =>
         match validateValidity P (body_validity req)
                 (num (defaultValidityMinutes cfg)) with
         | ValidityInvalid error => ret (json 400 error)
         | ValidityValid validity =>
             let! shortcodeResult := processShortcode cfg fuel (body_shortcode req) in
             match shortcodeResult with
             | Failure error statusCode =>
                 ret (json (if statusCode =? 0 then 500 else statusCode) error)
             | Success shortcode =>
                 let! t := Date_now in
                 let expiryAt :=
                   newDate (js_add (num t) (js_mul (js_mul validity (num 60)) (num 1000))) in
                 let! urlDoc := Url.new shortcode url expiryAt in
                 do! Url.saveNew urlDoc in
                 let shortLink := (config_hostname cfg ++ "/" ++ shortcode)%string in
                 match expiryAt with
                 | None => throw (Error "Invalid time value")
                 | Some expiry =>
                     do! try_catch
                           (Log "backend" "info" "service"
                              ("Short URL created: " ++ shortcode ++ " -> " ++ url)%string)
                           (fun _ => ret tt) in
                     ret {| status := 201; body := Created shortLink expiry |}
                 end
             end
         end
     end)
    (fun error =>
       if bool_decide (error_code error = Some 11000) then
         ret (json 409 "Shortcode already exists")
       else ret (json 500 "Internal server error")).

(** [router.get('/:shortcode')] *)
Definition getShortcode (req : Request) : M Response :=
  try_catch
    (let shortcode := params_shortcode req in
     let! found := Url.findOne shortcode in
     match found with
     | None => ret (json 404 "shortcode not found")
     | Some urlDoc =>
         let! expired := Url.isExpired urlDoc in
         if expired then ret (json 410 "link expired")
         else
           let clientIP := extractClientIP req in
           let headers := extractSafeHeaders req in
           let country :=
             match geoip_lookup P clientIP with
             | Some (Some c) => Some c
             | _ => None
             end in
           let! t := Date_now in
           let clickData :=
             {| ts := t; ip := clientIP; referrer := fst headers;
                userAgent := snd headers; country := country |} in
           let! urlDoc := Url.addClick urlDoc clickData in
           do! try_catch
                 (Log "backend" "info" "route"
                    ("Redirect: " ++ shortcode ++ " accessed from IP " ++ clientIP)%string)
                 (fun _ => ret tt) in
           ret {| status := 302; body := Redirect (originalUrl urlDoc) |}
     end)
    (fun _ => ret (json 500 "Internal server error")).

(** [router.get('/shorturls/:shortcode')] *)
Definition getStats (params_shortcode : string) (page limit : jsval) : M Response :=
  try_catch
    (match validatePagination P page limit with
     | PaginationInvalid error => ret (json 400 error)
     | PaginationValid page limit =>
         let! found := Url.findOne params_shortcode in
         match found with
         | None => ret (json 404 "shortcode not found")
         | Some urlDoc =>
             let startIndex := js_mul (js_sub page (num 1)) limit in
             let endIndex := js_add startIndex limit in
             let paginatedClicks := slice (clicks urlDoc) startIndex endIndex in
             ret {| status := 200;
                    body := Stats (shortcode urlDoc) (originalUrl urlDoc)
                              (createdAt urlDoc) (expiryAt urlDoc)
                              (clickCount urlDoc) paginatedClicks |}
         end
     end)
    (fun _ => ret (json 500 "Internal server error")).

End WithPlatformAndConfig.

End urlRoutes.

(** The status of the response a handler returned, if it returned one. *)
Definition status_of (o : Outcome Response) : option Z :=
  match o with
  | Returned r => Some (status r)
  | _ => None
  end.

(** The three kinds of request the service answers. *)
Inductive Call : Type :=
| PostShorturls (req : CreateBody)
| GetShortcode (req : Request)
| GetStats (shortcode : string) (page limit : jsval).

Definition handle (P : Platform) (cfg : Config) (fuel : nat) (c : Call) : M Response :=
  match c with
  | PostShorturls req => urlRoutes.postShorturls P cfg fuel req
  | GetShortcode req => urlRoutes.getShortcode P req
  | GetStats sc page limit => urlRoutes.getStats P sc page limit
  end.

(** The world after a sequence of requests, served one after the other. *)
Fixpoint serve (P : Platform) (cfg : Config) (fuel : nat) (calls : list Call)
    (w : World) : World :=
  match calls with
  | [] => w
  | c :: rest => serve P cfg fuel rest (snd (handle P cfg fuel c w))
  end.

(** ** Vocabulary of the specification *)

(** The hosts the specification of the SSRF guard lists by name or by
    pattern: [localhost], [127.0.0.1], [0.0.0.0], [10.*], [192.168.*],
    and [172.16.*] to [172.31.*]. *)
Inductive BlockedHost : string -> Prop :=
| blocked_localhost : BlockedHost "localhost"
| blocked_loopback : BlockedHost "127.0.0.1"
| blocked_unspecified : BlockedHost "0.0.0.0"
| blocked_10 rest : BlockedHost ("10." ++ rest)
| blocked_192_168 rest : BlockedHost ("192.168." ++ rest)
| blocked_172 (b : nat) rest :
    (16 <= b <= 31)%nat -> BlockedHost ("172." ++ decimal b ++ "." ++ rest).

(** The loopback hosts, which the specification has the guard reject
    one and all: the name [localhost], every address [127.a.b.c] of the
    loopback network, and the IPv6 loopback address, which the URL
    parser writes [[::1]]. *)
Inductive LoopbackHost : string -> Prop :=
| loopback_name : LoopbackHost "localhost"
| loopback_v4 (a b c : nat) :
    (a <= 255)%nat -> (b <= 255)%nat -> (c <= 255)%nat ->
    LoopbackHost ("127." ++ decimal a ++ "." ++ decimal b ++ "." ++ decimal c)
| loopback_v6 : LoopbackHost "[::1]".

(** A field the request does not carry. *)
Definition absent (v : jsval) : Prop := v = JUndefined \/ v = JNull.

(** A custom code of 4 to 20 alphanumeric characters. *)
Definition WellFormedCode (t : string) : Prop :=
  (4 <= String.length t <= 20)%nat /\
  Forall (fun c => isAlnum c = true) (list_ascii_of_string t).

(** The invariant of a link record: the counter is the number of clicks. *)
Definition countsClicks (d : UrlDoc) : Prop :=
  clickCount d = Z.of_nat (length (clicks d)).

(** Every record of the collection is stored under its own shortcode. *)
Definition wellKeyed (db : gmap string UrlDoc) : Prop :=
  forall sc d, db !! sc = Some d -> shortcode d = sc.

(** How the collection may change: records stay, their clicks only grow
    at the end, a counter that matches stays matching, and a record that
    appears has a matching counter. *)
Definition storeStep (db db' : gmap string UrlDoc) : Prop :=
  wellKeyed db ->
  wellKeyed db' /\
  (forall sc d, db !! sc = Some d ->
     exists d', db' !! sc = Some d' /\
                clicks d `prefix_of` clicks d' /\
                (countsClicks d -> countsClicks d')) /\
  (forall sc d', db !! sc = None -> db' !! sc = Some d' -> countsClicks d').

(** The page of [clicks] the specification describes: [limit] elements
    from offset [(page - 1) * limit]. *)
Definition pageOf {A : Type} (page limit : Z) (l : list A) : list A :=
  take (Z.to_nat limit) (drop (Z.to_nat ((page - 1) * limit)) l).

(** The lengths passed to [generateRandomBase62], in order. *)
Definition drawLengths (evs : list Event) : list nat :=
  omap (fun e => match e with Drew n _ => Some n | _ => None end) evs.

(** The availability checks made, answered or failed. *)
Definition isCheck (e : Event) : bool :=
  match e with
  | Checked _ _ | CheckFailed _ => true
  | _ => false
  end.

Definition checksMade (evs : list Event) : nat := length (List.filter isCheck evs).

(** The attempts to insert a new record, accepted or rejected. *)
Definition isInsertAttempt (e : Event) : bool :=
  match e with
  | Inserted _ | InsertRejected _ _ => true
  | _ => false
  end.

Definition insertAttempts (evs : list Event) : nat :=
  length (List.filter isInsertAttempt evs).

(** The events of the allocator: draws and availability checks. *)
Definition isAllocEvent (e : Event) : bool :=
  match e with
  | Drew _ _ | Checked _ _ | CheckFailed _ => true
  | _ => false
  end.

(** The error [generateUniqueShortcode] throws when every tier failed. *)
Definition allocationExhausted : JsError :=
  Error "Unable to generate unique shortcode after maximum attempts. Database may be experiencing high load.".

(** The length used at the attempt numbered [i] (from 0), five attempts
    to a tier. *)
Definition tier (L i : nat) : nat := (L + i / 5)%nat.

(** The error [isShortcodeAvailable] throws when its query fails. *)
Definition checkFailure : JsError :=
  Error "Database error while checking shortcode availability".

(** ** Runs of the handlers *)

(** A relation between the world before and the world after that a
    computation keeps, whatever the world it starts in. *)
Definition stable (R : World -> World -> Prop) {A : Type} (m : M A) : Prop :=
  forall w, R w (snd (m w)).

(** The relation on worlds: the collection makes a [storeStep]. *)
Definition growing (w w' : World) : Prop := storeStep (urls w) (urls w').

(** The relation on worlds: the run added allocator events only. *)
Definition allocating (w w' : World) : Prop :=
  exists evs, trace w' = (trace w ++ evs)%list /\ forallb isAllocEvent evs = true.

(** The time the next clock read returns. *)
Definition nextRead (w : World) : Z := now w + Z.max 0 (hd 0 (elapsed w)).

(** The world after a clock read. *)
Definition tick (w : World) : World := snd (Date_now w).

(** The five ways a redirect request ends. *)
Inductive RedirectRun (P : Platform) (req : Request) (w : World)
  : Response -> World -> list Event -> Prop :=
| run_lookup_failed e w1 :
    Url.findOne (params_shortcode req) w = (Thrown e, w1) ->
    RedirectRun P req w (urlRoutes.json 500 "Internal server error") w1 []
| run_not_found w1 :
    Url.findOne (params_shortcode req) w = (Returned None, w1) ->
    RedirectRun P req w (urlRoutes.json 404 "shortcode not found") w1
      [Found (params_shortcode req) false]
| run_expired d w1 w2 :
    Url.findOne (params_shortcode req) w = (Returned (Some d), w1) ->
    Url.date_gt (Some (nextRead w1)) (expiryAt d) = true ->
    urls w2 = urls w1 ->
    RedirectRun P req w (urlRoutes.json 410 "link expired") w2
      [Found (params_shortcode req) true]
| run_redirected d c w1 w2 message :
    Url.findOne (params_shortcode req) w = (Returned (Some d), w1) ->
    Url.date_gt (Some (nextRead w1)) (expiryAt d) = false ->
    urls w2 !! shortcode d = Some (Url.pushClick d c) ->
    RedirectRun P req w {| status := 302; body := Redirect (originalUrl d) |} w2
      [Found (params_shortcode req) true; ClickSaved (shortcode d); Logged message]
| run_click_failed d e w1 w2 :
    Url.findOne (params_shortcode req) w = (Returned (Some d), w1) ->
    Url.date_gt (Some (nextRead w1)) (expiryAt d) = false ->
    urls w2 = urls w1 ->
    RedirectRun P req w (urlRoutes.json 500 "Internal server error") w2
      [Found (params_shortcode req) true; ClickRejected (shortcode d) e].

(** The ways a creation request ends, by what it did to the store. *)
Inductive CreateRun : Outcome Response -> World -> list Event -> Prop :=
| create_no_insert out w' evs :
    forallb isAllocEvent evs = true ->
    CreateRun out w' evs
| create_rejected sc e w' evs :
    forallb isAllocEvent evs = true ->
    CreateRun
      (Returned (if bool_decide (error_code e = Some 11000)
                 then urlRoutes.json 409 "Shortcode already exists"
                 else urlRoutes.json 500 "Internal server error"))
      w' (evs ++ [InsertRejected sc e])%list
| create_inserted d resp w' evs tail :
    forallb isAllocEvent evs = true ->
    clickCount d = 0 -> clicks d = [] ->
    urls w' !! shortcode d = Some d ->
    tail = [] \/ (exists message, tail = [Logged message]) ->
    CreateRun (Returned resp) w' (evs ++ Inserted (shortcode d) :: tail)%list.

(** ** A small platform and worlds for the examples *)

(** Unsigned decimal integers only; everything else is NaN. *)
Fixpoint digitsValue (acc : Z) (s : string) : option Z :=
  match s with
  | EmptyString => Some acc
  | String c r =>
      if isDigit c then digitsValue (10 * acc + Z.of_nat (code c) - 48) r else None
  end.

Definition sampleStringToNumber (s : string) : jsnum :=
  match s with
  | EmptyString => num 0
  | _ => match digitsValue 0 s with Some z => num z | None => NaN end
  end.

(** The host of [scheme://host/...]: up to the first of [/ : ? #]. *)
Fixpoint hostPart (s : string) : string :=
  match s with
  | EmptyString => EmptyString
  | String c r =>
      if Ascii.eqb c "/" || Ascii.eqb c ":" || Ascii.eqb c "?" || Ascii.eqb c "#"
      then EmptyString else String c (hostPart r)
  end.

Definition sampleNewURL (s : string) : option URL :=
  match stripPrefix "https://" s, stripPrefix "http://" s with
  | Some rest, _ => Some {| hostname := toLowerCase (hostPart rest); protocol := "https:" |}
  | None, Some rest => Some {| hostname := toLowerCase (hostPart rest); protocol := "http:" |}
  | None, None => None
  end.

Definition samplePlatform : Platform := {|
  StringToNumber := sampleStringToNumber;
  isURL := fun _ => true;
  newURL := sampleNewURL;
  geoip_lookup := fun _ => Some None
|}.

Definition emptyWorld : World := {|
  urls := ∅; weather := []; random := []; now := 1000; elapsed := []; trace := []
|}.

Definition sampleClick (t : Z) : Click :=
  {| ts := t; ip := "203.0.113.7"; referrer := None; userAgent := None; country := None |}.

Definition sampleDoc (sc : string) (expiry : Z) (cs : list Click) : UrlDoc :=
  {| shortcode := sc; originalUrl := "https://example.com/page"; createdAt := 0;
     expiryAt := Some expiry; clickCount := Z.of_nat (length cs); clicks := cs |}.

Definition worldWith (d : UrlDoc) (t : Z) : World := {|
  urls := {[ shortcode d := d ]}; weather := []; random := []; now := t;
  elapsed := []; trace := []
|}.

(** Two live records, [abcd] and [wxyz]. *)
Definition pairWorld : World := {|
  urls := <["wxyz" := sampleDoc "wxyz" 5000 []]> {["abcd" := sampleDoc "abcd" 5000 []]};
  weather := []; random := []; now := 100; elapsed := []; trace := []
|}.

(** An empty collection and six values of [Math.random]: the doubles
    nearest to 0.5161290322580645 (whose product with 62 is rounded up
    to 32), 0, 0.25, 0.9999999999999999 (the largest double below 1),
    0.7312 and 0. *)
Definition drawWorld : World := {|
  urls := ∅; weather := [];
  random := [1162219258676257 # 2251799813685248; 0; 1 # 4;
             9007199254740991 # 9007199254740992;
             6586064095066613 # 9007199254740992; 0]%Q;
  now := 1000; elapsed := []; trace := []
|}.

(** An empty collection in which a concurrent creation commits the code
    [000000] between the availability check of a request and its save. *)
Definition raceWorld : World := {|
  urls := ∅;
  weather := [Calm; Race "000000" "https://other.example/" 900 900000];
  random := []; now := 1000; elapsed := []; trace := []
|}.

(** A world in which the three codes the generator draws from a random
    source stuck at 0 are all taken. *)
Definition crowdedWorld : World := {|
  urls := <["000000" := sampleDoc "000000" 900000 []]>
          (<["0000000" := sampleDoc "0000000" 900000 []]>
           {["00000000" := sampleDoc "00000000" 900000 []]});
  weather := []; random := []; now := 1000; elapsed := []; trace := []
|}.

(** A world holding one live record, [abcd], at time 100. *)
Definition sampleWorld : World := worldWith (sampleDoc "abcd" 5000 []) 100.

(** A record with 25 clicks, at times 0 to 24. *)
Definition clickedDoc : UrlDoc :=
  sampleDoc "abcd" 5000 (map sampleClick (map Z.of_nat (seq 0 25))).

Definition sampleRequest (sc : string) : Request := {|
  params_shortcode := sc;
  header_x_forwarded_for := None;
  header_referrer := None;
  header_referer := None;
  header_user_agent := None;
  connection_remoteAddress := Some "203.0.113.7";
  socket_remoteAddress := Some "203.0.113.7";
  connection_socket_remoteAddress := None
|}.

Definition sampleBody (sc : jsval) : CreateBody := {|
  body_url := JStr "https://example.com/page";
  body_validity := JUndefined;
  body_shortcode := sc
|}.

(** ** Further vocabulary *)

(** The bounds of a value [Math.random] returns: a double that is at
    least 0 and less than 1, hence at most [1 - 2^-53], the largest
    double below 1. *)
Definition randomDouble (q : Q) : Prop :=
  (0 <= q)%Q /\ (q <= 1 - (1 # 9007199254740992))%Q.

(** Made of characters of the alphabet only. *)
Definition overAlphabet (alphabet code : string) : Prop :=
  Forall (fun c => In c (list_ascii_of_string alphabet)) (list_ascii_of_string code).

(** The click a redirect request records when its clock read returns [t]:
    the [clickData] object of [router.get('/:shortcode')]. *)
Definition clickData (P : Platform) (req : Request) (t : Z) : Click :=
  {| ts := t;
     ip := ValidationHelpers.extractClientIP req;
     referrer := fst (ValidationHelpers.extractSafeHeaders req);
     userAgent := snd (ValidationHelpers.extractSafeHeaders req);
     country := match geoip_lookup P (ValidationHelpers.extractClientIP req) with
                | Some (Some c) => Some c
                | _ => None
                end |}.

(** The relation on worlds: every record is still there, unchanged. *)
Definition keeping (w w' : World) : Prop :=
  forall sc d, urls w !! sc = Some d -> urls w' !! sc = Some d.

(** The relation on worlds: every record but the one under [sc] is still
    there, unchanged. *)
Definition keepingOthers (sc : string) (w w' : World) : Prop :=
  forall k d, k <> sc -> urls w !! k = Some d -> urls w' !! k = Some d.

(** [n] redirect requests in a row: their outcomes and the final world. *)
Fixpoint redirects (P : Platform) (req : Request) (n : nat) (w : World)
  : list (Outcome Response) * World :=
  match n with
  | O => ([], w)
  | S k =>
      let (o, w1) := urlRoutes.getShortcode P req w in
      let (os, w2) := redirects P req k w1 in
      (o :: os, w2)
  end.

(** A record after the clicks [cs] were pushed, one [addClick] each. *)
Definition pushClicks (d : UrlDoc) (cs : list Click) : UrlDoc :=
  fold_left Url.pushClick cs d.

(** The relation on worlds: the clock was not read. *)
Definition sameClock (w w' : World) : Prop :=
  now w' = now w /\ elapsed w' = elapsed w.

(** The record a creation request builds for the URL [url] and the code
    [code], created at [created] and expiring at [expiry]. *)
Definition newRecord (code url : string) (created expiry : Z) : UrlDoc :=
  {| shortcode := trim code; originalUrl := trim url; createdAt := created;
     expiryAt := Some expiry; clickCount := 0; clicks := [] |}.

(** ** Further functions of [models/Url.js] *)

Module UrlStatics.

(** [urlSchema.statics.findValidByShortcode]: the query
    [{ shortcode, expiryAt: { $gt: new Date() } }]; the date is taken
    when the query is built. *)
Definition findValidByShortcode (sc : string) : M (option UrlDoc) :=
  let! t := Date_now in
  do! storeOp in
  let! db := readUrls in
  let found :=
    match db !! sc with
    | Some d => if Url.date_gt (expiryAt d) (Some t) then Some d else None
    | None => None
    end in
  do! emit (Found sc (bool_decide (is_Some found))) in
  ret found.

(** The function the [paginatedClicks] virtual returns:
    [(page = 1, limit = 50) => this.clicks.slice(startIndex, endIndex)],
    on numbers; [None] is an argument left out. *)
Definition paginatedClicks (d : UrlDoc) (page limit : option jsnum) : list Click :=
  let page := default (num 1) page in
  let limit := default (num 50) limit in
  let startIndex := js_mul (js_sub page (num 1)) limit in
  let endIndex := js_add startIndex limit in
  slice (clicks d) startIndex endIndex.

End UrlStatics.

(** ** The logging client ([services/loggingClient.js])

    The client keeps a token and its expiry between calls.  The two
    remote services are scripts of replies, each with the time the
    request took; a call of a method runs to its end before the next one
    starts.  A rejected promise is [None]. *)

Module LoggingClient.

(** [config.logging]: eight environment variables, each a string or
    undefined. *)
Record LoggingConfig : Type := mkLoggingConfig {
  authUrl : option string;
  logsUrl : option string;
  accessCode : option string;
  clientId : option string;
  clientSecret : option string;
  email : option string;
  name : option string;
  rollNo : option string
}.

Record Client : Type := mkClient {
  token : option string;
  tokenExpiry : option Z;
  isAuthenticating : bool;
  (** the promise of the last authentication, settled *)
  authPromise : option (option string);
  disabled : bool
}.

(** A reply of the authentication service: a response with its
    [data.token], if it has one, or a failed request. *)
Inductive AuthReply : Type :=
| AuthResponse (took : Z) (data_token : option string)
| AuthRejected (took : Z).

Inductive LogReply : Type :=
| LogAccepted (took : Z)
| LogRejected (took : Z).

(** The requests sent. *)
Inductive Sent : Type :=
| AuthPost
| LogPost (bearer stack level packageName message : string) (timestamp : Z).

Record Net : Type := mkNet {
  clock : Z;
  authReplies : list AuthReply;
  logReplies : list LogReply;
  sent : list Sent
}.

Definition auth_took (r : AuthReply) : Z :=
  match r with AuthResponse t _ | AuthRejected t => Z.max 0 t end.

Definition log_took (r : LogReply) : Z :=
  match r with LogAccepted t | LogRejected t => Z.max 0 t end.

Definition required (cfg : LoggingConfig) : list (string * option string) :=
  [("authUrl", authUrl cfg); ("logsUrl", logsUrl cfg); ("accessCode", accessCode cfg);
   ("clientId", clientId cfg); ("clientSecret", clientSecret cfg); ("email", email cfg);
   ("name", name cfg); ("rollNo", rollNo cfg)].

(** [validateConfig]: the keys with no value, or an empty one. *)
Definition missing (cfg : LoggingConfig) : list string :=
  map fst
    (List.filter (fun kv => negb (truthy (from_option JStr JUndefined (snd kv))))
       (required cfg)).

(** [new LoggingClient()] *)
Definition new (cfg : LoggingConfig) : Client :=
  {| token := None; tokenExpiry := None; isAuthenticating := false;
     authPromise := None;
     disabled := negb (Nat.eqb (length (missing cfg)) 0) |}.

(** [_performAuth] *)
Definition _performAuth (c : Client) (n : Net) : option string * Client * Net :=
  let reply := hd (AuthRejected 0) (authReplies n) in
  let n1 := {| clock := clock n + auth_took reply; authReplies := tl (authReplies n);
               logReplies := logReplies n; sent := sent n ++ [AuthPost] |} in
  match reply with
  | AuthResponse _ (Some t) =>
      if truthy (JStr t) then
        (Some t,
         {| token := Some t; tokenExpiry := Some (clock n1 + 50 * 60 * 1000);
            isAuthenticating := isAuthenticating c; authPromise := authPromise c;
            disabled := disabled c |},
         n1)
      else (None, c, n1)
  | _ => (None, c, n1)
  end.

(** [authenticate] *)
Definition authenticate (c : Client) (n : Net) : option string * Client * Net :=
  if disabled c then (None, c, n)
  else
    match isAuthenticating c, authPromise c with
    | true, Some settled => (settled, c, n)
    | _, _ =>
        let c0 := {| token := token c; tokenExpiry := tokenExpiry c;
                     isAuthenticating := true; authPromise := authPromise c;
                     disabled := disabled c |} in
        let '(result, c1, n1) := _performAuth c0 n in
        (result,
         {| token := token c1; tokenExpiry := tokenExpiry c1;
            isAuthenticating := false; authPromise := Some result;
            disabled := disabled c1 |},
         n1)
    end.

(** [isTokenValid] *)
Definition isTokenValid (c : Client) (n : Net) : bool :=
  match token c, tokenExpiry c with
  | Some t, Some e => truthy (JStr t) && (clock n <? e)
  | _, _ => false
  end.

(** [getValidToken] *)
Definition getValidToken (c : Client) (n : Net) : option string * Client * Net :=
  if isTokenValid c n then (token c, c, n) else authenticate c n.

(** The timer a call of [Log] leaves behind, if any: its delay and the
    retries of the call it will make. *)
Inductive Timer : Type :=
| NoTimer
| SetTimeout (delay : Q) (retries : nat).

(** [Math.pow(2, 3 - retries) * 1000] *)
Definition backoff (retries : nat) : Q :=
  (Qpower 2 (3 - Z.of_nat retries) * 1000)%Q.

Definition accepted (r : LogReply) : bool :=
  match r with LogAccepted _ => true | LogRejected _ => false end.

(** One call of [Log]. *)
Definition Log (stack level packageName message : string) (retries : nat)
    (c : Client) (n : Net) : Timer * Client * Net :=
  if disabled c then (NoTimer, c, n)
  else
    let '(tok, c1, n1) := getValidToken c n in
    let '(delivered, n2) :=
      match tok with
      | Some t =>
          let reply := hd (LogRejected 0) (logReplies n1) in
          (accepted reply,
           {| clock := clock n1 + log_took reply; authReplies := authReplies n1;
              logReplies := tl (logReplies n1);
              sent := sent n1 ++ [LogPost t stack level packageName message (clock n1)] |})
      | None => (false, n1)
      end in
    if delivered then (NoTimer, c1, n2)
    else
      match retries with
      | S r => (SetTimeout (backoff retries) r, c1, n2)
      | O => (NoTimer, c1, n2)
      end.

(** The timer fires no earlier than its delay after it was set. *)
Definition fire (delay : Q) (set : Z) (n : Net) : Net :=
  {| clock := Z.max (clock n) (set + Qceiling delay); authReplies := authReplies n;
     logReplies := logReplies n; sent := sent n |}.

(** One log entry: the first call of [Log] and the calls its timers
    make, with the delays of the timers.  [between] is what else happens
    to the client and the services while a timer is pending. *)
Fixpoint entry (between : Client * Net -> Client * Net)
    (stack level packageName message : string) (retries : nat)
    (c : Client) (n : Net) : list Q * Client * Net :=
  let '(timer, c1, n1) := Log stack level packageName message retries c n in
  match timer, retries with
  | SetTimeout delay _, S r =>
      let '(c2, n2) := between (c1, n1) in
      let '(delays, c3, n3) :=
        entry between stack level packageName message r c2 (fire delay (clock n1) n2) in
      (delay :: delays, c3, n3)
  | _, _ => ([], c1, n1)
  end.

(** [info], [error], [warn] *)
Definition info (stack packageName message : string) :=
  Log stack "info" packageName message 3.
Definition error (stack packageName message : string) :=
  Log stack "error" packageName message 3.
Definition warn (stack packageName message : string) :=
  Log stack "warn" packageName message 3.

End LoggingClient.

(** A complete logging configuration, and services that answer: a token
    after 120 ms, then one rejected entry and accepted ones. *)
Definition sampleLoggingConfig : LoggingClient.LoggingConfig :=
  LoggingClient.mkLoggingConfig
    (Some "https://logs.example/auth") (Some "https://logs.example/logs")
    (Some "code") (Some "id") (Some "secret") (Some "dev@example.com")
    (Some "Dev") (Some "22IT3043").

Definition sampleNet : LoggingClient.Net :=
  LoggingClient.mkNet 1000
    [LoggingClient.AuthResponse 120 (Some "tok-1");
     LoggingClient.AuthResponse 90 (Some "tok-2")]
    [LoggingClient.LogRejected 40; LoggingClient.LogAccepted 30]
    [].

(** Services that do not answer at all. *)
Definition deadNet : LoggingClient.Net := LoggingClient.mkNet 1000 [] [] [].

(** The delays of the timers of an entry logged with [retries] retries,
    when every call fails. *)
Definition schedule (retries : nat) : list Q :=
  map LoggingClient.backoff (rev (seq 1 retries)).

(** The shapes of what one call of [Log] sends: nothing, a request for a
    token, an entry under the token the client holds, or both. *)
Definition Sends (c' : LoggingClient.Client) (stack level packageName message : string)
    (evs : list LoggingClient.Sent) : Prop :=
  evs = [] \/ evs = [LoggingClient.AuthPost] \/
  exists bearer timestamp,
    bearer <> "" /\ LoggingClient.token c' = Some bearer /\
    (evs = [LoggingClient.LogPost bearer stack level packageName message timestamp] \/
     evs = [LoggingClient.AuthPost;
            LoggingClient.LogPost bearer stack level packageName message timestamp]).

(** * Properties *)

Local Open Scope list_scope.

(** ** Numbers *)

Lemma Qtruncate_integer (q : Q) : Qden q = 1%positive -> Qtruncate q = Qnum q.
Proof.
  intros Hden. unfold Qtruncate. rewrite Hden. apply Z.quot_1_r.
Qed.

Lemma Qtruncate_inject_Z (z : Z) : Qtruncate (inject_Z z) = z.
Proof. apply Qtruncate_integer. reflexivity. Qed.

Lemma js_le_num (q : Q) (z : Z) :
  js_le (Fin q) (num z) = true <-> (q <= inject_Z z)%Q.
Proof. unfold js_le, num. apply Qle_bool_iff. Qed.


Lemma js_le_fin_false (x y : Q) : js_le (Fin x) (Fin y) = false -> (y < x)%Q.
Proof.
  unfold js_le. intros H. apply Qnot_le_lt. intros Hle.
  apply Qle_bool_iff in Hle. congruence.
Qed.

(** The first index of a page, as [slice] reads it. *)
Lemma startIndex_integer (p l : Z) :
  ToIntegerOrInfinity (js_mul (js_sub (num p) (num 1)) (num l)) = Idx ((p - 1) * l).
Proof.
  unfold num, js_sub, js_neg, js_add, js_mul, ToIntegerOrInfinity.
  f_equal. rewrite Qtruncate_integer by reflexivity.
  cbn. lia.
Qed.

Lemma endIndex_integer (p l : Z) :
  ToIntegerOrInfinity
    (js_add (js_mul (js_sub (num p) (num 1)) (num l)) (num l)) = Idx ((p - 1) * l + l).
Proof.
  unfold num, js_sub, js_neg, js_add, js_mul, ToIntegerOrInfinity.
  f_equal. rewrite Qtruncate_integer by reflexivity.
  cbn. lia.
Qed.

(** ** [slice] *)

Lemma slice_window {A : Type} (l : list A) (a b : jsnum) (s n : Z) :
  0 <= s -> 0 <= n ->
  ToIntegerOrInfinity a = Idx s ->
  ToIntegerOrInfinity b = Idx (s + n) ->
  slice l a b = take (Z.to_nat n) (drop (Z.to_nat s) l).
Proof.
  intros Hs Hn Ha Hb. unfold slice. rewrite Ha, Hb. unfold clampIndex.
  destruct (Z.ltb_spec s 0) as [?|_]; [lia|].
  destruct (Z.ltb_spec (s + n) 0) as [?|_]; [lia|].
  set (len := Z.of_nat (length l)).
  destruct (Z.le_gt_cases len s) as [Hge|Hlt].
  - rewrite !drop_ge; [by rewrite !take_nil | lia | lia].
  - rewrite (Z.min_l s len) by lia.
    destruct (Z.le_gt_cases (s + n) len) as [Hin|Hout].
    + rewrite (Z.min_l (s + n) len) by lia. do 2 f_equal. lia.
    + rewrite (Z.min_r (s + n) len) by lia.
      rewrite !take_ge; [done | rewrite length_drop; lia | rewrite length_drop; lia].
Qed.


(** ** [validateValidity] *)

Section ValidityFacts.
Variable P : Platform.

Import ValidationService.

Lemma validateValidity_absent (v : jsval) (d : jsnum) :
  absent v -> validateValidity P v d = ValidityValid d.
Proof. intros [-> | ->]; reflexivity. Qed.

(** On an input that is present, the verdict is a function of
    [Number(input)]: NaN, a value not above 0 and a value above 525600
    are rejected, anything else is rounded. *)
Lemma validateValidity_present (v : jsval) (d : jsnum) :
  ~ absent v ->
  validateValidity P v d =
    if isNaN (Number P v) then ValidityInvalid "Validity must be a number"
    else if js_le (Number P v) (num 0) then
      ValidityInvalid "Validity must be greater than 0 minutes"
    else if js_gt (Number P v) (num 525600) then
      ValidityInvalid "Validity cannot exceed 1 year (525600 minutes)"
    else ValidityValid (Math_round (Number P v)).
Proof.
  intros Hv. destruct v; try reflexivity; exfalso; apply Hv; [left | right]; reflexivity.
Qed.

(** What the checks do guarantee about a result computed from an input:
    an integer between 0 and 525600, both included. *)
Lemma validateValidity_range (v : jsval) (d r : jsnum) :
  ~ absent v ->
  validateValidity P v d = ValidityValid r ->
  exists z : Z, r = num z /\ 0 <= z <= 525600.
Proof.
  intros Hv. rewrite (validateValidity_present v d Hv).
  destruct (Number P v) as [| | |q] eqn:Hnum; cbn; try discriminate.
  destruct (Qle_bool q (inject_Z 0)) eqn:Hlow; [discriminate|].
  destruct (Qle_bool q (inject_Z 525600)) eqn:Hhigh; cbn; [|discriminate].
  intros [= <-]. exists (Qfloor (q + (1 # 2))). split; [reflexivity|].
  apply Qle_bool_iff in Hhigh.
  assert (Hpos : (0 < q)%Q).
  { apply Qnot_le_lt. intros Hle. apply Qle_bool_iff in Hle.
    unfold inject_Z in Hlow. congruence. }
  split.
  - change 0 with (Qfloor (inject_Z 0)). rewrite Qfloor_Z.
    rewrite <- (Qfloor_Z 0). apply Qfloor_resp_le.
    apply Qle_trans with q; [apply Qlt_le_weak, Hpos|].
    rewrite <- (Qplus_0_r q) at 1. apply Qplus_le_r. discriminate.
  - change 525600 with (Qfloor (inject_Z 525600 + (1 # 2))).
    apply Qfloor_resp_le. apply Qplus_le_l. exact Hhigh.
Qed.

End ValidityFacts.

(** C3 (the implementation departs from the claim).  [validateValidity]
    accepts a validity of a quarter of a minute, which is a number
    strictly greater than 0 and not above 525600, and returns it rounded
    to the nearest integer: 0.  The result is not strictly greater than 0,
    against the bound [0 < result <= 525600] the claim states for every
    successful result. *)
Theorem validateValidity_rounds_down_to_zero :
  forall (P : Platform) (d : jsnum),
    ValidationService.validateValidity P (JNum (Fin (1 # 4))) d
      = ValidationService.ValidityValid (num 0) /\
    js_gt (Fin (1 # 4)) (num 0) = true /\
    js_gt (num 0) (num 0) = false.
Proof.
  intros P d. split; [reflexivity | split; reflexivity].
Qed.

(** ** [validatePagination] and the statistics handler *)

Section PaginationFacts.
Variable P : Platform.

Import ValidationService.




(** The window [slice] cuts for a finite page. *)
Lemma page_window {A : Type} (cs : list A) (pz lz : Z) :
  1 <= pz -> 1 <= lz ->
  slice cs (js_mul (js_sub (num pz) (num 1)) (num lz))
    (js_add (js_mul (js_sub (num pz) (num 1)) (num lz)) (num lz))
  = pageOf pz lz cs.
Proof.
  intros Hp Hl. unfold pageOf.
  apply slice_window; [nia | lia | apply startIndex_integer | apply endIndex_integer].
Qed.


End PaginationFacts.



(** ** Strings *)

Lemma startsWith_app (p rest : string) : startsWith (p ++ rest)%string p = true.
Proof.
  induction p as [|c p IH]; [reflexivity|].
  change (startsWith (String c (p ++ rest)%string) (String c p) = true).
  cbn. rewrite Ascii.eqb_refl. exact IH.
Qed.

Lemma startsWith_inv (s p : string) :
  startsWith s p = true -> exists rest, s = (p ++ rest)%string.
Proof.
  revert s. induction p as [|c p IH]; intros s H.
  - exists s. reflexivity.
  - destruct s as [|c' s]; cbn in H; [discriminate|].
    apply andb_true_iff in H. destruct H as [Hc H].
    apply Ascii.eqb_eq in Hc. subst c'.
    destruct (IH s H) as [rest ->]. exists rest. reflexivity.
Qed.

Lemma hasHttpScheme_spec (s : string) :
  ValidationService.hasHttpScheme s = true <->
  exists rest, s = ("http://" ++ rest)%string \/ s = ("https://" ++ rest)%string.
Proof.
  unfold ValidationService.hasHttpScheme. rewrite orb_true_iff. split.
  - intros [H | H]; apply startsWith_inv in H; destruct H as [rest ->];
      exists rest; [left | right]; reflexivity.
  - intros [rest [-> | ->]]; [left | right]; apply startsWith_app.
Qed.

(** ** [validateUrl] *)

Lemma blocked_host_is_private (h : string) :
  BlockedHost h -> ValidationService.isPrivateHost (toLowerCase h) = true.
Proof.
  intros Hb. destruct Hb as [| | | rest | rest | b rest Hb]; try reflexivity.
  do 16 (destruct b as [|b]; [lia|]).
  do 16 (destruct b as [|b]; [reflexivity|]).
  lia.
Qed.

Lemma blocked_lowered_host_is_private (h : string) :
  BlockedHost h -> ValidationService.isPrivateHost h = true.
Proof.
  intros Hb. destruct Hb as [| | | rest | rest | b rest Hb]; try reflexivity.
  do 16 (destruct b as [|b]; [lia|]).
  do 16 (destruct b as [|b]; [reflexivity|]).
  lia.
Qed.

Section UrlFacts.
Variable P : Platform.

Import ValidationService.

Lemma validateUrl_not_string (url : jsval) :
  (forall s, url <> JStr s) -> exists e, validateUrl P url = UrlInvalid e.
Proof.
  intros Hns. destruct url; try (eexists; reflexivity).
  exfalso. eapply Hns. reflexivity.
Qed.

(** The verdict on a string, as a function of its trimmed form. *)
Lemma validateUrl_string (s : string) :
  validateUrl P (JStr s) =
    if String.eqb s "" then UrlInvalid "URL is required and must be a string"
    else if String.eqb (trim s) "" then UrlInvalid "URL cannot be empty"
    else if negb (hasHttpScheme (trim s)) then
      UrlInvalid "URL must include http:// or https:// protocol"
    else if negb (isURL P (trim s)) then UrlInvalid "Invalid URL format"
    else match newURL P (trim s) with
         | None => UrlInvalid "Malformed URL"
         | Some u =>
             if isPrivateHost (toLowerCase (hostname u)) then
               UrlInvalid "URLs pointing to private/local addresses are not allowed"
             else if negb (String.eqb (protocol u) "http:" ||
                           String.eqb (protocol u) "https:") then
               UrlInvalid "Only HTTP and HTTPS protocols are allowed"
             else UrlValid (trim s)
         end.
Proof.
  unfold validateUrl, truthy. destruct (String.eqb s ""); reflexivity.
Qed.

End UrlFacts.

(** What [validateUrl] does guard.  It rejects an input that is not a
    string or that is empty (also after trimming); it rejects a string
    whose trimmed form does not start with [http://] or [https://]; it
    rejects what the URL syntax check or the URL parser refuses; it
    rejects every URL whose host is, in any letter case, [localhost],
    [127.0.0.1], [0.0.0.0], [10.*], [192.168.*] or [172.16.*] to
    [172.31.*]; and a successful verdict carries the trimmed input,
    nothing else. *)
Theorem validateUrl_guards :
  forall (P : Platform) (url : jsval),
    ((forall s, url <> JStr s) ->
       exists e, ValidationService.validateUrl P url = ValidationService.UrlInvalid e) /\
    (forall s, url = JStr s -> trim s = "" ->
       exists e, ValidationService.validateUrl P url = ValidationService.UrlInvalid e) /\
    (forall s, url = JStr s ->
       ~ (exists rest, trim s = ("http://" ++ rest)%string \/
                       trim s = ("https://" ++ rest)%string) ->
       exists e, ValidationService.validateUrl P url = ValidationService.UrlInvalid e) /\
    (forall s, url = JStr s ->
       isURL P (trim s) = false \/ newURL P (trim s) = None ->
       exists e, ValidationService.validateUrl P url = ValidationService.UrlInvalid e) /\
    (forall s u, url = JStr s ->
       newURL P (trim s) = Some u ->
       BlockedHost (hostname u) \/ BlockedHost (toLowerCase (hostname u)) ->
       exists e, ValidationService.validateUrl P url = ValidationService.UrlInvalid e) /\
    (forall r, ValidationService.validateUrl P url = ValidationService.UrlValid r ->
       exists s, url = JStr s /\ r = trim s).
Proof.
  intros P url. repeat apply conj.
  - apply validateUrl_not_string.
  - intros s -> Hempty. rewrite validateUrl_string, Hempty.
    destruct (String.eqb s ""); eexists; reflexivity.
  - intros s -> Hscheme. rewrite validateUrl_string.
    destruct (String.eqb s ""); [eexists; reflexivity|].
    destruct (String.eqb (trim s) ""); [eexists; reflexivity|].
    destruct (ValidationService.hasHttpScheme (trim s)) eqn:Hs; [|eexists; reflexivity].
    exfalso. apply Hscheme. apply hasHttpScheme_spec in Hs.
    destruct Hs as [rest Hs]. exists rest. exact Hs.
  - intros s -> Hbad. rewrite validateUrl_string.
    destruct (String.eqb s ""); [eexists; reflexivity|].
    destruct (String.eqb (trim s) ""); [eexists; reflexivity|].
    destruct (negb (ValidationService.hasHttpScheme (trim s))); [eexists; reflexivity|].
    destruct Hbad as [-> | Hnone]; [eexists; reflexivity|].
    destruct (negb (isURL P (trim s))); [eexists; reflexivity|].
    rewrite Hnone. eexists; reflexivity.
  - intros s u -> Hparse Hblocked. rewrite validateUrl_string.
    destruct (String.eqb s ""); [eexists; reflexivity|].
    destruct (String.eqb (trim s) ""); [eexists; reflexivity|].
    destruct (negb (ValidationService.hasHttpScheme (trim s))); [eexists; reflexivity|].
    destruct (negb (isURL P (trim s))); [eexists; reflexivity|].
    rewrite Hparse.
    assert (Hprivate : ValidationService.isPrivateHost (toLowerCase (hostname u)) = true).
    { destruct Hblocked as [Hraw | Hlow];
        [exact (blocked_host_is_private _ Hraw)
        | exact (blocked_lowered_host_is_private _ Hlow)]. }
    rewrite Hprivate. eexists; reflexivity.
  - intros r Hvalid. destruct url as [| | | |s|];
      try (cbn in Hvalid; discriminate).
    exists s. split; [reflexivity|]. rewrite validateUrl_string in Hvalid.
    repeat match type of Hvalid with
           | (if ?c then _ else _) = _ => destruct c; [discriminate|]
           | match ?o with Some _ => _ | None => _ end = _ =>
               destruct o; [|discriminate]
           end.
    congruence.
Qed.

(** Scenario C: [http://localhost/admin] is refused by the SSRF guard. *)
Lemma validateUrl_guards_witness :
  newURL samplePlatform (trim " http://localhost/admin ")
    = Some {| hostname := "localhost"; protocol := "http:" |} /\
  BlockedHost "localhost" /\
  exists e,
    ValidationService.validateUrl samplePlatform (JStr " http://localhost/admin ")
      = ValidationService.UrlInvalid e.
Proof.
  split; [reflexivity|]. split; [constructor|].
  destruct (validateUrl_guards samplePlatform (JStr " http://localhost/admin "))
    as (_ & _ & _ & _ & Hhost & _).
  apply (Hhost " http://localhost/admin "
           {| hostname := "localhost"; protocol := "http:" |});
    [reflexivity | reflexivity | left; constructor].
Defined.

(** The guard compares the host with [127.0.0.1] as a whole: no other
    host that starts with [127.] is private for it. *)
Lemma loopback_network_is_not_private (rest : string) :
  rest <> "0.0.1" -> ValidationService.isPrivateHost ("127." ++ rest) = false.
Proof.
  intros Hrest. unfold ValidationService.isPrivateHost.
  change (String.eqb ("127." ++ rest) "127.0.0.1") with (String.eqb rest "0.0.1").
  apply String.eqb_neq in Hrest. rewrite Hrest. reflexivity.
Qed.

(** C5 (the implementation departs from the claim).  Of the loopback
    hosts the guard refuses [localhost] and [127.0.0.1] only: a URL whose
    host is any other address of the loopback network [127.a.b.c], or the
    IPv6 loopback address [[::1]], passes the host test, and [validateUrl]
    accepts it when the scheme, the URL syntax check and the URL parser
    raise no objection. *)
Theorem validateUrl_accepts_other_loopback_hosts :
  forall (P : Platform) (s : string) (u : URL),
    ValidationService.hasHttpScheme (trim s) = true ->
    isURL P (trim s) = true ->
    newURL P (trim s) = Some u ->
    protocol u = "http:" \/ protocol u = "https:" ->
    LoopbackHost (toLowerCase (hostname u)) ->
    toLowerCase (hostname u) <> "localhost" ->
    toLowerCase (hostname u) <> "127.0.0.1" ->
    ValidationService.isPrivateHost (toLowerCase (hostname u)) = false /\
    ValidationService.validateUrl P (JStr s) = ValidationService.UrlValid (trim s).
Proof.
  intros P s u Hscheme Hsyntax Hparse Hproto Hloop Hname Hone.
  assert (Hpriv : ValidationService.isPrivateHost (toLowerCase (hostname u)) = false).
  { remember (toLowerCase (hostname u)) as h eqn:Hh. clear Hh.
    destruct Hloop as [|a b c _ _ _|].
    - contradiction.
    - apply loopback_network_is_not_private. intros Hrest. apply Hone.
      change ("127." ++ decimal a ++ "." ++ decimal b ++ "." ++ decimal c)%string
        with ("127." ++ (decimal a ++ "." ++ decimal b ++ "." ++ decimal c))%string.
      rewrite Hrest. reflexivity.
    - reflexivity. }
  split; [exact Hpriv|].
  assert (Hne : trim s <> "").
  { intros He. rewrite He in Hscheme. discriminate. }
  rewrite validateUrl_string.
  destruct (String.eqb_spec s "") as [-> | _]; [contradiction|].
  apply String.eqb_neq in Hne. rewrite Hne, Hscheme, Hsyntax, Hparse, Hpriv.
  cbn [negb]. destruct Hproto as [-> | ->]; reflexivity.
Qed.

(** [http://127.0.0.2/] is accepted, surrounding white space removed. *)
Lemma validateUrl_accepts_other_loopback_hosts_witness :
  LoopbackHost "127.0.0.2" /\
  ValidationService.validateUrl samplePlatform (JStr " http://127.0.0.2/ ")
    = ValidationService.UrlValid "http://127.0.0.2/".
Proof.
  assert (Hloop : LoopbackHost "127.0.0.2").
  { exact (loopback_v4 0 0 2 ltac:(lia) ltac:(lia) ltac:(lia)). }
  split; [exact Hloop|].
  refine (proj2 (validateUrl_accepts_other_loopback_hosts samplePlatform
                   " http://127.0.0.2/ "
                   {| hostname := "127.0.0.2"; protocol := "http:" |} _ _ _ _ _ _ _)).
  - reflexivity.
  - reflexivity.
  - reflexivity.
  - left; reflexivity.
  - exact Hloop.
  - discriminate.
  - discriminate.
Defined.

(** ** Computations: what a run leaves unchanged *)

(** One turn of the loop of [generateUniqueShortcode]. *)
Lemma generateLoop_unfold (cfg : Config) (fuel len attempts : nat) :
  ShortcodeService.generateLoop cfg (S fuel) len attempts =
    if (attempts <? maxRetries cfg * 3)%nat then
      bind (ShortcodeService.generateRandomBase62 cfg len) (fun shortcode =>
      bind (try_catch (ShortcodeService.isShortcodeAvailable shortcode)
              (fun error => throw error)) (fun isAvailable =>
      if isAvailable then ret shortcode
      else ShortcodeService.generateLoop cfg fuel
             (if (S attempts mod maxRetries cfg =? 0)%nat then S len else len)
             (S attempts)))
    else throw allocationExhausted.
Proof. reflexivity. Qed.

(** A relation between the world before and after that every step of a
    computation keeps. *)
Section Stability.

Variable R : World -> World -> Prop.
Hypothesis R_refl : forall w, R w w.
Hypothesis R_trans : forall a b c, R a b -> R b c -> R a c.

Lemma stable_ret {A : Type} (a : A) : stable R (ret a).
Proof. intros w. apply R_refl. Qed.

Lemma stable_throw {A : Type} (e : JsError) : stable R (@throw A e).
Proof. intros w. apply R_refl. Qed.

Lemma stable_bind {A B : Type} (m : M A) (k : A -> M B) :
  stable R m -> (forall a, stable R (k a)) -> stable R (bind m k).
Proof.
  intros Hm Hk w. unfold bind. specialize (Hm w).
  destruct (m w) as [[a|e|] w1]; cbn in *; try exact Hm.
  eapply R_trans; [exact Hm | apply Hk].
Qed.

Lemma stable_try_catch {A : Type} (m : M A) (h : JsError -> M A) :
  stable R m -> (forall e, stable R (h e)) -> stable R (try_catch m h).
Proof.
  intros Hm Hh w. unfold try_catch. specialize (Hm w).
  destruct (m w) as [[a|e|] w1]; cbn in *; try exact Hm.
  eapply R_trans; [exact Hm | apply Hh].
Qed.

Lemma stable_readUrls : stable R readUrls.
Proof. intros w. apply R_refl. Qed.

Hypothesis stable_Math_random : stable R Math_random.
Hypothesis stable_storeOp : stable R storeOp.
Hypothesis stable_emit_alloc : forall e, isAllocEvent e = true -> stable R (emit e).

Lemma stable_shortcodeExists (sc : string) : stable R (Url.shortcodeExists sc).
Proof.
  unfold Url.shortcodeExists. apply stable_try_catch.
  - apply stable_bind; [apply stable_storeOp | intros _].
    apply stable_bind; [apply stable_readUrls | intros db].
    apply stable_bind; [apply stable_emit_alloc; reflexivity | intros _].
    apply stable_ret.
  - intros e. apply stable_bind; [apply stable_emit_alloc; reflexivity | intros _].
    apply stable_throw.
Qed.

Lemma stable_isShortcodeAvailable (sc : string) :
  stable R (ShortcodeService.isShortcodeAvailable sc).
Proof.
  unfold ShortcodeService.isShortcodeAvailable. apply stable_try_catch.
  - apply stable_bind; [apply stable_shortcodeExists | intros b; apply stable_ret].
  - intros e. apply stable_throw.
Qed.

Lemma stable_appendRandom (cfg : Config) (n : nat) (acc : string) :
  stable R (ShortcodeService.appendRandom cfg n acc).
Proof.
  revert acc. induction n as [|n IH]; intros acc; cbn.
  - apply stable_ret.
  - apply stable_bind; [apply stable_Math_random | intros r; apply IH].
Qed.

Lemma stable_generateRandomBase62 (cfg : Config) (n : nat) :
  stable R (ShortcodeService.generateRandomBase62 cfg n).
Proof.
  unfold ShortcodeService.generateRandomBase62.
  apply stable_bind; [apply stable_appendRandom | intros code].
  apply stable_bind; [apply stable_emit_alloc; reflexivity | intros _].
  apply stable_ret.
Qed.

Lemma stable_generateLoop (cfg : Config) (fuel len attempts : nat) :
  stable R (ShortcodeService.generateLoop cfg fuel len attempts).
Proof.
  revert len attempts. induction fuel as [|fuel IH]; intros len attempts.
  - intros w. apply R_refl.
  - rewrite generateLoop_unfold.
    destruct (attempts <? maxRetries cfg * 3)%nat; [|apply stable_throw].
    apply stable_bind; [apply stable_generateRandomBase62 | intros code].
    apply stable_bind.
    + apply stable_try_catch; [apply stable_isShortcodeAvailable|].
      intros e. apply stable_throw.
    + intros [|]; [apply stable_ret | apply IH].
Qed.

Lemma stable_processShortcode (cfg : Config) (fuel : nat) (v : jsval) :
  stable R (ShortcodeService.processShortcode cfg fuel v).
Proof.
  unfold ShortcodeService.processShortcode. apply stable_try_catch.
  - destruct (truthy _).
    + destruct (ShortcodeService.validateCustomShortcode cfg _); [|apply stable_ret].
      apply stable_bind; [apply stable_isShortcodeAvailable | intros b].
      destruct (negb b); apply stable_ret.
    + apply stable_bind; [apply stable_generateLoop | intros code; apply stable_ret].
  - intros e. apply stable_ret.
Qed.

End Stability.

(** ** The generator: draws, checks and tiers *)

Lemma appendRandom_run (cfg : Config) (n : nat) (acc : string) (w : World) :
  exists code rnd,
    ShortcodeService.appendRandom cfg n acc w =
      (Returned code,
       {| urls := urls w; weather := weather w; random := rnd; now := now w;
          elapsed := elapsed w; trace := trace w |}).
Proof.
  revert acc w. induction n as [|n IH]; intros acc w.
  - exists acc, (random w). destruct w; reflexivity.
  - cbn [ShortcodeService.appendRandom]. unfold bind at 1. unfold Math_random at 1.
    match goal with |- context [ShortcodeService.appendRandom cfg n ?a ?w'] =>
      destruct (IH a w') as (code & rnd & Hrun) end.
    exists code, rnd. rewrite Hrun. reflexivity.
Qed.

Lemma generateRandomBase62_run (cfg : Config) (n : nat) (w : World) :
  exists code rnd,
    ShortcodeService.generateRandomBase62 cfg n w =
      (Returned code,
       {| urls := urls w; weather := weather w; random := rnd; now := now w;
          elapsed := elapsed w; trace := trace w ++ [Drew n code] |}).
Proof.
  destruct (appendRandom_run cfg n "" w) as (code & rnd & Hrun).
  exists code, rnd. unfold ShortcodeService.generateRandomBase62, bind.
  rewrite Hrun. reflexivity.
Qed.

Lemma isShortcodeAvailable_run (sc : string) (w : World) :
  exists out (ev : Event) w',
    ShortcodeService.isShortcodeAvailable sc w = (out, w') /\
    trace w' = (trace w ++ [ev])%list /\
    ((exists b, out = Returned b /\ ev = Checked sc b) \/
     (out = Thrown checkFailure /\ ev = CheckFailed sc)).
Proof.
  unfold ShortcodeService.isShortcodeAvailable, Url.shortcodeExists,
    try_catch, bind, storeOp, readUrls, emit, ret, throw.
  destruct (hd Calm (weather w)) as [| |rsc rurl rc re]; cbn.
  - eexists _, _, _. split; [reflexivity|]. split; [reflexivity|].
    left. eexists. split; reflexivity.
  - eexists _, _, _. split; [reflexivity|]. split; [reflexivity|].
    right. split; reflexivity.
  - destruct (urls w !! rsc); cbn;
      (eexists _, _, _; split; [reflexivity|]; split; [reflexivity|];
       left; eexists; split; reflexivity).
Qed.

Lemma tier_step (L a : nat) :
  (a < 15)%nat ->
  (if (S a mod 5 =? 0)%nat then S (tier L a) else tier L a) = tier L (S a).
Proof.
  intros Ha. unfold tier.
  do 15 (destruct a as [|a]; [cbn; lia|]). lia.
Qed.

Lemma drawLengths_app (xs ys : list Event) :
  drawLengths (xs ++ ys)%list = (drawLengths xs ++ drawLengths ys)%list.
Proof. unfold drawLengths. apply omap_app. Qed.

(** The loop from attempt [a] on, with five retries per length: it ends,
    its draws follow the tiers, and it reports exhaustion only after the
    fifteenth failed attempt. *)
Lemma generateLoop_run (cfg : Config) (L : nat) :
  maxRetries cfg = 5%nat ->
  forall (fuel a : nat) (w : World),
    (a <= 15)%nat -> (15 - a < fuel)%nat ->
    exists (out : Outcome string) (w' : World) (evs : list Event) (k : nat),
      ShortcodeService.generateLoop cfg fuel (tier L a) a w = (out, w') /\
      trace w' = (trace w ++ evs)%list /\
      out <> OutOfFuel /\
      (k <= 15 - a)%nat /\
      drawLengths evs = map (tier L) (seq a k) /\
      checksMade evs = k /\
      (forall code, out = Returned code ->
         In (Checked code true) evs /\ exists n, In (Drew n code) evs) /\
      (forall e, out = Thrown e ->
         (e = allocationExhausted /\ k = (15 - a)%nat /\
          forall sc, ~ In (Checked sc true) evs) \/
         (e = checkFailure /\ exists sc, In (CheckFailed sc) evs)).
Proof.
  intros Hmax. induction fuel as [|fuel IH]; intros a w Ha Hfuel; [lia|].
  rewrite generateLoop_unfold, Hmax. change (5 * 3)%nat with 15%nat.
  destruct (Nat.ltb_spec a 15) as [Hlt|Hge].
  - destruct (generateRandomBase62_run cfg (tier L a) w) as (code & rnd & Hdraw).
    unfold bind at 1. rewrite Hdraw.
    match goal with |- context [bind _ _ ?w1] => set (w1' := w1) end.
    destruct (isShortcodeAvailable_run code w1') as (o & ev & w2 & Hchk & Htr & Hcase).
    unfold bind, try_catch. rewrite Hchk.
    assert (Htr2 : trace w2 = (trace w ++ [Drew (tier L a) code; ev])%list).
    { rewrite Htr. subst w1'. cbn. rewrite <- app_assoc. reflexivity. }
    destruct Hcase as [(b & -> & ->) | (-> & ->)].
    + destruct b.
      * exists (Returned code), w2, [Drew (tier L a) code; Checked code true], 1%nat.
        repeat split; try done; try lia.
        -- match goal with H : Returned _ = Returned _ |- _ => injection H as <- end.
           right; left; reflexivity.
        -- match goal with H : Returned _ = Returned _ |- _ => injection H as <- end.
           exists (tier L a). left; reflexivity.
      * rewrite tier_step by lia.
        destruct (IH (S a) w2) as (out & w' & evs & k & Hrun & Htr' & Hfuel' & Hk & Hlen & Hchecks & Hret & Hthr);
          [lia | lia |].
        exists out, w', ([Drew (tier L a) code; Checked code false] ++ evs)%list, (S k).
        rewrite Hrun. split_and!; try done.
        -- rewrite Htr', Htr2, <- app_assoc. reflexivity.
        -- lia.
        -- rewrite drawLengths_app, Hlen. reflexivity.
        -- unfold checksMade in *. cbn. rewrite Hchecks. reflexivity.
        -- intros c Hc. destruct (Hret c Hc) as [Hin [n Hdrew]].
           split; [right; right; exact Hin | exists n; right; right; exact Hdrew].
        -- intros e He. destruct (Hthr e He) as [(-> & -> & Hno) | (-> & sc & Hin)].
           ++ left. repeat split; [lia|]. intros sc [Hd | [Hc | Hin]];
                [discriminate | discriminate | exact (Hno sc Hin)].
           ++ right. split; [reflexivity|]. exists sc. right; right. exact Hin.
    + exists (Thrown checkFailure), w2, [Drew (tier L a) code; CheckFailed code], 1%nat.
      repeat split; try done; try lia.
      intros e [= <-]. right. split; [reflexivity|]. exists code. right; left; reflexivity.
  - exists (Thrown allocationExhausted), w, [], 0%nat.
    repeat split; try done; try lia.
    + rewrite app_nil_r. reflexivity.
    + intros e [= <-]. left. repeat split; [lia|]. intros sc [].
Qed.

Lemma tiers_of_fifteen (L k : nat) :
  (k <= 15)%nat ->
  map (tier L) (seq 0 k) =
    take k (replicate 5 L ++ replicate 5 (L + 1)%nat ++ replicate 5 (L + 2)%nat).
Proof.
  intros Hk.
  assert (Hall : map (tier L) (seq 0 15) =
                 replicate 5 L ++ replicate 5 (L + 1)%nat ++ replicate 5 (L + 2)%nat).
  { unfold tier. cbn. rewrite !Nat.add_0_r. reflexivity. }
  rewrite <- Hall.
  change (map (tier L) (seq 0 15)) with (tier L <$> seq 0 15).
  rewrite <- fmap_take, take_seq, Nat.min_l by lia. reflexivity.
Qed.

(** The generator, as its callers see it: it ends, and a code it returns
    was drawn and checked available. *)
Lemma generator_returns_drawn_code
  (cfg : Config) (fuel L : nat) (w : World) :
  maxRetries cfg = 5%nat ->
  (15 < fuel)%nat ->
  exists (out : Outcome string) (w' : World) (evs : list Event),
    ShortcodeService.generateUniqueShortcode cfg fuel L w = (out, w') /\
    trace w' = trace w ++ evs /\
    out <> OutOfFuel /\
    (forall code, out = Returned code ->
       In (Checked code true) evs /\ exists n, In (Drew n code) evs).
Proof.
  intros Hmax Hfuel.
  assert (HL : tier L 0 = L) by (unfold tier; cbn; lia).
  destruct (generateLoop_run cfg L Hmax fuel 0%nat w)
    as (out & w' & evs & k & Hrun & Htr & Hout & _ & _ & _ & Hret & _);
    [lia | lia |].
  rewrite HL in Hrun. exists out, w', evs. done.
Qed.

(** C4.  With five retries per length, [generateUniqueShortcode] always
    ends: it makes at most 15 draws, each followed by one availability
    check; the lengths drawn are five times the initial length, then five
    times that length plus 1, then five times that length plus 2, in this
    order and up to where the run stops; and when no check answers
    "available" (and no check fails) all 15 draws are made and the fatal
    allocation error is thrown. *)
Theorem generateUniqueShortcode_terminates_within_three_tiers :
  forall (cfg : Config) (fuel L : nat) (w : World),
    maxRetries cfg = 5%nat ->
    (15 < fuel)%nat ->
    exists (out : Outcome string) (w' : World) (evs : list Event) (k : nat),
      ShortcodeService.generateUniqueShortcode cfg fuel L w = (out, w') /\
      trace w' = (trace w ++ evs)%list /\
      out <> OutOfFuel /\
      (k <= 15)%nat /\
      checksMade evs = k /\
      drawLengths evs =
        take k (replicate 5 L ++ replicate 5 (L + 1)%nat ++ replicate 5 (L + 2)%nat) /\
      (forall code, out = Returned code ->
         In (Checked code true) evs /\ exists n, In (Drew n code) evs) /\
      (forall e, out = Thrown e ->
         (e = allocationExhausted /\ k = 15%nat) \/ e = checkFailure) /\
      ((forall sc, ~ In (Checked sc true) evs) ->
       (forall sc, ~ In (CheckFailed sc) evs) ->
       out = Thrown allocationExhausted /\ k = 15%nat).
Proof.
  intros cfg fuel L w Hmax Hfuel.
  assert (HL : tier L 0 = L) by (unfold tier; cbn; lia).
  destruct (generateLoop_run cfg L Hmax fuel 0%nat w)
    as (out & w' & evs & k & Hrun & Htr & Hout & Hk & Hlen & Hchecks & Hret & Hthr);
    [lia | lia |].
  rewrite HL in Hrun. exists out, w', evs, k.
  split; [exact Hrun|]. split; [exact Htr|]. split; [exact Hout|].
  split; [lia|]. split; [exact Hchecks|].
  split; [rewrite Hlen; apply tiers_of_fifteen; lia|].
  split; [exact Hret|]. split.
  - intros e He. destruct (Hthr e He) as [(-> & -> & _) | (-> & _)];
      [left; split; [reflexivity | lia] | right; reflexivity].
  - intros Hnone Hnofail. destruct out as [code|e|].
    + exfalso. apply (Hnone code). apply (Hret code eq_refl).
    + destruct (Hthr e eq_refl) as [(-> & -> & _) | (-> & sc & Hin)].
      * split; [reflexivity | lia].
      * exfalso. exact (Hnofail sc Hin).
    + contradiction.
Qed.

Lemma generateUniqueShortcode_terminates_within_three_tiers_witness :
  maxRetries defaultConfig = 5%nat /\ (15 < 16)%nat /\
  exists (out : Outcome string) (k : nat),
    fst (ShortcodeService.generateUniqueShortcode defaultConfig 16 6 emptyWorld) = out /\
    out <> OutOfFuel /\ (k <= 15)%nat.
Proof.
  split; [reflexivity|]. split; [lia|].
  destruct (generateUniqueShortcode_terminates_within_three_tiers
              defaultConfig 16 6 emptyWorld eq_refl)
    as (out & w' & evs & k & Hrun & _ & Hout & Hk & _); [lia|].
  exists out, k. rewrite Hrun. split; [reflexivity|]. split; [exact Hout | exact Hk].
Defined.

(** ** Custom codes *)

Lemma allChars_Forall (p : ascii -> bool) (s : string) :
  allChars p s = true <-> Forall (fun c => p c = true) (list_ascii_of_string s).
Proof.
  induction s as [|c s IH]; cbn.
  - split; [constructor | reflexivity].
  - rewrite andb_true_iff, IH. split.
    + intros [Hc Hs]. constructor; assumption.
    + intros H. inversion H; subst. split; assumption.
Qed.

Lemma isAlphanumeric_spec (s : string) :
  (1 <= String.length s)%nat ->
  isAlphanumeric s = true <->
  Forall (fun c => isAlnum c = true) (list_ascii_of_string s).
Proof.
  intros Hlen. destruct s as [|c s]; [cbn in Hlen; lia|].
  unfold isAlphanumeric. apply allChars_Forall.
Qed.

Lemma truthy_nonempty (s : string) : s <> "" -> truthy (JStr s) = true.
Proof.
  intros Hs. cbn. apply negb_true_iff. apply String.eqb_neq. exact Hs.
Qed.

Section CustomCodeFacts.
Variable cfg : Config.
Hypothesis Hmin : minCustomLength cfg = 4%nat.
Hypothesis Hmax : maxCustomLength cfg = 20%nat.

Import ShortcodeService.

Lemma validateCustomShortcode_accepts (s : string) :
  s <> "" -> WellFormedCode (trim s) ->
  validateCustomShortcode cfg (JStr s) = CustomValid (trim s).
Proof.
  intros Hs [[Hlo Hhi] Hall]. unfold validateCustomShortcode.
  rewrite (truthy_nonempty s Hs), Hmin, Hmax. cbn [negb].
  destruct (Nat.ltb_spec (String.length (trim s)) 4); [lia|].
  destruct (Nat.ltb_spec 20 (String.length (trim s))); [lia|].
  apply isAlphanumeric_spec in Hall; [|lia]. rewrite Hall. reflexivity.
Qed.

Lemma validateCustomShortcode_rejects (s : string) :
  ~ WellFormedCode (trim s) ->
  exists msg, validateCustomShortcode cfg (JStr s) = CustomInvalid msg.
Proof.
  intros Hbad. unfold validateCustomShortcode.
  destruct (negb (truthy (JStr s))); [eexists; reflexivity|].
  rewrite Hmin, Hmax.
  destruct (Nat.ltb_spec (String.length (trim s)) 4); [eexists; reflexivity|].
  destruct (Nat.ltb_spec 20 (String.length (trim s))); [eexists; reflexivity|].
  destruct (isAlphanumeric (trim s)) eqn:Hal; [|eexists; reflexivity].
  exfalso. apply Hbad. split; [lia|].
  apply isAlphanumeric_spec; [lia | exact Hal].
Qed.

End CustomCodeFacts.

(** A code present in the collection is reported taken, whatever a
    concurrent creation does, unless the query itself fails. *)
Lemma isShortcodeAvailable_taken (sc : string) (w : World) :
  is_Some (urls w !! sc) ->
  hd Calm (weather w) <> Down ->
  exists w', ShortcodeService.isShortcodeAvailable sc w = (Returned false, w').
Proof.
  intros [d Hd] Hup.
  unfold ShortcodeService.isShortcodeAvailable, Url.shortcodeExists,
    try_catch, bind, storeOp, readUrls, emit, ret, throw.
  destruct (hd Calm (weather w)) as [| |rsc rurl rc re]; [|contradiction|].
  - cbn. rewrite Hd. rewrite bool_decide_eq_true_2 by eauto. eexists; reflexivity.
  - destruct (urls w !! rsc) eqn:Hr; cbn.
    + rewrite Hd. rewrite bool_decide_eq_true_2 by eauto. eexists; reflexivity.
    + assert (Hne : rsc <> sc) by congruence.
      rewrite lookup_insert_ne by exact Hne. rewrite Hd.
      rewrite bool_decide_eq_true_2 by eauto. eexists; reflexivity.
Qed.

(** C8.  For a creation request that carries a custom code: a code that
    is not 4 to 20 alphanumeric characters after trimming is answered
    with status 400, without the store being consulted; a well-formed
    code that is already in the collection is answered with status 409.
    The two cases have different status codes. *)
Theorem custom_code_invalid_400_taken_409 :
  forall (P : Platform) (cfg : Config) (fuel : nat) (req : CreateBody)
         (s url : string) (validity : jsnum) (w : World),
    minCustomLength cfg = 4%nat ->
    maxCustomLength cfg = 20%nat ->
    body_shortcode req = JStr s ->
    s <> "" ->
    ValidationService.validateUrl P (body_url req) = ValidationService.UrlValid url ->
    ValidationService.validateValidity P (body_validity req)
      (num (defaultValidityMinutes cfg)) = ValidationService.ValidityValid validity ->
    (~ WellFormedCode (trim s) ->
       exists msg,
         ShortcodeService.processShortcode cfg fuel (JStr s) w
           = (Returned (ShortcodeService.Failure msg 400), w) /\
         urlRoutes.postShorturls P cfg fuel req w
           = (Returned {| status := 400; body := Message msg |}, w)) /\
    (WellFormedCode (trim s) ->
     is_Some (urls w !! trim s) ->
     hd Calm (weather w) <> Down ->
       exists w',
         ShortcodeService.processShortcode cfg fuel (JStr s) w
           = (Returned (ShortcodeService.Failure "Custom shortcode is already taken" 409), w') /\
         urlRoutes.postShorturls P cfg fuel req w
           = (Returned {| status := 409;
                          body := Message "Custom shortcode is already taken" |}, w')).
Proof.
  intros P cfg fuel req s url validity w Hmin Hmax Hcode Hs Hurl Hval.
  split.
  - intros Hbad.
    destruct (validateCustomShortcode_rejects cfg Hmin Hmax s Hbad) as [msg Hmsg].
    exists msg.
    assert (Hproc : ShortcodeService.processShortcode cfg fuel (JStr s) w
                    = (Returned (ShortcodeService.Failure msg 400), w)).
    { unfold ShortcodeService.processShortcode, try_catch.
      rewrite (truthy_nonempty s Hs), Hmsg. reflexivity. }
    split; [exact Hproc|].
    unfold urlRoutes.postShorturls, try_catch, bind.
    rewrite Hurl, Hval, Hcode, Hproc. reflexivity.
  - intros Hgood Htaken Hup.
    destruct (isShortcodeAvailable_taken (trim s) w Htaken Hup) as [w' Hchk].
    exists w'.
    assert (Hproc : ShortcodeService.processShortcode cfg fuel (JStr s) w
                    = (Returned (ShortcodeService.Failure
                                   "Custom shortcode is already taken" 409), w')).
    { unfold ShortcodeService.processShortcode, try_catch, bind.
      rewrite (truthy_nonempty s Hs).
      rewrite (validateCustomShortcode_accepts cfg Hmin Hmax s Hs Hgood), Hchk.
      reflexivity. }
    split; [exact Hproc|].
    unfold urlRoutes.postShorturls, try_catch, bind.
    rewrite Hurl, Hval, Hcode, Hproc. reflexivity.
Qed.

(** Scenario D: a second creation with the custom code [abcd] gets 409;
    a creation with the custom code [ab] gets 400. *)
Lemma custom_code_invalid_400_taken_409_witness :
  status_of (fst (urlRoutes.postShorturls samplePlatform defaultConfig 16
                    (sampleBody (JStr "abcd")) sampleWorld)) = Some 409 /\
  status_of (fst (urlRoutes.postShorturls samplePlatform defaultConfig 16
                    (sampleBody (JStr "ab")) sampleWorld)) = Some 400.
Proof.
  split.
  - destruct (custom_code_invalid_400_taken_409 samplePlatform defaultConfig 16
                (sampleBody (JStr "abcd")) "abcd" "https://example.com/page" (num 30)
                sampleWorld eq_refl eq_refl eq_refl ltac:(discriminate) eq_refl eq_refl)
      as [_ Htaken].
    destruct Htaken as [w' [_ Hrun]].
    + split; [vm_compute; lia | vm_compute; repeat constructor].
    + exists (sampleDoc "abcd" 5000 []). vm_compute. reflexivity.
    + discriminate.
    + rewrite Hrun. reflexivity.
  - destruct (custom_code_invalid_400_taken_409 samplePlatform defaultConfig 16
                (sampleBody (JStr "ab")) "ab" "https://example.com/page" (num 30)
                sampleWorld eq_refl eq_refl eq_refl ltac:(discriminate) eq_refl eq_refl)
      as [Hbad _].
    destruct Hbad as [msg [_ Hrun]].
    + intros [[Hlen _] _]. vm_compute in Hlen. lia.
    + rewrite Hrun. reflexivity.
Defined.



(** ** The collection only grows *)

Lemma storeStep_refl (db : gmap string UrlDoc) : storeStep db db.
Proof.
  intros Hk. split; [exact Hk|]. split.
  - intros sc d Hd. exists d. done.
  - intros sc d' Hnone Hsome. congruence.
Qed.

Lemma storeStep_trans (a b c : gmap string UrlDoc) :
  storeStep a b -> storeStep b c -> storeStep a c.
Proof.
  intros Hab Hbc Hk.
  destruct (Hab Hk) as (Hkb & Hab2 & Hab3).
  destruct (Hbc Hkb) as (Hkc & Hbc2 & Hbc3).
  split; [exact Hkc|]. split.
  - intros sc d Hd.
    destruct (Hab2 sc d Hd) as (d1 & Hd1 & Hp1 & Hc1).
    destruct (Hbc2 sc d1 Hd1) as (d2 & Hd2 & Hp2 & Hc2).
    exists d2. split; [exact Hd2|]. split; [by etrans | auto].
  - intros sc d2 Hnone Hsome.
    destruct (b !! sc) as [d1|] eqn:Hb.
    + destruct (Hbc2 sc d1 Hb) as (d2' & Hd2' & _ & Hc2).
      assert (d2' = d2) by congruence. subst d2'.
      apply Hc2. exact (Hab3 sc d1 Hnone Hb).
    + exact (Hbc3 sc d2 Hb Hsome).
Qed.

Lemma storeStep_insert_new (db : gmap string UrlDoc) (d : UrlDoc) :
  db !! shortcode d = None -> countsClicks d ->
  storeStep db (<[shortcode d := d]> db).
Proof.
  intros Hfree Hcount Hk. split; [|split].
  - intros sc d' Hd'. destruct (decide (shortcode d = sc)) as [<-|Hne].
    + rewrite lookup_insert_eq in Hd'. congruence.
    + rewrite lookup_insert_ne in Hd' by exact Hne. exact (Hk sc d' Hd').
  - intros sc d0 Hd0. exists d0.
    rewrite lookup_insert_ne by congruence. done.
  - intros sc d' Hnone Hsome. destruct (decide (shortcode d = sc)) as [<-|Hne].
    + rewrite lookup_insert_eq in Hsome. congruence.
    + rewrite lookup_insert_ne in Hsome by exact Hne. congruence.
Qed.

Lemma storeStep_push (db : gmap string UrlDoc) (d : UrlDoc) (c : Click) :
  db !! shortcode d = Some d ->
  storeStep db (<[shortcode d := Url.pushClick d c]> db).
Proof.
  intros Hd Hk. split; [|split].
  - intros sc d' Hd'. destruct (decide (shortcode d = sc)) as [<-|Hne].
    + rewrite lookup_insert_eq in Hd'. injection Hd' as <-. reflexivity.
    + rewrite lookup_insert_ne in Hd' by exact Hne. exact (Hk sc d' Hd').
  - intros sc d0 Hd0. destruct (decide (shortcode d = sc)) as [<-|Hne].
    + rewrite lookup_insert_eq. exists (Url.pushClick d c).
      assert (d0 = d) by congruence. subst d0.
      split; [reflexivity|]. split; [by apply prefix_app_r | intros _; reflexivity].
    + rewrite lookup_insert_ne by exact Hne. exists d0. done.
  - intros sc d' Hnone Hsome. destruct (decide (shortcode d = sc)) as [<-|Hne].
    + congruence.
    + rewrite lookup_insert_ne in Hsome by exact Hne. congruence.
Qed.

Lemma growing_refl (w : World) : growing w w.
Proof. apply storeStep_refl. Qed.

Lemma growing_trans (a b c : World) : growing a b -> growing b c -> growing a c.
Proof. apply storeStep_trans. Qed.

Lemma growing_same (w w' : World) : urls w' = urls w -> growing w w'.
Proof. unfold growing. intros ->. apply storeStep_refl. Qed.

Lemma growing_storeOp : stable growing storeOp.
Proof.
  intros w. unfold storeOp.
  destruct (hd Calm (weather w)) as [| |rsc rurl rc re]; cbn;
    try (apply growing_same; reflexivity).
  destruct (urls w !! rsc) eqn:Hr; cbn; [apply growing_same; reflexivity|].
  unfold growing. cbn.
  apply (storeStep_insert_new (urls w) (raceDoc rsc rurl rc re)); [exact Hr | reflexivity].
Qed.

Lemma growing_emit (e : Event) : stable growing (emit e).
Proof. intros w. apply growing_same. reflexivity. Qed.

Lemma growing_Math_random : stable growing Math_random.
Proof. intros w. apply growing_same. reflexivity. Qed.

Lemma growing_Date_now : stable growing Date_now.
Proof. intros w. apply growing_same. reflexivity. Qed.

Lemma growing_processShortcode (cfg : Config) (fuel : nat) (v : jsval) :
  stable growing (ShortcodeService.processShortcode cfg fuel v).
Proof.
  apply stable_processShortcode;
    [apply growing_refl | apply growing_trans | apply growing_Math_random
     | apply growing_storeOp | intros e _; apply growing_emit].
Qed.

Lemma growing_findOne (sc : string) : stable growing (Url.findOne sc).
Proof.
  unfold Url.findOne.
  apply stable_bind; [apply growing_trans | apply growing_storeOp | intros _].
  apply stable_bind; [apply growing_trans | apply stable_readUrls, growing_refl | intros db].
  apply stable_bind; [apply growing_trans | apply growing_emit | intros _].
  apply stable_ret, growing_refl.
Qed.

(** Saving a new record that has no clicks and a zero counter. *)
Lemma growing_saveNew (d : UrlDoc) :
  clickCount d = 0 -> clicks d = [] -> stable growing (Url.saveNew d).
Proof.
  intros Hcount Hclicks w. unfold Url.saveNew, try_catch, bind.
  destruct (Url.validate d); [apply growing_same; reflexivity|].
  unfold Date_now at 1. cbv beta iota zeta.
  destruct (Url.date_le _ _); [apply growing_same; reflexivity|].
  match goal with |- context [storeOp ?w1] =>
    pose proof (growing_storeOp w1) as Hop;
    destruct (storeOp w1) as [[[]|e|] w2] eqn:Hrun end; cbn in Hop.
  - unfold readUrls at 1. cbv beta iota zeta.
    destruct (urls w2 !! shortcode d) eqn:Hfree; cbn.
    + exact Hop.
    + eapply growing_trans; [exact Hop|]. unfold growing. cbn.
      apply storeStep_insert_new; [exact Hfree|].
      unfold countsClicks. rewrite Hcount, Hclicks. reflexivity.
  - cbn. exact Hop.
  - exact Hop.
Qed.

(** Saving a click on a record as it stands in the collection. *)
Lemma growing_addClick (d : UrlDoc) (c : Click) (w : World) :
  urls w !! shortcode d = Some d ->
  growing w (snd (Url.addClick d c w)).
Proof.
  intros Hd. unfold Url.addClick, Url.saveExisting, bind, try_catch.
  destruct (Url.validate (Url.pushClick d c)); [apply growing_same; reflexivity|].
  pose proof (growing_storeOp w) as Hop.
  assert (Hkept : forall out w1, storeOp w = (out, w1) -> out = Returned tt ->
                                  urls w1 !! shortcode d = Some d).
  { unfold storeOp. destruct (hd Calm (weather w)) as [| |rsc rurl rc re].
    - intros out w1 [= <- <-] _. exact Hd.
    - intros out w1 [= <- <-] Hout. discriminate.
    - destruct (urls w !! rsc) eqn:Hr; intros out w1 [= <- <-] _; cbn; [exact Hd|].
      rewrite lookup_insert_ne by congruence. exact Hd. }
  destruct (storeOp w) as [[[]|e|] w1] eqn:Hrun; cbn in Hop; cbn.
  - eapply growing_trans; [exact Hop|]. unfold growing. cbn.
    apply storeStep_push. exact (Hkept _ _ eq_refl eq_refl).
  - exact Hop.
  - exact Hop.
Qed.

(** ** The redirect handler, case by case *)

Lemma try_catch_bind_returned {A B : Type} (m : M A) (k : A -> M B)
      (h : JsError -> M B) (w w1 : World) (a : A) :
  m w = (Returned a, w1) -> try_catch (bind m k) h w = try_catch (k a) h w1.
Proof. intros Hm. unfold try_catch, bind. rewrite Hm. reflexivity. Qed.

Lemma try_catch_bind_thrown {A B : Type} (m : M A) (k : A -> M B)
      (h : JsError -> M B) (w w1 : World) (e : JsError) :
  m w = (Thrown e, w1) -> try_catch (bind m k) h w = h e w1.
Proof. intros Hm. unfold try_catch, bind. rewrite Hm. reflexivity. Qed.

Lemma findOne_run (sc : string) (w : World) :
  (exists e w1, Url.findOne sc w = (Thrown e, w1) /\
                trace w1 = trace w /\ urls w1 = urls w) \/
  (exists found w1, Url.findOne sc w = (Returned found, w1) /\
                    found = urls w1 !! sc /\
                    trace w1 = trace w ++ [Found sc (bool_decide (is_Some found))]).
Proof.
  unfold Url.findOne, bind, storeOp, readUrls, emit, ret.
  destruct (hd Calm (weather w)) as [| |rsc rurl rc re]; cbn.
  - right. eexists _, _. split; [reflexivity|]. split; reflexivity.
  - left. eexists _, _. split; [reflexivity|]. split; reflexivity.
  - destruct (urls w !! rsc); cbn; right; eexists _, _;
      (split; [reflexivity|]; split; reflexivity).
Qed.

Lemma addClick_run (d : UrlDoc) (c : Click) (w : World) :
  (exists w', Url.addClick d c w = (Returned (Url.pushClick d c), w') /\
              trace w' = trace w ++ [ClickSaved (shortcode d)] /\
              urls w' !! shortcode d = Some (Url.pushClick d c)) \/
  (exists e w', Url.addClick d c w = (Thrown e, w') /\
                trace w' = trace w ++ [ClickRejected (shortcode d) e] /\
                urls w' = urls w).
Proof.
  unfold Url.addClick, Url.saveExisting, bind, try_catch.
  destruct (Url.validate (Url.pushClick d c)) as [msg|].
  - right. eexists _, _. split; [reflexivity|]. split; reflexivity.
  - unfold storeOp, writeUrl, emit, ret, throw.
    destruct (hd Calm (weather w)) as [| |rsc rurl rc re]; cbn.
    + left. eexists. split; [reflexivity|]. split; [reflexivity|].
      apply lookup_insert_eq.
    + right. eexists _, _. split; [reflexivity|]. split; reflexivity.
    + destruct (urls w !! rsc); cbn; left; eexists;
        (split; [reflexivity|]; split; [reflexivity|]; apply lookup_insert_eq).
Qed.

Lemma getShortcode_run (P : Platform) (req : Request) (w : World) :
  exists resp w' evs,
    urlRoutes.getShortcode P req w = (Returned resp, w') /\
    trace w' = trace w ++ evs /\
    growing w w' /\
    RedirectRun P req w resp w' evs.
Proof.
  unfold urlRoutes.getShortcode.
  pose proof (growing_findOne (params_shortcode req) w) as Hgrow.
  destruct (findOne_run (params_shortcode req) w)
    as [(e & w1 & Hfind & Htr & Hdb) | (found & w1 & Hfind & Hd & Htr)];
    rewrite Hfind in Hgrow; cbn [snd] in Hgrow.
  - rewrite (try_catch_bind_thrown _ _ _ _ _ _ Hfind).
    eexists _, w1, []. split; [reflexivity|]. split; [rewrite app_nil_r; exact Htr|].
    split; [exact Hgrow|]. eapply run_lookup_failed, Hfind.
  - rewrite (try_catch_bind_returned _ _ _ _ _ _ Hfind).
    destruct found as [d|].
    + rewrite bool_decide_eq_true_2 in Htr by eauto.
      unfold Url.isExpired. unfold bind at 1. unfold bind at 1.
      unfold Date_now at 1. unfold try_catch, ret at 1. cbv beta iota zeta.
      fold (nextRead w1).
      destruct (Url.date_gt (Some (nextRead w1)) (expiryAt d)) eqn:Hexp.
      * eexists _, _, _. split; [reflexivity|]. split; [cbn; exact Htr|].
        split; [exact Hgrow|].
        eapply run_expired; [exact Hfind | exact Hexp | reflexivity].
      * unfold bind at 1. unfold Date_now at 1. cbv beta iota zeta.
        unfold bind at 1.
        match goal with |- context [Url.addClick ?d' ?c ?w3] =>
          pose proof (growing_addClick d' c w3) as Hpush;
          destruct (addClick_run d' c w3)
            as [(w4 & Hadd & Htr4 & Hdb4) | (e & w4 & Hadd & Htr4 & Hdb4)];
          rewrite Hadd in Hpush |- *; cbn [snd urls] in Hpush
        end.
        -- assert (Hg : growing w w4).
           { eapply growing_trans; [exact Hgrow|]. intros Hk.
             apply Hpush; [|exact Hk].
             rewrite (Hk _ _ (eq_sym Hd)). symmetry. exact Hd. }
           unfold bind, try_catch, Log, emit, ret. cbv beta iota zeta.
           eexists _, _, _. split; [reflexivity|]. split; [|split].
           ++ cbn. rewrite Htr4. cbn. rewrite Htr, <- !app_assoc. reflexivity.
           ++ exact Hg.
           ++ eapply (run_redirected P req w d); [exact Hfind | exact Hexp | exact Hdb4].
        -- unfold ret. eexists _, _, _. split; [reflexivity|]. split; [|split].
           ++ rewrite Htr4. cbn. rewrite Htr, <- !app_assoc. reflexivity.
           ++ eapply growing_trans; [exact Hgrow|]. apply growing_same. exact Hdb4.
           ++ eapply (run_click_failed P req w d); [exact Hfind | exact Hexp | exact Hdb4].
    + rewrite bool_decide_eq_false_2 in Htr by (intros [? ?]; discriminate).
      eexists _, w1, _. split; [reflexivity|]. split; [exact Htr|].
      split; [exact Hgrow|]. eapply run_not_found, Hfind.
Qed.

Lemma date_gt_spec (t : Z) (x : Date) :
  Url.date_gt (Some t) x = true <-> exists e, x = Some e /\ e < t.
Proof.
  unfold Url.date_gt. destruct x as [e|].
  - rewrite Z.ltb_lt. split; [intros H; exists e; done | intros (e' & [= <-] & H); done].
  - split; [discriminate | intros (e & [=] & _)].
Qed.

(** [isExpired] is the comparison of the clock with the record's
    [expiryAt], and nothing else. *)
Lemma isExpired_run (d : UrlDoc) (w : World) :
  fst (Url.isExpired d w) = Returned (Url.date_gt (Some (nextRead w)) (expiryAt d)).
Proof. reflexivity. Qed.

(** C2.  When the lookup of a redirect request returns a record, the
    answer is 410 "link expired" exactly when the clock read by
    [isExpired] is strictly greater than the record's [expiryAt]; in that
    case no click is recorded, and the answer is never 404. *)
Theorem expired_record_answers_410 :
  forall (P : Platform) (req : Request) (w w1 : World) (d : UrlDoc),
    Url.findOne (params_shortcode req) w = (Returned (Some d), w1) ->
    ((exists e, expiryAt d = Some e /\ e < nextRead w1) ->
       exists w2,
         urlRoutes.getShortcode P req w
           = (Returned {| status := 410; body := Message "link expired" |}, w2) /\
         urls w2 = urls w1) /\
    (status_of (fst (urlRoutes.getShortcode P req w)) = Some 410 ->
       exists e, expiryAt d = Some e /\ e < nextRead w1) /\
    status_of (fst (urlRoutes.getShortcode P req w)) <> Some 404.
Proof.
  intros P req w w1 d Hfind.
  destruct (getShortcode_run P req w) as (resp & w' & evs & Hrun & _ & _ & Hcase).
  rewrite Hrun. cbn [fst status_of].
  destruct Hcase as [e wa Hf | wa Hf | d' wa wb Hf Hexp Hdb
                     | d' c wa wb msg Hf Hexp Hdb | d' e wa wb Hf Hexp Hdb];
    rewrite Hfind in Hf; try discriminate;
    injection Hf as <- <-; cbn [status urlRoutes.json].
  - apply date_gt_spec in Hexp. split; [|split; [|discriminate]].
    + intros _. eexists. split; [reflexivity | exact Hdb].
    + intros _. exact Hexp.
  - split; [|split; [|discriminate]].
    + intros Hlate. apply date_gt_spec in Hlate. congruence.
    + discriminate.
  - split; [|split; [|discriminate]].
    + intros Hlate. apply date_gt_spec in Hlate. congruence.
    + discriminate.
Qed.

(** Scenario E: the record [abcd] expires at 5000; a redirect at 6000
    gets 410, not 404. *)
Lemma expired_record_answers_410_witness :
  status_of (fst (urlRoutes.getShortcode samplePlatform (sampleRequest "abcd")
                    (worldWith (sampleDoc "abcd" 5000 []) 6000))) = Some 410.
Proof.
  destruct (expired_record_answers_410 samplePlatform (sampleRequest "abcd")
              (worldWith (sampleDoc "abcd" 5000 []) 6000)
              (snd (Url.findOne "abcd" (worldWith (sampleDoc "abcd" 5000 []) 6000)))
              (sampleDoc "abcd" 5000 []))
    as (Hlate & _ & _).
  - vm_compute. reflexivity.
  - destruct Hlate as (w2 & Hrun & _).
    + exists 5000. split; [reflexivity | vm_compute; reflexivity].
    + rewrite Hrun. reflexivity.
Defined.

(** C7.  A redirect request always gets a response, and the response is
    a 302 redirect only at the end of the run "record found, not expired,
    click saved, log": the store then holds the record with the new click
    appended.  When saving the click fails, the response is the 500
    error, never a redirect. *)
Theorem redirect_only_after_click_saved :
  forall (P : Platform) (req : Request) (w : World),
    exists (resp : Response) (w' : World) (evs : list Event),
      urlRoutes.getShortcode P req w = (Returned resp, w') /\
      trace w' = trace w ++ evs /\
      (status resp = 302 \/ (exists l, body resp = Redirect l) ->
         exists (d : UrlDoc) (c : Click) (w1 : World) (message : string),
           Url.findOne (params_shortcode req) w = (Returned (Some d), w1) /\
           Url.date_gt (Some (nextRead w1)) (expiryAt d) = false /\
           evs = [Found (params_shortcode req) true; ClickSaved (shortcode d);
                  Logged message] /\
           resp = {| status := 302; body := Redirect (originalUrl d) |} /\
           urls w' !! shortcode d = Some (Url.pushClick d c)) /\
      (forall sc e, In (ClickRejected sc e) evs ->
         resp = {| status := 500; body := Message "Internal server error" |}).
Proof.
  intros P req w.
  destruct (getShortcode_run P req w) as (resp & w' & evs & Hrun & Htr & _ & Hcase).
  exists resp, w', evs. split; [exact Hrun|]. split; [exact Htr|].
  destruct Hcase as [e wa Hf | wa Hf | d wa wb Hf Hexp Hdb
                     | d c wa wb msg Hf Hexp Hdb | d e wa wb Hf Hexp Hdb];
    cbn [status body urlRoutes.json]; split;
    try (intros [? | [? ?]]; discriminate);
    try (intros sc e' Hin; cbn in Hin; intuition discriminate).
  intros _. exists d, c, wa, msg. done.
Qed.

(** ** The creation handler, case by case *)

Lemma allocating_refl (w : World) : allocating w w.
Proof. exists []. split; [by rewrite app_nil_r | reflexivity]. Qed.

Lemma allocating_trans (a b c : World) :
  allocating a b -> allocating b c -> allocating a c.
Proof.
  intros (e1 & H1 & A1) (e2 & H2 & A2). exists (e1 ++ e2). split.
  - rewrite H2, H1, app_assoc. reflexivity.
  - rewrite forallb_app, A1, A2. reflexivity.
Qed.

Lemma allocating_processShortcode (cfg : Config) (fuel : nat) (v : jsval) :
  stable allocating (ShortcodeService.processShortcode cfg fuel v).
Proof.
  apply stable_processShortcode.
  - apply allocating_refl.
  - apply allocating_trans.
  - intros w. exists []. split; [cbn; by rewrite app_nil_r | reflexivity].
  - intros w. unfold storeOp.
    destruct (hd Calm (weather w)) as [| |rsc rurl rc re]; cbn;
      try (exists []; split; [by rewrite app_nil_r | reflexivity]).
    destruct (urls w !! rsc); cbn; exists []; (split; [by rewrite app_nil_r | reflexivity]).
  - intros e He w. exists [e]. split; [reflexivity|]. cbn. rewrite He. reflexivity.
Qed.

Lemma alloc_events_no_insert (evs : list Event) :
  forallb isAllocEvent evs = true ->
  insertAttempts evs = 0%nat /\
  (forall e, In e evs -> isAllocEvent e = true).
Proof.
  intros Hall. split.
  - unfold insertAttempts. induction evs as [|e evs IH]; [reflexivity|].
    cbn in Hall. apply andb_true_iff in Hall. destruct Hall as [He Hall].
    cbn. destruct e; cbn in *; try discriminate; apply IH, Hall.
  - apply forallb_forall. exact Hall.
Qed.

Lemma saveNew_run (d : UrlDoc) (w : World) :
  (exists w', Url.saveNew d w = (Returned tt, w') /\
              trace w' = trace w ++ [Inserted (shortcode d)] /\
              urls w' !! shortcode d = Some d) \/
  (exists e w', Url.saveNew d w = (Thrown e, w') /\
                trace w' = trace w ++ [InsertRejected (shortcode d) e]).
Proof.
  unfold Url.saveNew, try_catch, bind, throw, emit, ret, Date_now,
    storeOp, readUrls, writeUrl.
  destruct (Url.validate d).
  { right. eexists _, _. split; reflexivity. }
  cbv beta iota zeta.
  destruct (Url.date_le _ _).
  { right. eexists _, _. split; reflexivity. }
  cbn.
  destruct (hd Calm (weather w)) as [| |rsc rurl rc re]; cbn.
  - destruct (urls w !! shortcode d) eqn:Hfree; cbn.
    + right. eexists _, _. split; reflexivity.
    + left. eexists. split; [reflexivity|]. split; [reflexivity|]. apply lookup_insert_eq.
  - right. eexists _, _. split; reflexivity.
  - destruct (urls w !! rsc) eqn:Hr; cbn.
    + destruct (urls w !! shortcode d) eqn:Hfree; cbn.
      * right. eexists _, _. split; reflexivity.
      * left. eexists. split; [reflexivity|]. split; [reflexivity|]. apply lookup_insert_eq.
    + destruct (<[rsc:=raceDoc rsc rurl rc re]> (urls w) !! shortcode d) eqn:Hfree; cbn.
      * right. eexists _, _. split; reflexivity.
      * left. eexists. split; [reflexivity|]. split; [reflexivity|]. apply lookup_insert_eq.
Qed.

Lemma Date_now_run (w : World) : Date_now w = (Returned (nextRead w), tick w).
Proof. reflexivity. Qed.

Lemma Url_new_run (sc url : string) (expiry : Date) (w : World) :
  Url.new sc url expiry w =
    (Returned {| shortcode := trim sc; originalUrl := trim url;
                 createdAt := nextRead w; expiryAt := expiry;
                 clickCount := 0; clicks := [] |}, tick w).
Proof. reflexivity. Qed.

Lemma postShorturls_run (P : Platform) (cfg : Config) (fuel : nat)
      (req : CreateBody) (w : World) :
  exists out w' evs,
    urlRoutes.postShorturls P cfg fuel req w = (out, w') /\
    trace w' = trace w ++ evs /\
    growing w w' /\
    CreateRun out w' evs.
Proof.
  unfold urlRoutes.postShorturls.
  destruct (ValidationService.validateUrl P (body_url req)) as [url|err].
  2:{ eexists _, w, []. split; [reflexivity|]. split; [by rewrite app_nil_r|].
      split; [apply growing_refl | by apply create_no_insert]. }
  destruct (ValidationService.validateValidity P (body_validity req) _) as [validity|err].
  2:{ eexists _, w, []. split; [reflexivity|]. split; [by rewrite app_nil_r|].
      split; [apply growing_refl | by apply create_no_insert]. }
  pose proof (allocating_processShortcode cfg fuel (body_shortcode req) w) as Halloc.
  pose proof (growing_processShortcode cfg fuel (body_shortcode req) w) as Hgrow.
  destruct (ShortcodeService.processShortcode cfg fuel (body_shortcode req) w)
    as [[[sc|err st]|e|] w1] eqn:Hproc; cbn [snd] in Halloc, Hgrow;
    destruct Halloc as (evs1 & Htr1 & Hall1).
  - rewrite (try_catch_bind_returned _ _ _ _ _ _ Hproc).
    rewrite (try_catch_bind_returned _ _ _ _ _ _ (Date_now_run w1)).
    rewrite (try_catch_bind_returned _ _ _ _ _ _ (Url_new_run _ _ _ (tick w1))).
    match goal with |- context [Url.saveNew ?d] => set (doc := d) end.
    pose proof (growing_saveNew doc eq_refl eq_refl (tick (tick w1))) as Hsave.
    destruct (saveNew_run doc (tick (tick w1)))
      as [(w4 & Hrun & Htr4 & Hdb4) | (e & w4 & Hrun & Htr4)];
      rewrite Hrun in Hsave; cbn [snd] in Hsave;
      assert (Hg : growing w w4)
        by (eapply growing_trans; [exact Hgrow | exact Hsave]).
    + rewrite (try_catch_bind_returned _ _ _ _ _ _ Hrun).
      destruct (newDate _) as [expiry|].
      * eexists _, _, _. split; [reflexivity|]. split; [|split].
        -- cbn. rewrite Htr4. cbn. rewrite Htr1, <- !app_assoc. reflexivity.
        -- exact Hg.
        -- apply (create_inserted doc); try done. right. eexists. reflexivity.
      * eexists _, _, _. split; [reflexivity|]. split; [|split].
        -- cbn. rewrite Htr4. cbn. rewrite Htr1, <- !app_assoc. reflexivity.
        -- exact Hg.
        -- apply (create_inserted doc); try done. left. reflexivity.
    + rewrite (try_catch_bind_thrown _ _ _ _ _ _ Hrun).
      exists (Returned (if bool_decide (error_code e = Some 11000)
                        then urlRoutes.json 409 "Shortcode already exists"
                        else urlRoutes.json 500 "Internal server error")),
             w4, (evs1 ++ [InsertRejected (shortcode doc) e]).
      split; [|split; [|split]].
      * destruct (bool_decide (error_code e = Some 11000)); reflexivity.
      * rewrite Htr4. cbn. rewrite Htr1, <- !app_assoc. reflexivity.
      * exact Hg.
      * apply create_rejected, Hall1.
  - rewrite (try_catch_bind_returned _ _ _ _ _ _ Hproc).
    eexists _, w1, evs1. split; [reflexivity|]. split; [exact Htr1|].
    split; [exact Hgrow | by apply create_no_insert].
  - rewrite (try_catch_bind_thrown _ _ _ _ _ _ Hproc).
    destruct (bool_decide (error_code e = Some 11000));
      (eexists _, w1, evs1; split; [reflexivity|]; split; [exact Htr1|];
       split; [exact Hgrow | by apply create_no_insert]).
  - unfold try_catch, bind. rewrite Hproc.
    eexists _, w1, evs1. split; [reflexivity|]. split; [exact Htr1|].
    split; [exact Hgrow | by apply create_no_insert].
Qed.

Lemma insertAttempts_app (xs ys : list Event) :
  insertAttempts (xs ++ ys) = (insertAttempts xs + insertAttempts ys)%nat.
Proof.
  unfold insertAttempts. rewrite List.filter_app, length_app. reflexivity.
Qed.

Lemma alloc_event_not_insert (evs : list Event) (e : Event) :
  forallb isAllocEvent evs = true -> In e evs -> isInsertAttempt e = false.
Proof.
  intros Hall Hin. apply alloc_events_no_insert in Hall. destruct Hall as [_ Hall].
  specialize (Hall e Hin). destruct e; cbn in *; congruence.
Qed.

(** C1, as the code has it.  A creation request makes at most one attempt
    to insert its record.  When the store rejects that attempt with a
    duplicate-key error, the request is answered 409 "Shortcode already
    exists" and nothing is inserted: the creation is not retried, whether
    the code was supplied by the user or generated. *)
Theorem duplicate_key_answers_409_without_retry :
  forall (P : Platform) (cfg : Config) (fuel : nat) (req : CreateBody) (w : World),
    exists (out : Outcome Response) (w' : World) (evs : list Event),
      urlRoutes.postShorturls P cfg fuel req w = (out, w') /\
      trace w' = trace w ++ evs /\
      (insertAttempts evs <= 1)%nat /\
      (forall sc, In (InsertRejected sc MongoDuplicateKey) evs ->
         out = Returned {| status := 409; body := Message "Shortcode already exists" |} /\
         insertAttempts evs = 1%nat /\
         (forall sc', ~ In (Inserted sc') evs)).
Proof.
  intros P cfg fuel req w.
  destruct (postShorturls_run P cfg fuel req w) as (out & w' & evs & Hrun & Htr & _ & Hcase).
  exists out, w', evs. split; [exact Hrun|]. split; [exact Htr|].
  destruct Hcase as [out w' evs Hall | sc0 e w' evs Hall
                     | d resp w' evs tail Hall Hcount Hclicks Hdb Htail].
  - destruct (alloc_events_no_insert evs Hall) as [Hzero _].
    split; [lia|]. intros sc Hin.
    pose proof (alloc_event_not_insert evs _ Hall Hin) as Hno. discriminate.
  - destruct (alloc_events_no_insert evs Hall) as [Hzero _].
    rewrite insertAttempts_app, Hzero. split; [cbn; lia|].
    intros sc Hin. apply in_app_or in Hin. destruct Hin as [Hin | [Heq | []]].
    + pose proof (alloc_event_not_insert evs _ Hall Hin) as Hno. discriminate.
    + injection Heq as -> ->. split; [reflexivity|]. split; [reflexivity|].
      intros sc' Hin'. apply in_app_or in Hin'. destruct Hin' as [Hin' | [Heq | []]].
      * pose proof (alloc_event_not_insert evs _ Hall Hin') as Hno. discriminate.
      * discriminate.
  - destruct (alloc_events_no_insert evs Hall) as [Hzero _].
    rewrite insertAttempts_app, Hzero.
    assert (Hone : insertAttempts (Inserted (shortcode d) :: tail) = 1%nat).
    { destruct Htail as [-> | [message ->]]; reflexivity. }
    rewrite Hone. split; [lia|].
    intros sc Hin. exfalso. apply in_app_or in Hin. destruct Hin as [Hin | [Heq | Hin]].
    + pose proof (alloc_event_not_insert evs _ Hall Hin) as Hno. discriminate.
    + discriminate.
    + destruct Htail as [-> | [message ->]]; [destruct Hin|].
      destruct Hin as [Heq | []]. discriminate.
Qed.

(** C1, as stated, fails for a generated code.  The generator draws
    [000000] and finds it available; a concurrent creation commits the
    same code before the save; the store rejects the save with a
    duplicate-key error.  The request is answered 409 after one draw and
    one insert attempt: no fresh code is generated, the write is not
    attempted again, and the conflict reaches the caller. *)
Lemma duplicate_key_on_generated_code_surfaces :
  fst (urlRoutes.postShorturls samplePlatform defaultConfig 16
         (sampleBody JUndefined) raceWorld)
    = Returned {| status := 409; body := Message "Shortcode already exists" |} /\
  trace (snd (urlRoutes.postShorturls samplePlatform defaultConfig 16
                (sampleBody JUndefined) raceWorld))
    = [Drew 6 "000000"; Checked "000000" true;
       InsertRejected "000000" MongoDuplicateKey].
Proof.
  split; vm_compute; reflexivity.
Qed.

(** ** The statistics handler and the invariant of the records *)

Lemma getStats_run (P : Platform) (sc : string) (page limit : jsval) (w : World) :
  exists out w' evs,
    urlRoutes.getStats P sc page limit w = (out, w') /\
    trace w' = trace w ++ evs /\
    growing w w' /\
    (evs = [] \/ exists b, evs = [Found sc b]).
Proof.
  unfold urlRoutes.getStats.
  destruct (ValidationService.validatePagination P page limit) as [p l|err].
  2:{ eexists _, w, []. split; [reflexivity|]. split; [by rewrite app_nil_r|].
      split; [apply growing_refl | left; reflexivity]. }
  pose proof (growing_findOne sc w) as Hgrow.
  destruct (findOne_run sc w)
    as [(e & w1 & Hfind & Htr & Hdb) | (found & w1 & Hfind & Hd & Htr)];
    rewrite Hfind in Hgrow; cbn [snd] in Hgrow.
  - rewrite (try_catch_bind_thrown _ _ _ _ _ _ Hfind).
    eexists _, w1, []. split; [reflexivity|]. split; [rewrite app_nil_r; exact Htr|].
    split; [exact Hgrow | left; reflexivity].
  - rewrite (try_catch_bind_returned _ _ _ _ _ _ Hfind).
    destruct found as [d|];
      (eexists _, w1, _; split; [reflexivity|]; split; [exact Htr|];
       split; [exact Hgrow | right; eexists; reflexivity]).
Qed.

(** C6.  Starting from a collection in which every record's [clickCount]
    equals the length of its [clicks], any request leaves a collection
    with the same property (so every counter is a non-negative integer);
    every record is still there, its earlier clicks are a prefix of its
    clicks, and its counter has not decreased; a record the request
    inserted has counter 0 and no clicks; and a record on which the
    request saved a click is the record as read with one click appended
    and the counter set to the new length. *)
Theorem clickCount_equals_clicks_length :
  forall (P : Platform) (cfg : Config) (fuel : nat) (call : Call) (w : World),
    wellKeyed (urls w) ->
    (forall sc d, urls w !! sc = Some d -> countsClicks d) ->
    exists (out : Outcome Response) (w' : World) (evs : list Event),
      handle P cfg fuel call w = (out, w') /\
      trace w' = trace w ++ evs /\
      (forall sc d', urls w' !! sc = Some d' ->
         countsClicks d' /\ 0 <= clickCount d') /\
      (forall sc d, urls w !! sc = Some d ->
         exists d', urls w' !! sc = Some d' /\
                    clicks d `prefix_of` clicks d' /\
                    clickCount d <= clickCount d') /\
      (forall sc, In (Inserted sc) evs ->
         exists d', urls w' !! sc = Some d' /\ clickCount d' = 0 /\ clicks d' = []) /\
      (forall sc, In (ClickSaved sc) evs ->
         exists d c, urls w' !! sc = Some (Url.pushClick d c) /\
                     clicks (Url.pushClick d c) = clicks d ++ [c] /\
                     clickCount (Url.pushClick d c) = Z.of_nat (length (clicks d)) + 1).
Proof.
  intros P cfg fuel call w Hk Hinv.
  assert (Hgen : exists out w' evs,
    handle P cfg fuel call w = (out, w') /\ trace w' = trace w ++ evs /\
    growing w w' /\
    (forall sc, In (Inserted sc) evs ->
       exists d', urls w' !! sc = Some d' /\ clickCount d' = 0 /\ clicks d' = []) /\
    (forall sc, In (ClickSaved sc) evs ->
       exists d c, urls w' !! sc = Some (Url.pushClick d c))).
  { destruct call as [req | req | sc page limit]; cbn [handle].
    - destruct (postShorturls_run P cfg fuel req w)
        as (out & w' & evs & Hrun & Htr & Hgrow & Hcase).
      exists out, w', evs. split; [exact Hrun|]. split; [exact Htr|].
      split; [exact Hgrow|].
      destruct Hcase as [out w' evs Hall | sc0 e w' evs Hall
                         | d resp w' evs tail Hall Hcount Hclicks Hdb Htail].
      + split; intros sc Hin;
          pose proof (proj2 (alloc_events_no_insert evs Hall) _ Hin) as Hno;
          discriminate.
      + split; intros sc Hin; apply in_app_or in Hin;
          destruct Hin as [Hin | [Heq | []]]; try discriminate;
          pose proof (proj2 (alloc_events_no_insert evs Hall) _ Hin) as Hno;
          discriminate.
      + split; intros sc Hin; apply in_app_or in Hin; destruct Hin as [Hin | [Heq | Hin]];
          try (pose proof (proj2 (alloc_events_no_insert evs Hall) _ Hin) as Hno;
               discriminate);
          try discriminate;
          try (destruct Htail as [-> | [message ->]];
               [destruct Hin | destruct Hin as [Heq | []]; discriminate]).
        injection Heq as <-. exists d. done.
    - destruct (getShortcode_run P req w)
        as (resp & w' & evs & Hrun & Htr & Hgrow & Hcase).
      exists (Returned resp), w', evs. split; [exact Hrun|]. split; [exact Htr|].
      split; [exact Hgrow|].
      destruct Hcase as [e wa Hf | wa Hf | d wa wb Hf Hexp Hdb
                         | d c wa wb msg Hf Hexp Hdb | d e wa wb Hf Hexp Hdb];
        split; intros sc Hin; cbn in Hin; try (intuition discriminate).
      destruct Hin as [Heq | [Heq | [Heq | []]]]; try discriminate.
      injection Heq as <-. exists d, c. exact Hdb.
    - destruct (getStats_run P sc page limit w)
        as (out & w' & evs & Hrun & Htr & Hgrow & Hevs).
      exists out, w', evs. split; [exact Hrun|]. split; [exact Htr|].
      split; [exact Hgrow|].
      split; intros sc' Hin; destruct Hevs as [-> | [b ->]]; cbn in Hin;
        intuition discriminate. }
  destruct Hgen as (out & w' & evs & Hrun & Htr & Hgrow & Hins & Hclk).
  destruct (Hgrow Hk) as (Hk' & Hkeep & Hnew).
  assert (Hinv' : forall sc d', urls w' !! sc = Some d' -> countsClicks d').
  { intros sc d' Hd'. destruct (urls w !! sc) as [d|] eqn:Hd.
    - destruct (Hkeep sc d Hd) as (d'' & Hd'' & _ & Hc).
      assert (d'' = d') by congruence. subst d''. apply Hc, (Hinv sc d Hd).
    - exact (Hnew sc d' Hd Hd'). }
  exists out, w', evs. split; [exact Hrun|]. split; [exact Htr|].
  split; [|split; [|split; [exact Hins|]]].
  - intros sc d' Hd'. pose proof (Hinv' sc d' Hd') as Hc.
    split; [exact Hc|]. unfold countsClicks in Hc. lia.
  - intros sc d Hd. destruct (Hkeep sc d Hd) as (d' & Hd' & Hpre & _).
    exists d'. split; [exact Hd'|]. split; [exact Hpre|].
    pose proof (Hinv sc d Hd) as Hc. pose proof (Hinv' sc d' Hd') as Hc'.
    unfold countsClicks in Hc, Hc'. rewrite Hc, Hc'.
    apply prefix_length in Hpre. lia.
  - intros sc Hin. destruct (Hclk sc Hin) as (d & c & Hd). exists d, c.
    split; [exact Hd|]. split; [reflexivity|].
    cbn. rewrite length_app. cbn. lia.
Qed.

(** A redirect on a record with no clicks: the record then has one click
    and counter 1. *)
Lemma clickCount_equals_clicks_length_witness :
  wellKeyed (urls sampleWorld) /\
  (forall sc d, urls sampleWorld !! sc = Some d -> countsClicks d) /\
  exists d',
    urls (snd (handle samplePlatform defaultConfig 16
                 (GetShortcode (sampleRequest "abcd")) sampleWorld)) !! "abcd" = Some d' /\
    clickCount d' = 1 /\ length (clicks d') = 1%nat.
Proof.
  assert (Hone : forall sc d, urls sampleWorld !! sc = Some d ->
                              d = sampleDoc "abcd" 5000 [] /\ sc = "abcd").
  { intros sc d. unfold sampleWorld, worldWith. cbn [urls].
    intros Hd. apply lookup_singleton_Some in Hd. destruct Hd as [<- <-]. done. }
  assert (Hk : wellKeyed (urls sampleWorld)).
  { intros sc d Hd. destruct (Hone sc d Hd) as [-> ->]. reflexivity. }
  assert (Hinv : forall sc d, urls sampleWorld !! sc = Some d -> countsClicks d).
  { intros sc d Hd. destruct (Hone sc d Hd) as [-> ->]. reflexivity. }
  split; [exact Hk|]. split; [exact Hinv|].
  destruct (clickCount_equals_clicks_length samplePlatform defaultConfig 16
              (GetShortcode (sampleRequest "abcd")) sampleWorld Hk Hinv)
    as (out & w' & evs & Hrun & _ & Hall & _ & _ & _).
  rewrite Hrun. cbn [snd].
  assert (Hd : exists d', urls w' !! "abcd" = Some d' /\ length (clicks d') = 1%nat).
  { assert (Hw : w' = snd (handle samplePlatform defaultConfig 16
                             (GetShortcode (sampleRequest "abcd")) sampleWorld))
      by (rewrite Hrun; reflexivity).
    rewrite Hw. eexists. split; vm_compute; reflexivity. }
  destruct Hd as (d' & Hd' & Hlen). exists d'. split; [exact Hd'|].
  destruct (Hall "abcd" d' Hd') as [Hc _]. unfold countsClicks in Hc.
  split; [lia | exact Hlen].
Defined.

(** The invariant survives any sequence of requests. *)
Corollary records_count_clicks_after_any_requests
    (P : Platform) (cfg : Config) (fuel : nat) (calls : list Call) (w : World) :
  wellKeyed (urls w) ->
  (forall sc d, urls w !! sc = Some d -> countsClicks d) ->
  wellKeyed (urls (serve P cfg fuel calls w)) /\
  (forall sc d, urls (serve P cfg fuel calls w) !! sc = Some d -> countsClicks d) /\
  (forall sc d, urls w !! sc = Some d ->
     exists d', urls (serve P cfg fuel calls w) !! sc = Some d' /\
                clicks d `prefix_of` clicks d').
Proof.
  assert (Hstep : forall c w0, growing w0 (snd (handle P cfg fuel c w0))).
  { intros [req | req | sc page limit] w0; cbn [handle].
    - destruct (postShorturls_run P cfg fuel req w0) as (? & ? & ? & -> & _ & Hg & _).
      exact Hg.
    - destruct (getShortcode_run P req w0) as (? & ? & ? & -> & _ & Hg & _). exact Hg.
    - destruct (getStats_run P sc page limit w0) as (? & ? & ? & -> & _ & Hg & _).
      exact Hg. }
  assert (Hall : growing w (serve P cfg fuel calls w)).
  { revert w. induction calls as [|c rest IH]; intros w; cbn [serve].
    - apply growing_refl.
    - eapply growing_trans; [apply Hstep | apply IH]. }
  intros Hk Hinv. destruct (Hall Hk) as (Hk' & Hkeep & Hnew).
  split; [exact Hk'|]. split.
  - intros sc d' Hd'. destruct (urls w !! sc) as [d|] eqn:Hd.
    + destruct (Hkeep sc d Hd) as (d'' & Hd'' & _ & Hc).
      assert (d'' = d') by congruence. subst d''. apply Hc, (Hinv sc d Hd).
    + exact (Hnew sc d' Hd Hd').
  - intros sc d Hd. destruct (Hkeep sc d Hd) as (d' & Hd' & Hpre & _).
    exists d'. done.
Qed.

(** ** Scenarios *)

(** Scenario A: a creation without a custom code gets 201, a code of 6
    characters and an expiry 30 minutes ahead. *)
Example scenario_A :
  fst (urlRoutes.postShorturls samplePlatform defaultConfig 16
         (sampleBody JUndefined) emptyWorld)
  = Returned {| status := 201;
                body := Created "http://localhost:3000/000000" (1000 + 30 * 60 * 1000) |}.
Proof. vm_compute. reflexivity. Qed.

(** Scenario B: a URL with another scheme gets 400. *)
Example scenario_B :
  status_of (fst (urlRoutes.postShorturls samplePlatform defaultConfig 16
                    {| body_url := JStr "ftp://example.com";
                       body_validity := JUndefined;
                       body_shortcode := JUndefined |} emptyWorld)) = Some 400.
Proof. vm_compute. reflexivity. Qed.

(** A redirect at the very instant of expiry still succeeds: the
    comparison is strict. *)
Example redirect_at_expiry_instant :
  status_of (fst (urlRoutes.getShortcode samplePlatform (sampleRequest "abcd")
                    (worldWith (sampleDoc "abcd" 5000 []) 5000))) = Some 302.
Proof. vm_compute. reflexivity. Qed.

(** When every candidate is taken the generator makes its 15 draws, five
    at each of the lengths 6, 7 and 8, and the request is answered 500. *)
Example generator_exhausts_three_tiers :
  status_of (fst (urlRoutes.postShorturls samplePlatform defaultConfig 16
                    (sampleBody JUndefined) crowdedWorld)) = Some 500 /\
  drawLengths (trace (snd (urlRoutes.postShorturls samplePlatform defaultConfig 16
                             (sampleBody JUndefined) crowdedWorld)))
    = [6; 6; 6; 6; 6; 7; 7; 7; 7; 7; 8; 8; 8; 8; 8]%nat.
Proof. split; vm_compute; reflexivity. Qed.

(** A validity of a quarter of a minute passes [validateValidity] as 0
    minutes; the record then expires at its creation, the [pre('save')]
    hook refuses it, and the request is answered 500 instead of 400. *)
Example quarter_minute_validity_answers_500 :
  urlRoutes.postShorturls samplePlatform defaultConfig 16
    {| body_url := JStr "https://example.com/page";
       body_validity := JNum (Fin (1 # 4));
       body_shortcode := JUndefined |} emptyWorld
  = (Returned {| status := 500; body := Message "Internal server error" |},
     {| urls := ∅; weather := []; random := []; now := 1000; elapsed := [];
        trace := [Drew 6 "000000"; Checked "000000" true;
                  InsertRejected "000000" (Error "Expiry date must be in the future")] |}).
Proof. vm_compute. reflexivity. Qed.

(** * Further properties of the sources *)

(** ** Trimming *)

Lemma trimStart_head (s : string) (c : ascii) (r : string) :
  trimStart s = String c r -> isWhiteSpace c = false.
Proof.
  induction s as [|a s IH]; cbn; [discriminate|].
  destruct (isWhiteSpace a) eqn:Ha; [exact IH|].
  intros [= <- <-]. exact Ha.
Qed.

Lemma trimEnd_cons (c : ascii) (r : string) :
  isWhiteSpace c = false -> trimEnd (String c r) = String c (trimEnd r).
Proof.
  intros Hc. cbn. rewrite Hc. destruct (trimEnd r); reflexivity.
Qed.

Lemma trimEnd_idempotent (s : string) : trimEnd (trimEnd s) = trimEnd s.
Proof.
  assert (Hstep : forall c r,
            trimEnd (String c r) =
              match trimEnd r with
              | EmptyString => if isWhiteSpace c then EmptyString else String c EmptyString
              | r' => String c r'
              end) by reflexivity.
  induction s as [|c r IH]; [reflexivity|].
  rewrite (Hstep c r). destruct (trimEnd r) as [|a t] eqn:Ht.
  - destruct (isWhiteSpace c) eqn:Hc; [reflexivity|].
    cbn. rewrite Hc. reflexivity.
  - rewrite (Hstep c (String a t)), IH. reflexivity.
Qed.

Lemma trim_idempotent (s : string) : trim (trim s) = trim s.
Proof.
  unfold trim. destruct (trimStart s) as [|c r] eqn:Hs; [reflexivity|].
  pose proof (trimStart_head s c r Hs) as Hc.
  rewrite (trimEnd_cons c r Hc). cbn [trimStart]. rewrite Hc.
  rewrite <- (trimEnd_cons c r Hc). apply trimEnd_idempotent.
Qed.

(** A string without white space is its own trimmed form. *)
Lemma trim_no_whitespace (s : string) :
  allChars (fun c => negb (isWhiteSpace c)) s = true -> trim s = s.
Proof.
  intros Hall. unfold trim.
  assert (Hstart : trimStart s = s).
  { destruct s as [|c r]; [reflexivity|]. cbn in Hall |- *.
    apply andb_true_iff in Hall. destruct Hall as [Hc _].
    apply negb_true_iff in Hc. rewrite Hc. reflexivity. }
  rewrite Hstart. induction s as [|c r IH]; [reflexivity|].
  cbn in Hall. apply andb_true_iff in Hall. destruct Hall as [Hc Hr].
  apply negb_true_iff in Hc. rewrite (trimEnd_cons c r Hc). f_equal.
  apply IH; [exact Hr|]. destruct r as [|a r']; [reflexivity|].
  cbn in Hr |- *. apply andb_true_iff in Hr. destruct Hr as [Ha _].
  apply negb_true_iff in Ha. rewrite Ha. reflexivity.
Qed.

(** X1.  The verdict of [validateUrl] does not depend on white space
    around its input: a string and its trimmed form are accepted with the
    same URL or both refused, with the same message unless the trimmed
    form is empty; and an accepted URL is already trimmed. *)
Theorem validateUrl_ignores_surrounding_whitespace :
  forall (P : Platform) (s : string),
    (forall r,
       ValidationService.validateUrl P (JStr (trim s)) = ValidationService.UrlValid r <->
       ValidationService.validateUrl P (JStr s) = ValidationService.UrlValid r) /\
    (trim s <> "" ->
       ValidationService.validateUrl P (JStr (trim s))
         = ValidationService.validateUrl P (JStr s)) /\
    (forall r,
       ValidationService.validateUrl P (JStr s) = ValidationService.UrlValid r ->
       trim r = r /\ ValidationService.validateUrl P (JStr r) = ValidationService.UrlValid r).
Proof.
  intros P s.
  assert (Hsame : trim s <> "" ->
            ValidationService.validateUrl P (JStr (trim s))
              = ValidationService.validateUrl P (JStr s)).
  { intros Hne. rewrite !validateUrl_string, trim_idempotent.
    apply String.eqb_neq in Hne. rewrite Hne.
    destruct (String.eqb s "") eqn:Hs; [|reflexivity].
    apply String.eqb_eq in Hs. subst s. discriminate. }
  assert (Hempty : trim s = "" ->
            forall r, ValidationService.validateUrl P (JStr (trim s))
                        <> ValidationService.UrlValid r /\
                      ValidationService.validateUrl P (JStr s)
                        <> ValidationService.UrlValid r).
  { intros He r. rewrite !validateUrl_string, He. cbn.
    destruct (String.eqb s ""); split; discriminate. }
  split; [|split; [exact Hsame|]].
  - intros r. destruct (string_dec (trim s) "") as [He | Hne].
    + destruct (Hempty He r) as [H1 H2]. split; intros H; contradiction.
    + rewrite (Hsame Hne). reflexivity.
  - intros r Hr.
    assert (Hrs : r = trim s).
    { rewrite validateUrl_string in Hr.
      repeat match type of Hr with
             | (if ?c then _ else _) = _ => destruct c; [discriminate|]
             | match ?o with Some _ => _ | None => _ end = _ =>
                 destruct o; [|discriminate]
             end.
      congruence. }
    subst r. split; [apply trim_idempotent|].
    destruct (string_dec (trim s) "") as [He | Hne].
    + destruct (Hempty He (trim s)) as [_ H2]. contradiction.
    + rewrite (Hsame Hne). exact Hr.
Qed.

Lemma validateUrl_ignores_surrounding_whitespace_witness :
  trim "  https://example.com/page " <> "" /\
  ValidationService.validateUrl samplePlatform (JStr "  https://example.com/page ")
    = ValidationService.UrlValid "https://example.com/page" /\
  ValidationService.validateUrl samplePlatform (JStr (trim "  https://example.com/page "))
    = ValidationService.UrlValid "https://example.com/page".
Proof.
  split; [discriminate|].
  destruct (validateUrl_ignores_surrounding_whitespace samplePlatform
              "  https://example.com/page ") as (_ & Hsame & _).
  split; [reflexivity|]. rewrite Hsame; [reflexivity | discriminate].
Defined.

(** ** [sanitizeInput] and the request's headers *)

Lemma removeAngleBrackets_length (s : string) :
  (String.length (removeAngleBrackets s) <= String.length s)%nat.
Proof.
  induction s as [|c r IH]; cbn; [lia|].
  destruct (Ascii.eqb c "<" || Ascii.eqb c ">"); cbn; lia.
Qed.

Lemma removeAngleBrackets_clean (s : string) :
  Forall (fun c => c <> "<"%char /\ c <> ">"%char)
         (list_ascii_of_string (removeAngleBrackets s)).
Proof.
  induction s as [|c r IH]; cbn; [constructor|].
  destruct (Ascii.eqb c "<") eqn:H1; cbn; [exact IH|].
  destruct (Ascii.eqb c ">") eqn:H2; cbn; [exact IH|].
  constructor; [|exact IH].
  apply Ascii.eqb_neq in H1. apply Ascii.eqb_neq in H2. done.
Qed.

Lemma substring_prefix_length (n : nat) (s : string) :
  (String.length (String.substring 0 n s) <= n)%nat.
Proof.
  revert s. induction n as [|n IH]; intros s.
  - destruct s; cbn; lia.
  - destruct s as [|c r]; cbn; [lia|]. specialize (IH r). lia.
Qed.

(** X2.  Whatever the input, [sanitizeInput] returns at most [maxLength]
    characters and none of them is an angle bracket; so the referrer and
    the user agent stored with a click have at most 500 characters and no
    angle bracket. *)
Theorem sanitizeInput_is_capped_and_has_no_angle_brackets :
  forall (input : string) (maxLength : nat) (req : Request),
    ((String.length (ValidationHelpers.sanitizeInput input maxLength) <= maxLength)%nat /\
     Forall (fun c => c <> "<"%char /\ c <> ">"%char)
       (list_ascii_of_string (ValidationHelpers.sanitizeInput input maxLength))) /\
    (forall h,
       fst (ValidationHelpers.extractSafeHeaders req) = Some h \/
       snd (ValidationHelpers.extractSafeHeaders req) = Some h ->
       (String.length h <= 500)%nat /\
       Forall (fun c => c <> "<"%char /\ c <> ">"%char) (list_ascii_of_string h)).
Proof.
  assert (Hsan : forall input maxLength,
    (String.length (ValidationHelpers.sanitizeInput input maxLength) <= maxLength)%nat /\
    Forall (fun c => c <> "<"%char /\ c <> ">"%char)
      (list_ascii_of_string (ValidationHelpers.sanitizeInput input maxLength))).
  { intros input maxLength. unfold ValidationHelpers.sanitizeInput.
    destruct (String.eqb input ""); [split; [cbn; lia | constructor]|].
    split; [|apply removeAngleBrackets_clean].
    pose proof (removeAngleBrackets_length (String.substring 0 maxLength (trim input))).
    pose proof (substring_prefix_length maxLength (trim input)). lia. }
  intros input maxLength req. split; [apply Hsan|].
  intros h Hh. unfold ValidationHelpers.extractSafeHeaders in Hh. cbn [fst snd] in Hh.
  destruct Hh as [Hh | Hh];
    match type of Hh with
    | match ?o with Some _ => _ | None => _ end = _ =>
        destruct o as [x|]; [|discriminate]
    end;
    destruct (String.eqb x ""); try discriminate;
    injection Hh as <-; apply Hsan.
Qed.

Lemma sanitizeInput_is_capped_and_has_no_angle_brackets_witness :
  ValidationHelpers.sanitizeInput " <b>hi</b> " 4 = "bh" /\
  (String.length (ValidationHelpers.sanitizeInput " <b>hi</b> " 4) <= 4)%nat.
Proof.
  split; [reflexivity|].
  destruct (sanitizeInput_is_capped_and_has_no_angle_brackets
              " <b>hi</b> " 4 (sampleRequest "abcd")) as [[Hlen _] _].
  exact Hlen.
Defined.

(** ** Random codes *)

Lemma string_length_append (a b : string) :
  String.length (a ++ b)%string = (String.length a + String.length b)%nat.
Proof.
  induction a as [|c a IH]; [reflexivity|].
  change (S (String.length (a ++ b)%string) = S (String.length a + String.length b)).
  rewrite IH. reflexivity.
Qed.

Lemma list_ascii_append (a b : string) :
  list_ascii_of_string (a ++ b)%string
    = list_ascii_of_string a ++ list_ascii_of_string b.
Proof.
  induction a as [|c a IH]; [reflexivity|].
  change (c :: list_ascii_of_string (a ++ b)%string
          = c :: (list_ascii_of_string a ++ list_ascii_of_string b)).
  rewrite IH. reflexivity.
Qed.

Lemma get_in_range (s : string) (n : nat) :
  (n < String.length s)%nat ->
  exists c, String.get n s = Some c /\ In c (list_ascii_of_string s).
Proof.
  revert n. induction s as [|a s IH]; intros n Hn; cbn in Hn; [lia|].
  destruct n as [|n]; cbn.
  - exists a. split; [reflexivity | left; reflexivity].
  - destruct (IH n) as (c & Hc & Hin); [lia|].
    exists c. split; [exact Hc | right; exact Hin].
Qed.

(** *** Rounding to the nearest double *)

Lemma roundHalfEven_upper (q : Q) : (inject_Z (roundHalfEven q) <= q + (1 # 2))%Q.
Proof.
  unfold roundHalfEven. pose proof (Qfloor_le q) as Hlo.
  destruct (Qcompare_spec (q - inject_Z (Qfloor q)) (1 # 2)) as [He | Hl | Hg].
  - destruct (Z.even (Qfloor q)); [lra|]. rewrite inject_Z_plus.
    change (inject_Z 1) with 1%Q. lra.
  - lra.
  - rewrite inject_Z_plus. change (inject_Z 1) with 1%Q. lra.
Qed.

Lemma roundHalfEven_nonneg (q : Q) : (0 <= q)%Q -> 0 <= roundHalfEven q.
Proof.
  intros Hq.
  assert (Hf : 0 <= Qfloor q).
  { rewrite <- (Qfloor_Z 0). apply Qfloor_resp_le. exact Hq. }
  unfold roundHalfEven.
  destruct (q - inject_Z (Qfloor q) ?= 1 # 2)%Q; [destruct (Z.even _)| |]; lia.
Qed.

(** [ilog2 q] is not above the binary logarithm of [q]. *)
Lemma ilog2_lower (q : Q) : (0 < q)%Q -> (2 ^ ilog2 q <= q)%Q.
Proof.
  intros Hq. unfold ilog2.
  destruct (Qle_bool _ q) eqn:Htest; [apply Qle_bool_iff, Htest|].
  clear Htest. destruct q as [a b].
  assert (Ha : 0 < a).
  { unfold Qlt in Hq. cbn in Hq. lia. }
  cbn [Qnum Qden].
  pose proof (Z.log2_spec a Ha) as [Hla _].
  pose proof (Z.log2_spec (Zpos b) (Pos2Z.is_pos b)) as [_ Hlb].
  pose proof (Z.log2_nonneg a) as Hna.
  pose proof (Z.log2_nonneg (Zpos b)) as Hnb.
  set (la := Z.log2 a) in *. set (lb := Z.log2 (Zpos b)) in *.
  replace (la - lb - 1) with (la - Z.succ lb) by lia.
  rewrite Qpower_minus by discriminate.
  assert (HX : (2 ^ la <= inject_Z a)%Q).
  { change 2%Q with (inject_Z 2). rewrite <- Zpower_Qpower by lia.
    rewrite <- Zle_Qle. exact Hla. }
  assert (HY : (inject_Z (Zpos b) <= 2 ^ Z.succ lb)%Q).
  { change 2%Q with (inject_Z 2). rewrite <- Zpower_Qpower by lia.
    rewrite <- Zle_Qle. lia. }
  assert (HB : (0 < inject_Z (Zpos b))%Q) by reflexivity.
  assert (HX0 : (0 < 2 ^ la)%Q) by (apply Qpower_0_lt; reflexivity).
  assert (HY0 : (0 < 2 ^ Z.succ lb)%Q) by (apply Qpower_0_lt; reflexivity).
  rewrite (Qmake_Qdiv a b).
  apply Qle_shift_div_l; [exact HB|].
  apply Qle_trans with (2 ^ la)%Q; [|exact HX].
  assert (Hswap : (2 ^ la / 2 ^ Z.succ lb * inject_Z (Zpos b)
                   == (2 ^ la * inject_Z (Zpos b)) / 2 ^ Z.succ lb)%Q)
    by (field; lra).
  rewrite Hswap.
  apply Qle_shift_div_r; [exact HY0|].
  apply Qmult_le_l; [exact HX0 | exact HY].
Qed.

Lemma nearestDouble_nonneg (x : Q) : (0 <= x)%Q -> (0 <= nearestDouble x)%Q.
Proof.
  intros Hx. unfold nearestDouble.
  assert (HU : (0 < 2 ^ ulpExponent x)%Q) by (apply Qpower_0_lt; reflexivity).
  apply Qmult_le_0_compat; [|lra].
  change 0%Q with (inject_Z 0). rewrite <- Zle_Qle. apply roundHalfEven_nonneg.
  apply Qle_shift_div_l; [exact HU | lra].
Qed.

(** Rounding does not carry a product up to the integer it stays
    [2^-53] of itself below: the rounding error is at most half a unit in
    the last place, and that unit is at most [2^-52] times the product. *)
Lemma nearestDouble_below (x : Q) (len : Z) :
  (0 < x)%Q -> 1 <= len ->
  (x <= inject_Z len - inject_Z len * (1 # 9007199254740992))%Q ->
  (nearestDouble x < inject_Z len)%Q.
Proof.
  intros Hx Hlen Hgap. unfold nearestDouble.
  assert (HL : (1 <= inject_Z len)%Q).
  { change 1%Q with (inject_Z 1). rewrite <- Zle_Qle. exact Hlen. }
  set (U := (2 ^ ulpExponent x)%Q).
  assert (HU : (0 < U)%Q) by (apply Qpower_0_lt; reflexivity).
  assert (Hm : (inject_Z (roundHalfEven (x / U)) * U <= x + U * (1 # 2))%Q).
  { apply Qle_trans with ((x / U + (1 # 2)) * U)%Q.
    - apply Qmult_le_compat_r; [apply roundHalfEven_upper | lra].
    - apply Qle_lteq. right. field. lra. }
  assert (Hulp : (U * 4503599627370496 < inject_Z len)%Q).
  { unfold U, ulpExponent.
    destruct (Z.max_spec (ilog2 x - 52) (-1074)) as [[_ ->] | [_ ->]].
    - apply Qlt_le_trans with 1%Q; [reflexivity | exact HL].
    - rewrite Qpower_minus by discriminate.
      pose proof (ilog2_lower x Hx) as Hlow.
      change (2 ^ 52)%Q with 4503599627370496%Q.
      assert (Hback : (2 ^ ilog2 x / 4503599627370496 * 4503599627370496
                       == 2 ^ ilog2 x)%Q) by (field; lra).
      rewrite Hback. lra. }
  lra.
Qed.

(** The index [Math.floor(Math.random() * length)] is within the string,
    the product being rounded as the hardware rounds it. *)
Lemma random_index_in_range (r : Q) (len : nat) :
  randomDouble r -> (0 < len)%nat -> Z.of_nat len <= 9007199254740992 ->
  exists i,
    Math_floor (roundToDouble (r * inject_Z (Z.of_nat len))) = num i /\
    0 <= i < Z.of_nat len.
Proof.
  intros [Hlo Hhi] Hlen Hbig.
  set (L := inject_Z (Z.of_nat len)).
  assert (HL : (1 <= L)%Q).
  { unfold L. change 1%Q with (inject_Z 1). rewrite <- Zle_Qle. lia. }
  assert (HLbig : (L <= 9007199254740992)%Q).
  { unfold L. change 9007199254740992%Q with (inject_Z 9007199254740992).
    rewrite <- Zle_Qle. exact Hbig. }
  assert (Hprod : (0 <= r * L)%Q) by (apply Qmult_le_0_compat; lra).
  unfold roundToDouble.
  destruct (Qcompare_spec (r * L) 0) as [Hz | Hneg | Hpos].
  - exists 0. split; [reflexivity | lia].
  - lra.
  - assert (Hgap : (r * L <= L - L * (1 # 9007199254740992))%Q).
    { apply Qle_trans with ((1 - (1 # 9007199254740992)) * L)%Q.
      - apply Qmult_le_compat_r; [exact Hhi | lra].
      - apply Qle_lteq. right. ring. }
    pose proof (nearestDouble_below (r * L) (Z.of_nat len) Hpos ltac:(lia) Hgap) as Hd.
    pose proof (nearestDouble_nonneg (r * L) Hprod) as Hd0.
    fold L in Hd. unfold roundPositive.
    destruct (Qle_bool (2 ^ 1024) (nearestDouble (r * L))) eqn:Hover.
    { apply Qle_bool_iff in Hover.
      assert (Hfar : (9007199254740992 < 2 ^ 1024)%Q) by reflexivity.
      lra. }
    exists (Qfloor (nearestDouble (r * L))). split; [reflexivity|]. split.
    + rewrite <- (Qfloor_Z 0). apply Qfloor_resp_le. exact Hd0.
    + rewrite Zlt_Qlt. eapply Qle_lt_trans; [apply Qfloor_le | exact Hd].
Qed.

Lemma charAt_random (alphabet : string) (r : Q) :
  randomDouble r -> alphabet <> "" ->
  Z.of_nat (String.length alphabet) <= 9007199254740992 ->
  exists c,
    charAtNumber alphabet
      (Math_floor (roundToDouble (r * inject_Z (Z.of_nat (String.length alphabet)))))
      = String c "" /\
    In c (list_ascii_of_string alphabet).
Proof.
  intros Hr Hne Hbig.
  assert (Hlen : (0 < String.length alphabet)%nat).
  { destruct alphabet; [contradiction | cbn; lia]. }
  destruct (random_index_in_range r _ Hr Hlen Hbig) as (i & -> & Hlo & Hhi).
  unfold charAtNumber, num. cbn [ToIntegerOrInfinity]. rewrite Qtruncate_inject_Z.
  unfold charAt. destruct (Z.ltb_spec i 0); [lia|].
  destruct (get_in_range alphabet (Z.to_nat i)) as (c & Hc & Hin); [lia|].
  rewrite Hc. exists c. done.
Qed.

Lemma randomDouble_hd (l : list Q) : Forall randomDouble l -> randomDouble (hd 0%Q l).
Proof.
  intros Hl. destruct Hl as [|q l Hq _]; [|exact Hq].
  split; [apply Qle_refl | discriminate].
Qed.

Lemma randomDouble_tl (l : list Q) : Forall randomDouble l -> Forall randomDouble (tl l).
Proof. intros Hl. destruct Hl; [constructor | assumption]. Qed.

Lemma appendRandom_good (cfg : Config) (n : nat) (acc : string) (w : World) :
  Forall randomDouble (random w) -> base62Chars cfg <> "" ->
  Z.of_nat (String.length (base62Chars cfg)) <= 9007199254740992 ->
  exists code rnd,
    ShortcodeService.appendRandom cfg n acc w =
      (Returned (acc ++ code)%string,
       {| urls := urls w; weather := weather w; random := rnd; now := now w;
          elapsed := elapsed w; trace := trace w |}) /\
    String.length code = n /\
    overAlphabet (base62Chars cfg) code /\
    Forall randomDouble rnd.
Proof.
  intros Hrnd Hne Hbig. revert acc w Hrnd. induction n as [|n IH]; intros acc w Hrnd.
  - exists "", (random w). split; [|split; [reflexivity | split; [constructor | exact Hrnd]]].
    assert (Hacc : (acc ++ "")%string = acc).
    { clear. induction acc as [|c a IHa]; [reflexivity|].
      change (String c (a ++ "")%string = String c a). rewrite IHa. reflexivity. }
    rewrite Hacc. destruct w; reflexivity.
  - cbn [ShortcodeService.appendRandom]. unfold bind at 1. unfold Math_random at 1.
    destruct (charAt_random (base62Chars cfg) (hd 0%Q (random w))
                (randomDouble_hd _ Hrnd) Hne Hbig) as (c & Hc & Hin).
    rewrite Hc.
    match goal with |- context [ShortcodeService.appendRandom cfg n ?a ?w'] =>
      destruct (IH a w') as (code & rnd & Hrun & Hlen & Hover & Hrnd')
    end.
    { cbn. apply randomDouble_tl, Hrnd. }
    exists (String c code), rnd. rewrite Hrun. cbn [urls weather now elapsed trace].
    split; [|split; [cbn; lia | split; [constructor; assumption | exact Hrnd']]].
    f_equal. f_equal.
    clear. induction acc as [|a acc IHa]; [reflexivity|].
    change (String a ((acc ++ String c "") ++ code)%string
            = String a (acc ++ String c code)%string).
    rewrite IHa. reflexivity.
Qed.

Lemma random_code_is_over_alphabet (cfg : Config) (n : nat) (w : World) :
  Forall randomDouble (random w) ->
  base62Chars cfg <> "" ->
  Z.of_nat (String.length (base62Chars cfg)) <= 9007199254740992 ->
  exists (code : string) (w' : World),
    ShortcodeService.generateRandomBase62 cfg n w = (Returned code, w') /\
    String.length code = n /\
    overAlphabet (base62Chars cfg) code /\
    Forall randomDouble (random w').
Proof.
  intros Hrnd Hne Hbig.
  destruct (appendRandom_good cfg n "" w Hrnd Hne Hbig)
    as (code & rnd & Hrun & Hlen & Hover & Hrnd').
  exists code. eexists. unfold ShortcodeService.generateRandomBase62, bind.
  rewrite Hrun. cbn. split; [reflexivity|]. done.
Qed.

(** X3.  With random values that are doubles in [0, 1) and a non-empty
    alphabet (of at most [2^53] characters, as every string is),
    [generateRandomBase62(length)] returns a string of exactly [length]
    characters, each taken from the alphabet: the product
    [Math.random() * charactersLength], rounded to the nearest double,
    never reaches [charactersLength].  The call changes nothing but the
    random source and the record of its draw. *)
Theorem generateRandomBase62_draws_from_alphabet :
  forall (cfg : Config) (length : nat) (w : World),
    Forall randomDouble (random w) ->
    base62Chars cfg <> "" ->
    Z.of_nat (String.length (base62Chars cfg)) <= 9007199254740992 ->
    exists (code : string) (w' : World),
      ShortcodeService.generateRandomBase62 cfg length w = (Returned code, w') /\
      String.length code = length /\
      overAlphabet (base62Chars cfg) code /\
      Forall randomDouble (random w') /\
      urls w' = urls w /\ weather w' = weather w /\
      trace w' = trace w ++ [Drew length code].
Proof.
  intros cfg n w Hrnd Hne Hbig.
  destruct (appendRandom_good cfg n "" w Hrnd Hne Hbig)
    as (code & rnd & Hrun & Hlen & Hover & Hrnd').
  exists code. eexists. unfold ShortcodeService.generateRandomBase62, bind.
  rewrite Hrun. cbn. split; [reflexivity|]. done.
Qed.

Lemma generateRandomBase62_draws_from_alphabet_witness :
  Forall randomDouble (random drawWorld) /\
  fst (ShortcodeService.generateRandomBase62 defaultConfig 6 drawWorld)
    = Returned "w0fZJ0" /\
  overAlphabet (base62Chars defaultConfig) "w0fZJ0".
Proof.
  assert (Hrnd : Forall randomDouble (random drawWorld)).
  { repeat constructor; discriminate. }
  split; [exact Hrnd|].
  destruct (generateRandomBase62_draws_from_alphabet defaultConfig 6 drawWorld Hrnd)
    as (code & w' & Hrun & _ & Hover & _).
  - discriminate.
  - vm_compute. discriminate.
  - assert (Hcode : code = "w0fZJ0").
    { vm_compute in Hrun. congruence. }
    subst code. split; [vm_compute; reflexivity | exact Hover].
Defined.

(** ** The codes the allocator hands out *)

Lemma isAlnum_not_whitespace (c : ascii) : isAlnum c = true -> isWhiteSpace c = false.
Proof.
  destruct c as [[] [] [] [] [] [] [] []]; vm_compute; congruence.
Qed.

Lemma alnum_string_is_trimmed (s : string) :
  Forall (fun c => isAlnum c = true) (list_ascii_of_string s) -> trim s = s.
Proof.
  intros Hall. apply trim_no_whitespace.
  induction s as [|c r IH]; [reflexivity|].
  cbn in Hall |- *. inversion Hall as [|? ? Hc Hr]; subst.
  rewrite (isAlnum_not_whitespace c Hc). cbn. apply IH, Hr.
Qed.

Lemma overAlphabet_alnum (alphabet code : string) :
  allChars isAlnum alphabet = true -> overAlphabet alphabet code ->
  Forall (fun c => isAlnum c = true) (list_ascii_of_string code).
Proof.
  intros Halpha Hover. apply allChars_Forall in Halpha.
  rewrite List.Forall_forall in Halpha.
  eapply Forall_impl; [exact Hover|]. intros c Hin. apply Halpha, Hin.
Qed.

Lemma isShortcodeAvailable_keeps_random (sc : string) (w : World) :
  random (snd (ShortcodeService.isShortcodeAvailable sc w)) = random w.
Proof.
  unfold ShortcodeService.isShortcodeAvailable, Url.shortcodeExists,
    try_catch, bind, storeOp, readUrls, emit, ret, throw.
  destruct (hd Calm (weather w)) as [| |rsc rurl rc re]; cbn; try reflexivity.
  destruct (urls w !! rsc); reflexivity.
Qed.

(** A code the loop returns was drawn at one of the three tiers. *)
Lemma generateLoop_returns_drawn_length (cfg : Config) (L : nat) :
  maxRetries cfg = 5%nat ->
  base62Chars cfg <> "" ->
  Z.of_nat (String.length (base62Chars cfg)) <= 9007199254740992 ->
  forall (fuel a : nat) (w w' : World) (code : string),
    Forall randomDouble (random w) ->
    ShortcodeService.generateLoop cfg fuel (tier L a) a w = (Returned code, w') ->
    exists i, (a <= i < 15)%nat /\
              String.length code = tier L i /\
              overAlphabet (base62Chars cfg) code.
Proof.
  intros Hmax Hne Hbig. induction fuel as [|fuel IH]; intros a w w' code Hrnd Hrun;
    [discriminate|].
  rewrite generateLoop_unfold, Hmax in Hrun. change (5 * 3)%nat with 15%nat in Hrun.
  destruct (Nat.ltb_spec a 15) as [Hlt|Hge]; [|discriminate].
  destruct (random_code_is_over_alphabet cfg (tier L a) w Hrnd Hne Hbig)
    as (c1 & w1 & Hdraw & Hlen & Hover & Hrnd1).
  unfold bind at 1 in Hrun. rewrite Hdraw in Hrun.
  unfold bind, try_catch in Hrun.
  pose proof (isShortcodeAvailable_keeps_random c1 w1) as Hkeep.
  destruct (ShortcodeService.isShortcodeAvailable c1 w1) as [[[|]|e|] w2] eqn:Hchk;
    cbn [snd] in Hkeep; try discriminate.
  - injection Hrun as <- <-. exists a. split; [lia|]. done.
  - rewrite tier_step in Hrun by lia.
    destruct (IH (S a) w2 w' code) as (i & Hi & Hres); [rewrite Hkeep; exact Hrnd1 | exact Hrun |].
    exists i. split; [lia | exact Hres].
Qed.

(** The schema's verdict on a record without clicks, path by path. *)
Lemma validate_fresh_record (d : UrlDoc) :
  WellFormedCode (shortcode d) -> clickCount d = 0 -> clicks d = [] ->
  (Url.validate d = None <->
   originalUrl d <> "" /\ Url.hasProtocolAndMore (originalUrl d) = true /\
   is_Some (expiryAt d)).
Proof.
  intros [[Hlo Hhi] Hall] Hcount Hclicks. unfold Url.validate.
  assert (Hne : String.eqb (shortcode d) "" = false).
  { apply String.eqb_neq. intros He. rewrite He in Hlo. cbn in Hlo. lia. }
  rewrite Hne.
  destruct (Nat.ltb_spec (String.length (shortcode d)) 4); [lia|].
  destruct (Nat.ltb_spec 20 (String.length (shortcode d))); [lia|].
  apply isAlphanumeric_spec in Hall; [|lia]. rewrite Hall, Hcount, Hclicks. cbn.
  destruct (String.eqb_spec (originalUrl d) "") as [He | Hurl].
  { split; [discriminate | intros [Hc _]; contradiction]. }
  destruct (Url.hasProtocolAndMore (originalUrl d)); cbn.
  2:{ split; [discriminate | intros (_ & Hc & _); discriminate]. }
  destruct (expiryAt d) as [e|]; cbn.
  - split; [intros _; split; [exact Hurl | split; [reflexivity | eauto]] | reflexivity].
  - split; [discriminate | intros (_ & _ & [e He]); discriminate].
Qed.

(** X4.  With five retries per length, an alphanumeric alphabet, a
    default length between 4 and 18, custom codes of 4 to 20 characters
    and random values that are doubles in [0, 1): every code [processShortcode] hands out,
    custom or generated, has 4 to 20 alphanumeric characters and no
    surrounding white space, a generated one within two characters of
    the default length.  So the record built from it is refused by the
    schema only for its URL or its expiry date, never for its code. *)
Theorem processShortcode_hands_out_well_formed_codes :
  forall (cfg : Config) (fuel : nat) (v : jsval) (w w' : World) (code : string),
    maxRetries cfg = 5%nat ->
    minCustomLength cfg = 4%nat ->
    maxCustomLength cfg = 20%nat ->
    (4 <= defaultLength cfg <= 18)%nat ->
    base62Chars cfg <> "" ->
    Z.of_nat (String.length (base62Chars cfg)) <= 9007199254740992 ->
    allChars isAlnum (base62Chars cfg) = true ->
    Forall randomDouble (random w) ->
    ShortcodeService.processShortcode cfg fuel v w
      = (Returned (ShortcodeService.Success code), w') ->
    WellFormedCode code /\
    trim code = code /\
    (truthy v = true -> exists s, v = JStr s /\ code = trim s) /\
    (truthy v = false ->
       (defaultLength cfg <= String.length code <= defaultLength cfg + 2)%nat /\
       overAlphabet (base62Chars cfg) code) /\
    (forall d, shortcode d = code -> clickCount d = 0 -> clicks d = [] ->
       (Url.validate d = None <->
        originalUrl d <> "" /\ Url.hasProtocolAndMore (originalUrl d) = true /\
        is_Some (expiryAt d))).
Proof.
  intros cfg fuel v w w' code Hmax Hmin Hmaxc Hdef Hne Hbig Halpha Hrnd Hrun.
  assert (Hcases :
    (truthy v = true /\ exists s, v = JStr s /\ code = trim s /\ WellFormedCode code) \/
    (truthy v = false /\ exists i, (i < 15)%nat /\
       String.length code = tier (defaultLength cfg) i /\
       overAlphabet (base62Chars cfg) code)).
  { unfold ShortcodeService.processShortcode, try_catch in Hrun.
    assert (Hmap : truthy (match v with JUndefined => JNull | v0 => v0 end) = truthy v)
      by (destruct v; reflexivity).
    rewrite Hmap in Hrun. destruct (truthy v) eqn:Htruthy.
    - left. split; [reflexivity|].
      destruct v as [| | b | n | s | prim]; try discriminate;
        try (cbn in Hrun; discriminate).
      destruct (ShortcodeService.validateCustomShortcode cfg (JStr s)) as [t|msg] eqn:Hv;
        [|discriminate].
      assert (Ht : t = trim s /\ WellFormedCode t).
      { unfold ShortcodeService.validateCustomShortcode in Hv.
        rewrite Htruthy, Hmin, Hmaxc in Hv. cbn [negb] in Hv.
        destruct (Nat.ltb_spec (String.length (trim s)) 4); [discriminate|].
        destruct (Nat.ltb_spec 20 (String.length (trim s))); [discriminate|].
        destruct (isAlphanumeric (trim s)) eqn:Hal; [|discriminate].
        injection Hv as <-. split; [reflexivity|]. split; [lia|].
        apply isAlphanumeric_spec; [lia | exact Hal]. }
      destruct Ht as [-> Hwf].
      unfold bind in Hrun.
      destruct (ShortcodeService.isShortcodeAvailable (trim s) w) as [[[|]|e|] w1];
        try discriminate.
      injection Hrun as <- <-. exists s. done.
    - right. split; [reflexivity|].
      unfold bind, ShortcodeService.generateUniqueShortcode in Hrun.
      assert (HL : tier (defaultLength cfg) 0 = defaultLength cfg)
        by (unfold tier; cbn; lia).
      rewrite <- HL in Hrun at 1.
      destruct (ShortcodeService.generateLoop cfg fuel (tier (defaultLength cfg) 0) 0 w)
        as [[c|e|] w1] eqn:Hloop; try discriminate.
      injection Hrun as <- <-.
      destruct (generateLoop_returns_drawn_length cfg (defaultLength cfg) Hmax Hne Hbig
                  fuel 0%nat w w1 c Hrnd Hloop) as (i & Hi & Hlen & Hover).
      exists i. split; [lia|]. done. }
  assert (Htier : forall i, (i < 15)%nat ->
            (defaultLength cfg <= tier (defaultLength cfg) i <= defaultLength cfg + 2)%nat).
  { intros i Hi. unfold tier.
    assert (i / 5 <= 2)%nat; [|lia].
    do 15 (destruct i as [|i]; [cbn; lia|]). lia. }
  assert (Hwf : WellFormedCode code).
  { destruct Hcases as [(_ & s & _ & _ & Hwf) | (_ & i & Hi & Hlen & Hover)]; [exact Hwf|].
    split; [rewrite Hlen; specialize (Htier i Hi); lia|].
    exact (overAlphabet_alnum _ _ Halpha Hover). }
  split; [exact Hwf|]. split; [apply alnum_string_is_trimmed, Hwf|].
  split; [|split].
  - intros Ht. destruct Hcases as [(_ & s & Hv & Hc & _) | (Hf & _)]; [|congruence].
    exists s. done.
  - intros Hf. destruct Hcases as [(Ht & _) | (_ & i & Hi & Hlen & Hover)]; [congruence|].
    split; [rewrite Hlen; apply Htier, Hi | exact Hover].
  - intros d Hd. subst code. apply validate_fresh_record, Hwf.
Qed.

Lemma processShortcode_hands_out_well_formed_codes_witness :
  fst (ShortcodeService.processShortcode defaultConfig 16 JUndefined drawWorld)
    = Returned (ShortcodeService.Success "w0fZJ0") /\
  WellFormedCode "w0fZJ0" /\ trim "w0fZJ0" = "w0fZJ0".
Proof.
  split; [vm_compute; reflexivity|].
  destruct (processShortcode_hands_out_well_formed_codes defaultConfig 16 JUndefined
              drawWorld
              (snd (ShortcodeService.processShortcode defaultConfig 16 JUndefined drawWorld))
              "w0fZJ0")
    as (Hwf & Htrim & _).
  - reflexivity.
  - reflexivity.
  - reflexivity.
  - cbn; lia.
  - discriminate.
  - vm_compute. discriminate.
  - reflexivity.
  - repeat constructor; discriminate.
  - vm_compute. reflexivity.
  - split; [exact Hwf | exact Htrim].
Defined.

(** ** Records are kept *)

Lemma keeping_refl (w : World) : keeping w w.
Proof. intros sc d H. exact H. Qed.

Lemma keeping_trans (a b c : World) : keeping a b -> keeping b c -> keeping a c.
Proof. intros Hab Hbc sc d H. apply Hbc, Hab, H. Qed.

Lemma keeping_same (w w' : World) : urls w' = urls w -> keeping w w'.
Proof. intros He sc d H. rewrite He. exact H. Qed.

Lemma keeping_storeOp : stable keeping storeOp.
Proof.
  intros w. unfold storeOp.
  destruct (hd Calm (weather w)) as [| |rsc rurl rc re]; cbn;
    try (apply keeping_same; reflexivity).
  destruct (urls w !! rsc) eqn:Hr; cbn; [apply keeping_same; reflexivity|].
  intros sc d Hd. cbn. rewrite lookup_insert_ne by congruence. exact Hd.
Qed.

Lemma keeping_emit (e : Event) : stable keeping (emit e).
Proof. intros w. apply keeping_same. reflexivity. Qed.

Lemma keeping_Date_now : stable keeping Date_now.
Proof. intros w. apply keeping_same. reflexivity. Qed.

Lemma keeping_Math_random : stable keeping Math_random.
Proof. intros w. apply keeping_same. reflexivity. Qed.

Lemma keeping_processShortcode (cfg : Config) (fuel : nat) (v : jsval) :
  stable keeping (ShortcodeService.processShortcode cfg fuel v).
Proof.
  apply stable_processShortcode;
    [apply keeping_refl | apply keeping_trans | apply keeping_Math_random
     | apply keeping_storeOp | intros e _; apply keeping_emit].
Qed.

Lemma keeping_findOne (sc : string) : stable keeping (Url.findOne sc).
Proof.
  unfold Url.findOne.
  apply stable_bind; [apply keeping_trans | apply keeping_storeOp | intros _].
  apply stable_bind; [apply keeping_trans | apply stable_readUrls, keeping_refl | intros db].
  apply stable_bind; [apply keeping_trans | apply keeping_emit | intros _].
  apply stable_ret, keeping_refl.
Qed.

(** Saving a new record writes under a free shortcode only. *)
Lemma keeping_saveNew (d : UrlDoc) : stable keeping (Url.saveNew d).
Proof.
  unfold Url.saveNew.
  apply stable_try_catch; [apply keeping_trans | |].
  - destruct (Url.validate d); [apply stable_throw, keeping_refl|].
    apply stable_bind; [apply keeping_trans | apply keeping_Date_now | intros t].
    destruct (Url.date_le _ _); [apply stable_throw, keeping_refl|].
    apply stable_bind; [apply keeping_trans | apply keeping_storeOp | intros _].
    intros w. unfold bind, readUrls.
    destruct (urls w !! shortcode d) eqn:Hfree; cbn; [apply keeping_refl|].
    intros sc d0 Hd0. cbn. rewrite lookup_insert_ne by congruence. exact Hd0.
  - intros e. apply stable_bind; [apply keeping_trans | apply keeping_emit | intros _].
    apply stable_throw, keeping_refl.
Qed.

Lemma keeping_Log (a b c m : string) : stable keeping (Log a b c m).
Proof. apply keeping_emit. Qed.

Lemma keeping_postShorturls (P : Platform) (cfg : Config) (fuel : nat) (req : CreateBody) :
  stable keeping (urlRoutes.postShorturls P cfg fuel req).
Proof.
  unfold urlRoutes.postShorturls.
  apply stable_try_catch; [apply keeping_trans | |].
  - destruct (ValidationService.validateUrl P _); [|apply stable_ret, keeping_refl].
    destruct (ValidationService.validateValidity P _ _); [|apply stable_ret, keeping_refl].
    apply stable_bind; [apply keeping_trans | apply keeping_processShortcode | intros r].
    destruct r as [sc|err st]; [|apply stable_ret, keeping_refl].
    apply stable_bind; [apply keeping_trans | apply keeping_Date_now | intros t].
    apply stable_bind.
    + apply keeping_trans.
    + unfold Url.new.
      apply stable_bind; [apply keeping_trans | apply keeping_Date_now | intros t'].
      apply stable_ret, keeping_refl.
    + intros d.
      apply stable_bind; [apply keeping_trans | apply keeping_saveNew | intros _].
      destruct (newDate _); [|apply stable_throw, keeping_refl].
      apply stable_bind; [apply keeping_trans | | intros _; apply stable_ret, keeping_refl].
      apply stable_try_catch; [apply keeping_trans | apply keeping_Log |].
      intros e. apply stable_ret, keeping_refl.
  - intros e. destruct (bool_decide _); apply stable_ret, keeping_refl.
Qed.

Lemma keeping_getStats (P : Platform) (sc : string) (page limit : jsval) :
  stable keeping (urlRoutes.getStats P sc page limit).
Proof.
  unfold urlRoutes.getStats.
  apply stable_try_catch; [apply keeping_trans | |].
  - destruct (ValidationService.validatePagination P page limit);
      [|apply stable_ret, keeping_refl].
    apply stable_bind; [apply keeping_trans | apply keeping_findOne | intros found].
    destruct found; apply stable_ret, keeping_refl.
  - intros e. apply stable_ret, keeping_refl.
Qed.

(** X5.  A creation request never changes or removes a record that is
    already in the collection: whatever its outcome, every record is
    afterwards exactly as it was.  The same holds for a statistics
    request, which records nothing. *)
Theorem creation_and_statistics_keep_every_record :
  forall (P : Platform) (cfg : Config) (fuel : nat) (req : CreateBody)
         (page limit : jsval) (code : string) (w : World) (sc : string) (d : UrlDoc),
    urls w !! sc = Some d ->
    urls (snd (urlRoutes.postShorturls P cfg fuel req w)) !! sc = Some d /\
    urls (snd (urlRoutes.getStats P code page limit w)) !! sc = Some d.
Proof.
  intros P cfg fuel req page limit code w sc d Hd. split.
  - exact (keeping_postShorturls P cfg fuel req w sc d Hd).
  - exact (keeping_getStats P code page limit w sc d Hd).
Qed.

Lemma creation_and_statistics_keep_every_record_witness :
  urls sampleWorld !! "abcd" = Some (sampleDoc "abcd" 5000 []) /\
  urls (snd (urlRoutes.postShorturls samplePlatform defaultConfig 16
               (sampleBody (JStr "abcd")) sampleWorld)) !! "abcd"
    = Some (sampleDoc "abcd" 5000 []).
Proof.
  assert (Hd : urls sampleWorld !! "abcd" = Some (sampleDoc "abcd" 5000 []))
    by (vm_compute; reflexivity).
  split; [exact Hd|].
  exact (proj1 (creation_and_statistics_keep_every_record samplePlatform defaultConfig 16
                  (sampleBody (JStr "abcd")) JUndefined JUndefined "abcd"
                  sampleWorld "abcd" _ Hd)).
Defined.

(** ** A redirect on a record that is found *)

(** What the handler does once the lookup has returned a record that is
    not expired: one more clock read, then [addClick], then the log. *)
Lemma getShortcode_found (P : Platform) (req : Request) (w w1 : World) (d : UrlDoc) :
  Url.findOne (params_shortcode req) w = (Returned (Some d), w1) ->
  Url.date_gt (Some (nextRead w1)) (expiryAt d) = false ->
  urlRoutes.getShortcode P req w =
    match Url.addClick d (clickData P req (nextRead (tick w1))) (tick (tick w1)) with
    | (Returned d', w4) =>
        (Returned {| status := 302; body := Redirect (originalUrl d') |},
         snd (Log "backend" "info" "route"
                ("Redirect: " ++ params_shortcode req ++ " accessed from IP "
                 ++ ValidationHelpers.extractClientIP req)%string w4))
    | (Thrown e, w4) =>
        (Returned {| status := 500; body := Message "Internal server error" |}, w4)
    | (OutOfFuel, w4) => (OutOfFuel, w4)
    end.
Proof.
  intros Hfind Hexp. unfold urlRoutes.getShortcode.
  rewrite (try_catch_bind_returned _ _ _ _ _ _ Hfind).
  unfold Url.isExpired. unfold bind at 1. unfold bind at 1.
  unfold Date_now at 1. unfold try_catch, ret at 1. cbv beta iota zeta.
  fold (nextRead w1). rewrite Hexp.
  unfold bind at 1. unfold Date_now at 1. cbv beta iota zeta.
  unfold bind at 1.
  change (Url.addClick d _ _)
    with (Url.addClick d (clickData P req (nextRead (tick w1))) (tick (tick w1))).
  destruct (Url.addClick d (clickData P req (nextRead (tick w1))) (tick (tick w1)))
    as [[d'|e|] w4]; reflexivity.
Qed.

Lemma findOne_present (sc : string) (d : UrlDoc) (w : World) :
  urls w !! sc = Some d ->
  hd Calm (weather w) <> Down ->
  exists w1,
    Url.findOne sc w = (Returned (Some d), w1) /\
    urls w1 !! sc = Some d /\
    keeping w w1 /\
    weather w1 = tl (weather w) /\
    now w1 = now w /\ elapsed w1 = elapsed w.
Proof.
  intros Hd Hup.
  pose proof (keeping_findOne sc w) as Hkeep.
  unfold Url.findOne, bind, storeOp, readUrls, emit, ret in *.
  destruct (hd Calm (weather w)) as [| |rsc rurl rc re]; [|contradiction|].
  - cbn in *. rewrite Hd. eexists. split; [reflexivity|]. cbn. done.
  - destruct (urls w !! rsc) eqn:Hr; cbn in *.
    + rewrite Hd. eexists. split; [reflexivity|]. cbn. done.
    + assert (Hne : rsc <> sc) by congruence.
      rewrite lookup_insert_ne by exact Hne. rewrite Hd.
      eexists. split; [reflexivity|]. cbn.
      rewrite lookup_insert_ne by exact Hne. done.
Qed.

Lemma validate_pushClick (d : UrlDoc) (c : Click) :
  Url.validate d = None -> ip c <> "" -> Url.validate (Url.pushClick d c) = None.
Proof.
  intros Hd Hip. unfold Url.validate in *. cbn [shortcode originalUrl expiryAt
    clickCount clicks Url.pushClick].
  repeat match type of Hd with
         | (if ?b then _ else _) = None => destruct b eqn:?; [discriminate|]
         end.
  destruct (Z.ltb_spec (Z.of_nat (length (clicks d ++ [c]))) 0); [lia|].
  rewrite forallb_app. cbn.
  match goal with H : negb (forallb _ _) = false |- _ =>
    apply negb_false_iff in H; rewrite H end.
  unfold Url.validClick. apply String.eqb_neq in Hip. rewrite Hip. reflexivity.
Qed.

Lemma validate_rejects_blank_ip (d : UrlDoc) (c : Click) :
  ip c = "" -> exists message, Url.validate (Url.pushClick d c) = Some message.
Proof.
  intros Hip. unfold Url.validate.
  repeat match goal with
         | |- exists m, (if ?b then _ else _) = Some m =>
             destruct b eqn:?; [eexists; reflexivity|]
         end.
  exfalso.
  match goal with H : negb (forallb _ _) = false |- _ =>
    apply negb_false_iff in H; cbn [clicks Url.pushClick] in H;
    rewrite forallb_app in H; apply andb_true_iff in H; destruct H as [_ H];
    cbn in H; unfold Url.validClick in H; rewrite Hip in H; discriminate
  end.
Qed.

Lemma addClick_saved (d : UrlDoc) (c : Click) (w : World) :
  Url.validate (Url.pushClick d c) = None ->
  hd Calm (weather w) <> Down ->
  exists w',
    Url.addClick d c w = (Returned (Url.pushClick d c), w') /\
    urls w' !! shortcode d = Some (Url.pushClick d c) /\
    now w' = now w /\
    trace w' = trace w ++ [ClickSaved (shortcode d)].
Proof.
  intros Hv Hup. unfold Url.addClick, Url.saveExisting, bind, try_catch.
  rewrite Hv. unfold storeOp, writeUrl, emit, ret.
  destruct (hd Calm (weather w)) as [| |rsc rurl rc re]; [|contradiction|]; cbn.
  - eexists. split; [reflexivity|]. cbn. rewrite lookup_insert_eq. done.
  - destruct (urls w !! rsc); cbn;
      (eexists; split; [reflexivity|]; cbn; rewrite lookup_insert_eq; done).
Qed.

Lemma addClick_refused (d : UrlDoc) (c : Click) (w : World) (message : string) :
  Url.validate (Url.pushClick d c) = Some message ->
  Url.addClick d c w =
    (Thrown (ValidationError message),
     snd (emit (ClickRejected (shortcode d) (ValidationError message)) w)).
Proof.
  intros Hv. unfold Url.addClick, Url.saveExisting, bind, try_catch.
  rewrite Hv. reflexivity.
Qed.

Lemma getShortcode_expired (P : Platform) (req : Request) (w w1 : World) (d : UrlDoc) :
  Url.findOne (params_shortcode req) w = (Returned (Some d), w1) ->
  Url.date_gt (Some (nextRead w1)) (expiryAt d) = true ->
  urlRoutes.getShortcode P req w =
    (Returned {| status := 410; body := Message "link expired" |}, tick w1).
Proof.
  intros Hfind Hexp. unfold urlRoutes.getShortcode.
  rewrite (try_catch_bind_returned _ _ _ _ _ _ Hfind).
  unfold Url.isExpired. unfold bind at 1. unfold bind at 1.
  unfold Date_now at 1. unfold try_catch, ret at 1. cbv beta iota zeta.
  fold (nextRead w1). rewrite Hexp. reflexivity.
Qed.

Lemma findOne_returned (sc : string) (w w1 : World) (found : option UrlDoc) :
  Url.findOne sc w = (Returned found, w1) ->
  found = urls w1 !! sc /\ keeping w w1 /\
  weather w1 = tl (weather w) /\ now w1 = now w /\ elapsed w1 = elapsed w.
Proof.
  intros Hrun. pose proof (keeping_findOne sc w) as Hkeep. rewrite Hrun in Hkeep.
  cbn [snd] in Hkeep.
  unfold Url.findOne, bind, storeOp, readUrls, emit, ret in Hrun.
  destruct (hd Calm (weather w)) as [| |rsc rurl rc re]; cbn in Hrun.
  - injection Hrun as <- <-. done.
  - discriminate.
  - destruct (urls w !! rsc); cbn in Hrun; injection Hrun as <- <-; done.
Qed.

Lemma addClick_returned (d d' : UrlDoc) (c : Click) (w w' : World) :
  Url.addClick d c w = (Returned d', w') ->
  d' = Url.pushClick d c /\
  urls w' !! shortcode d = Some (Url.pushClick d c) /\
  now w' = now w /\ elapsed w' = elapsed w.
Proof.
  unfold Url.addClick, Url.saveExisting, bind, try_catch.
  destruct (Url.validate (Url.pushClick d c)); [discriminate|].
  unfold storeOp, writeUrl, emit, ret, throw.
  destruct (hd Calm (weather w)) as [| |rsc rurl rc re]; cbn.
  - intros [= <- <-]. cbn. rewrite lookup_insert_eq. done.
  - discriminate.
  - destruct (urls w !! rsc); cbn; intros [= <- <-]; cbn; rewrite lookup_insert_eq; done.
Qed.

Lemma addClick_keeps_others (d : UrlDoc) (c : Click) (w : World) :
  keepingOthers (shortcode d) w (snd (Url.addClick d c w)).
Proof.
  intros k d0 Hk Hd0. unfold Url.addClick, Url.saveExisting, bind, try_catch.
  destruct (Url.validate (Url.pushClick d c)); [exact Hd0|].
  unfold storeOp, writeUrl, emit, ret, throw.
  destruct (hd Calm (weather w)) as [| |rsc rurl rc re]; cbn.
  - rewrite lookup_insert_ne by congruence. exact Hd0.
  - exact Hd0.
  - destruct (urls w !! rsc) eqn:Hr; cbn.
    + rewrite lookup_insert_ne by congruence. exact Hd0.
    + rewrite lookup_insert_ne by congruence.
      rewrite lookup_insert_ne by congruence. exact Hd0.
Qed.

(** A redirect on a live record, step by step. *)
Lemma live_redirect_run :
  forall (P : Platform) (req : Request) (w : World) (d : UrlDoc) (e : Z),
    urls w !! params_shortcode req = Some d ->
    Url.validate d = None ->
    expiryAt d = Some e ->
    nextRead w <= e ->
    hd Calm (weather w) <> Down ->
    hd Calm (tl (weather w)) <> Down ->
    ValidationHelpers.extractClientIP req <> "" ->
    exists (w' : World) (t : Z),
      urlRoutes.getShortcode P req w
        = (Returned {| status := 302; body := Redirect (originalUrl d) |}, w') /\
      nextRead w <= t /\
      urls w' !! shortcode d = Some (Url.pushClick d (clickData P req t)).
Proof.
  intros P req w d e Hd Hvalid He Hlive Hup1 Hup2 Hip.
  destruct (findOne_present _ d w Hd Hup1)
    as (w1 & Hfind & _ & _ & Hweather & Hnow & Helapsed).
  assert (Hread : nextRead w1 = nextRead w).
  { unfold nextRead. rewrite Hnow, Helapsed. reflexivity. }
  assert (Hexp : Url.date_gt (Some (nextRead w1)) (expiryAt d) = false).
  { rewrite He, Hread. cbn. apply Z.ltb_ge. exact Hlive. }
  rewrite (getShortcode_found P req w w1 d Hfind Hexp).
  destruct (addClick_saved d (clickData P req (nextRead (tick w1))) (tick (tick w1)))
    as (w4 & Hadd & Hstored & _ & _).
  - apply validate_pushClick; [exact Hvalid | exact Hip].
  - cbn. rewrite Hweather. exact Hup2.
  - rewrite Hadd. eexists _, (nextRead (tick w1)).
    split; [reflexivity|]. split; [|exact Hstored].
    rewrite <- Hread. unfold nextRead at 2. cbn. fold (nextRead w1). lia.
Qed.



(** X7.  When the [x-forwarded-for] header is present and the part
    before its first comma is blank, the client address is the empty
    string, the click fails the schema's required [ip], and the redirect
    of a live record is answered 500: the visitor is not redirected and
    the record stays as it was. *)
Theorem blank_forwarded_address_answers_500 :
  forall (P : Platform) (req : Request) (w : World) (d : UrlDoc) (e : Z) (x : string),
    header_x_forwarded_for req = Some x ->
    x <> "" ->
    trim (beforeComma x) = "" ->
    urls w !! params_shortcode req = Some d ->
    expiryAt d = Some e ->
    nextRead w <= e ->
    hd Calm (weather w) <> Down ->
    exists w',
      urlRoutes.getShortcode P req w
        = (Returned {| status := 500; body := Message "Internal server error" |}, w') /\
      urls w' !! params_shortcode req = Some d.
Proof.
  intros P req w d e x Hx Hne Hblank Hd He Hlive Hup.
  destruct (findOne_present _ d w Hd Hup)
    as (w1 & Hfind & Hd1 & _ & _ & Hnow & Helapsed).
  assert (Hexp : Url.date_gt (Some (nextRead w1)) (expiryAt d) = false).
  { rewrite He. unfold nextRead. rewrite Hnow, Helapsed. cbn. apply Z.ltb_ge. exact Hlive. }
  rewrite (getShortcode_found P req w w1 d Hfind Hexp).
  assert (Hip : ip (clickData P req (nextRead (tick w1))) = "").
  { cbn. unfold ValidationHelpers.extractClientIP. rewrite Hx.
    apply String.eqb_neq in Hne. rewrite Hne. exact Hblank. }
  destruct (validate_rejects_blank_ip d _ Hip) as [message Hv].
  rewrite (addClick_refused d _ (tick (tick w1)) message Hv).
  eexists. split; [reflexivity|]. cbn. exact Hd1.
Qed.

Lemma blank_forwarded_address_answers_500_witness :
  status_of (fst (urlRoutes.getShortcode samplePlatform
     {| params_shortcode := "abcd"; header_x_forwarded_for := Some ", 198.51.100.4";
        header_referrer := None; header_referer := None; header_user_agent := None;
        connection_remoteAddress := Some "203.0.113.7";
        socket_remoteAddress := Some "203.0.113.7";
        connection_socket_remoteAddress := None |} sampleWorld)) = Some 500.
Proof.
  destruct (blank_forwarded_address_answers_500 samplePlatform
     {| params_shortcode := "abcd"; header_x_forwarded_for := Some ", 198.51.100.4";
        header_referrer := None; header_referer := None; header_user_agent := None;
        connection_remoteAddress := Some "203.0.113.7";
        socket_remoteAddress := Some "203.0.113.7";
        connection_socket_remoteAddress := None |}
     sampleWorld (sampleDoc "abcd" 5000 []) 5000 ", 198.51.100.4")
    as (w' & Hrun & _).
  - reflexivity.
  - discriminate.
  - reflexivity.
  - vm_compute. reflexivity.
  - reflexivity.
  - vm_compute. discriminate.
  - discriminate.
  - rewrite Hrun. reflexivity.
Defined.

(** X8.  In a collection where every record is stored under its own
    shortcode, a redirect request changes at most the record of the code
    it asks for, white space around the requested code set aside (the
    schema trims the [shortcode] of a record and of a query filter
    alike): every record stored under another trimmed code is afterwards
    exactly as it was. *)
Theorem redirect_keeps_the_other_records :
  forall (P : Platform) (req : Request) (w : World) (k : string) (d : UrlDoc),
    wellKeyed (urls w) ->
    trim k = k ->
    k <> trim (params_shortcode req) ->
    urls w !! k = Some d ->
    urls (snd (urlRoutes.getShortcode P req w)) !! k = Some d.
Proof.
  intros P req w k d Hk Htrim Hother Hd.
  assert (Hne : k <> params_shortcode req).
  { intros He. apply Hother. rewrite <- He. symmetry. exact Htrim. }
  destruct (getShortcode_run P req w) as (resp & w' & evs & Hrun & _ & _ & Hcase).
  rewrite Hrun. cbn [snd].
  destruct Hcase as [e wa Hf | wa Hf | d0 wa wb Hf Hexp Hdb
                     | d0 c wa wb msg Hf Hexp Hdb | d0 e wa wb Hf Hexp Hdb].
  - pose proof (keeping_findOne (params_shortcode req) w) as Hkeep.
    rewrite Hf in Hkeep. exact (Hkeep k d Hd).
  - pose proof (keeping_findOne (params_shortcode req) w) as Hkeep.
    rewrite Hf in Hkeep. exact (Hkeep k d Hd).
  - rewrite Hdb. destruct (findOne_returned _ _ _ _ Hf) as (_ & Hkeep & _).
    exact (Hkeep k d Hd).
  - destruct (findOne_returned _ _ _ _ Hf) as (Hfound & Hkeep & _).
    assert (Hkey : shortcode d0 = params_shortcode req).
    { pose proof (growing_findOne (params_shortcode req) w) as Hgrow.
      rewrite Hf in Hgrow. destruct (Hgrow Hk) as (Hk1 & _).
      apply Hk1. symmetry. exact Hfound. }
    rewrite (getShortcode_found P req w wa d0 Hf Hexp) in Hrun.
    pose proof (addClick_keeps_others d0 (clickData P req (nextRead (tick wa)))
                  (tick (tick wa))) as Hothers.
    destruct (Url.addClick d0 (clickData P req (nextRead (tick wa))) (tick (tick wa)))
      as [[d'|e|] w4]; try discriminate.
    injection Hrun as _ <-. cbn. cbn [snd] in Hothers.
    apply Hothers; [rewrite Hkey; exact Hne|]. cbn. exact (Hkeep k d Hd).
  - rewrite Hdb. destruct (findOne_returned _ _ _ _ Hf) as (_ & Hkeep & _).
    exact (Hkeep k d Hd).
Qed.

Lemma redirect_keeps_the_other_records_witness :
  status_of (fst (urlRoutes.getShortcode samplePlatform (sampleRequest "wxyz") pairWorld))
    = Some 302 /\
  urls (snd (urlRoutes.getShortcode samplePlatform (sampleRequest "wxyz") pairWorld))
    !! "abcd" = Some (sampleDoc "abcd" 5000 []).
Proof.
  split; [vm_compute; reflexivity|].
  apply redirect_keeps_the_other_records.
  - intros sc d Hd. cbn [urls pairWorld] in Hd.
    apply lookup_insert_Some in Hd. destruct Hd as [[<- <-] | [_ Hd]]; [reflexivity|].
    apply lookup_singleton_Some in Hd. destruct Hd as [<- <-]. reflexivity.
  - reflexivity.
  - discriminate.
  - vm_compute. reflexivity.
Defined.

(** ** Click accounting *)

Lemma pushClicks_snoc (d : UrlDoc) (cs : list Click) (c : Click) :
  pushClicks d (cs ++ [c]) = Url.pushClick (pushClicks d cs) c.
Proof. unfold pushClicks. rewrite fold_left_app. reflexivity. Qed.

Lemma pushClicks_cons (d : UrlDoc) (c : Click) (cs : list Click) :
  pushClicks d (c :: cs) = pushClicks (Url.pushClick d c) cs.
Proof. reflexivity. Qed.

Lemma pushClicks_fields (d : UrlDoc) (cs : list Click) :
  shortcode (pushClicks d cs) = shortcode d /\
  originalUrl (pushClicks d cs) = originalUrl d /\
  expiryAt (pushClicks d cs) = expiryAt d /\
  clicks (pushClicks d cs) = clicks d ++ cs /\
  (countsClicks d -> countsClicks (pushClicks d cs) /\
                     clickCount (pushClicks d cs) = clickCount d + Z.of_nat (length cs)).
Proof.
  revert d. induction cs as [|c cs IH]; intros d.
  - cbn. rewrite app_nil_r. split_and!; try done. intros Hc. split; [exact Hc | lia].
  - rewrite pushClicks_cons.
    destruct (IH (Url.pushClick d c)) as (H1 & H2 & H3 & H4 & H5).
    rewrite H1, H2, H3, H4. cbn [shortcode originalUrl expiryAt clicks Url.pushClick].
    split_and!; try done.
    + rewrite <- app_assoc. reflexivity.
    + intros Hc. destruct H5 as [H5 H6]; [reflexivity|]. split; [exact H5|].
      rewrite H6. cbn [clickCount Url.pushClick]. unfold countsClicks in Hc. rewrite Hc.
      rewrite length_app. cbn [length]. lia.
Qed.

(** One redirect answered 302: the record has the request's click pushed. *)
Lemma redirect_step (P : Platform) (req : Request) (w w' : World)
      (o : Outcome Response) (d : UrlDoc) :
  urls w !! params_shortcode req = Some d ->
  shortcode d = params_shortcode req ->
  urlRoutes.getShortcode P req w = (o, w') ->
  status_of o = Some 302 ->
  exists t,
    now w <= t /\ t = now w' /\
    urls w' !! params_shortcode req = Some (Url.pushClick d (clickData P req t)).
Proof.
  intros Hd Hkey Hrun H302.
  destruct (Url.findOne (params_shortcode req) w) as [[found|e|] w1] eqn:Hfind.
  - destruct (findOne_returned _ _ _ _ Hfind) as (Hfound & Hkeep & _ & Hnow & Helapsed).
    rewrite (Hkeep _ _ Hd) in Hfound. subst found.
    destruct (Url.date_gt (Some (nextRead w1)) (expiryAt d)) eqn:Hexp.
    + rewrite (getShortcode_expired P req w w1 d Hfind Hexp) in Hrun.
      injection Hrun as <- <-. discriminate.
    + rewrite (getShortcode_found P req w w1 d Hfind Hexp) in Hrun.
      destruct (Url.addClick d (clickData P req (nextRead (tick w1))) (tick (tick w1)))
        as [[d'|e|] w4] eqn:Hadd.
      * injection Hrun as <- <-.
        destruct (addClick_returned _ _ _ _ _ Hadd) as (_ & Hstored & Hnow4 & _).
        exists (nextRead (tick w1)). cbn [snd Log emit now urls].
        rewrite Hnow4. split; [|split].
        -- unfold nextRead, tick. cbn. unfold nextRead. rewrite Hnow. lia.
        -- reflexivity.
        -- rewrite <- Hkey. exact Hstored.
      * injection Hrun as <- <-. discriminate.
      * injection Hrun as <- <-. discriminate.
  - unfold urlRoutes.getShortcode in Hrun.
    rewrite (try_catch_bind_thrown _ _ _ _ _ _ Hfind) in Hrun.
    injection Hrun as <- <-. discriminate.
  - unfold urlRoutes.getShortcode, try_catch, bind in Hrun. rewrite Hfind in Hrun.
    injection Hrun as <- <-. discriminate.
Qed.

(** X9.  [n] redirect requests in a row for the same record, all
    answered 302, leave the record with exactly [n] more clicks, the
    requests' own, appended after the clicks it had in the order of the
    requests; when the counter matched the clicks before, it is [n]
    higher afterwards. *)
Theorem n_redirects_add_n_clicks :
  forall (P : Platform) (req : Request) (n : nat) (w w' : World)
         (outs : list (Outcome Response)) (d : UrlDoc),
    urls w !! params_shortcode req = Some d ->
    shortcode d = params_shortcode req ->
    redirects P req n w = (outs, w') ->
    Forall (fun o => status_of o = Some 302) outs ->
    exists ts_list : list Z,
      length ts_list = n /\
      urls w' !! params_shortcode req
        = Some (pushClicks d (map (clickData P req) ts_list)) /\
      clicks (pushClicks d (map (clickData P req) ts_list))
        = clicks d ++ map (clickData P req) ts_list /\
      (countsClicks d ->
         clickCount (pushClicks d (map (clickData P req) ts_list))
           = clickCount d + Z.of_nat n).
Proof.
  intros P req n.
  assert (Hmain : forall (w w' : World) outs d,
    urls w !! params_shortcode req = Some d ->
    shortcode d = params_shortcode req ->
    redirects P req n w = (outs, w') ->
    Forall (fun o => status_of o = Some 302) outs ->
    exists ts_list : list Z,
      length ts_list = n /\
      urls w' !! params_shortcode req
        = Some (pushClicks d (map (clickData P req) ts_list))).
  { induction n as [|n IH]; intros w w' outs d Hd Hkey Hrun Hall.
    - cbn in Hrun. injection Hrun as <- <-. exists [].
      split; [reflexivity | exact Hd].
    - cbn [redirects] in Hrun.
      destruct (urlRoutes.getShortcode P req w) as [o w1] eqn:Hone.
      destruct (redirects P req n w1) as [os w2] eqn:Hrest.
      injection Hrun as <- <-. inversion Hall as [|? ? Ho Hos]; subst.
      destruct (redirect_step P req w w1 o d Hd Hkey Hone Ho) as (t & _ & _ & Hstored).
      destruct (IH w1 w2 os (Url.pushClick d (clickData P req t)) Hstored Hkey Hrest Hos)
        as (tl_ & Hlen & Hfinal).
      exists (t :: tl_). split; [cbn; lia | exact Hfinal]. }
  intros w w' outs d Hd Hkey Hrun Hall.
  destruct (Hmain w w' outs d Hd Hkey Hrun Hall) as (ts_list & Hlen & Hfinal).
  exists ts_list. destruct (pushClicks_fields d (map (clickData P req) ts_list))
    as (_ & _ & _ & Hclicks & Hcount).
  split; [exact Hlen|]. split; [exact Hfinal|]. split; [exact Hclicks|].
  intros Hc. destruct (Hcount Hc) as [_ Hn]. rewrite Hn, length_map, Hlen. reflexivity.
Qed.

Lemma n_redirects_add_n_clicks_witness :
  exists d',
    urls (snd (redirects samplePlatform (sampleRequest "abcd") 3 sampleWorld)) !! "abcd"
      = Some d' /\
    length (clicks d') = 3%nat.
Proof.
  destruct (n_redirects_add_n_clicks samplePlatform (sampleRequest "abcd") 3 sampleWorld
              (snd (redirects samplePlatform (sampleRequest "abcd") 3 sampleWorld))
              (fst (redirects samplePlatform (sampleRequest "abcd") 3 sampleWorld))
              (sampleDoc "abcd" 5000 []))
    as (ts_list & Hlen & Hfinal & Hclicks & _).
  - vm_compute. reflexivity.
  - reflexivity.
  - vm_compute. reflexivity.
  - vm_compute. repeat constructor.
  - eexists. split; [exact Hfinal|]. rewrite Hclicks. cbn.
    rewrite length_map. exact Hlen.
Defined.

(** ** What a successful creation leaves behind *)

Lemma sameClock_refl (w : World) : sameClock w w.
Proof. split; reflexivity. Qed.

Lemma sameClock_trans (a b c : World) : sameClock a b -> sameClock b c -> sameClock a c.
Proof. intros [H1 H2] [H3 H4]. split; congruence. Qed.

Lemma sameClock_processShortcode (cfg : Config) (fuel : nat) (v : jsval) :
  stable sameClock (ShortcodeService.processShortcode cfg fuel v).
Proof.
  apply stable_processShortcode.
  - apply sameClock_refl.
  - apply sameClock_trans.
  - intros w. split; reflexivity.
  - intros w. unfold storeOp.
    destruct (hd Calm (weather w)) as [| |rsc rurl rc re]; cbn; try (split; reflexivity).
    destruct (urls w !! rsc); split; reflexivity.
  - intros e _ w. split; reflexivity.
Qed.

(** [processShortcode] never throws: with enough fuel it returns a code
    or a failure whose status is 400, 409 or 500. *)
Lemma processShortcode_returns (cfg : Config) (fuel : nat) (v : jsval) (w : World) :
  maxRetries cfg = 5%nat -> (15 < fuel)%nat ->
  exists r w1,
    ShortcodeService.processShortcode cfg fuel v w = (Returned r, w1) /\
    match r with
    | ShortcodeService.Success _ => True
    | ShortcodeService.Failure _ st => st = 400 \/ st = 409 \/ st = 500
    end.
Proof.
  intros Hmax Hfuel. unfold ShortcodeService.processShortcode, try_catch.
  destruct (truthy _).
  - destruct (ShortcodeService.validateCustomShortcode cfg _) as [t|msg].
    + unfold bind.
      destruct (ShortcodeService.isShortcodeAvailable t w) as [[[|]|e|] w1] eqn:Hchk.
      * eexists _, _. split; [reflexivity | exact I].
      * eexists _, _. split; [reflexivity | right; left; reflexivity].
      * eexists _, _. split; [reflexivity | right; right; reflexivity].
      * exfalso. destruct (isShortcodeAvailable_run t w)
          as (out & ev & w' & Hrun & _ & [(b & -> & _) | (-> & _)]);
          rewrite Hchk in Hrun; discriminate.
    + eexists _, _. split; [reflexivity | left; reflexivity].
  - destruct (generator_returns_drawn_code cfg fuel (defaultLength cfg) w Hmax Hfuel)
      as (out & w1 & evs & Hrun & _ & Hout & _).
    unfold bind. rewrite Hrun. destruct out as [code|e|]; [| |contradiction].
    + eexists _, _. split; [reflexivity | exact I].
    + eexists _, _. split; [reflexivity | right; right; reflexivity].
Qed.

Lemma processShortcode_failure_status (cfg : Config) (fuel : nat) (v : jsval)
      (w w1 : World) (err : string) (st : Z) :
  ShortcodeService.processShortcode cfg fuel v w
    = (Returned (ShortcodeService.Failure err st), w1) ->
  st = 400 \/ st = 409 \/ st = 500.
Proof.
  unfold ShortcodeService.processShortcode, try_catch.
  destruct (truthy _).
  - destruct (ShortcodeService.validateCustomShortcode cfg _) as [t|msg].
    + unfold bind.
      destruct (ShortcodeService.isShortcodeAvailable t w) as [[[|]|e|] w2];
        intros [=]; subst; auto.
    + intros [=]; subst; auto.
  - unfold bind.
    destruct (ShortcodeService.generateUniqueShortcode cfg fuel (defaultLength cfg) w)
      as [[code|e|] w2]; intros [=]; subst; auto.
Qed.

Lemma saveNew_returned (d : UrlDoc) (w w' : World) :
  Url.saveNew d w = (Returned tt, w') ->
  Url.validate d = None /\
  Url.date_le (expiryAt d) (Some (nextRead w)) = false /\
  urls w' !! shortcode d = Some d.
Proof.
  unfold Url.saveNew, try_catch, bind, throw, emit, ret, Date_now,
    storeOp, readUrls, writeUrl.
  destruct (Url.validate d); [discriminate|].
  cbv beta iota zeta. fold (nextRead w).
  destruct (Url.date_le (expiryAt d) (Some (nextRead w))); [discriminate|].
  cbn.
  destruct (hd Calm (weather w)) as [| |rsc rurl rc re]; cbn.
  - destruct (urls w !! shortcode d); cbn; [discriminate|].
    intros [= <-]. cbn. rewrite lookup_insert_eq. done.
  - discriminate.
  - destruct (urls w !! rsc); cbn.
    + destruct (urls w !! shortcode d); cbn; [discriminate|].
      intros [= <-]. cbn. rewrite lookup_insert_eq. done.
    + destruct (<[rsc:=raceDoc rsc rurl rc re]> (urls w) !! shortcode d); cbn;
        [discriminate|].
      intros [= <-]. cbn. rewrite lookup_insert_eq. done.
Qed.

(** The clock read of the [pre('save')] hook is the last one of a save. *)
Lemma saveNew_clock (d : UrlDoc) (w w' : World) :
  Url.saveNew d w = (Returned tt, w') -> now w' = nextRead w.
Proof.
  unfold Url.saveNew, try_catch, bind, throw, emit, ret, Date_now,
    storeOp, readUrls, writeUrl.
  destruct (Url.validate d); [discriminate|].
  cbv beta iota zeta. fold (nextRead w).
  destruct (Url.date_le (expiryAt d) (Some (nextRead w))); [discriminate|].
  cbn.
  destruct (hd Calm (weather w)) as [| |rsc rurl rc re]; cbn.
  - destruct (urls w !! shortcode d); cbn; [discriminate|].
    intros [= <-]. reflexivity.
  - discriminate.
  - destruct (urls w !! rsc); cbn.
    + destruct (urls w !! shortcode d); cbn; [discriminate|].
      intros [= <-]. reflexivity.
    + destruct (<[rsc:=raceDoc rsc rurl rc re]> (urls w) !! shortcode d); cbn;
        [discriminate|].
      intros [= <-]. reflexivity.
Qed.

(** The expiry date of a creation: the clock plus the validity in
    minutes. *)
Lemma expiry_date (t z : Z) :
  newDate (js_add (num t) (js_mul (js_mul (num z) (num 60)) (num 1000)))
    = if Z.abs (t + z * 60000) <=? 8640000000000000 then Some (t + z * 60000) else None.
Proof.
  unfold newDate, num, js_mul, js_add.
  rewrite Qtruncate_integer by reflexivity.
  assert (Hn : Qnum (inject_Z t + inject_Z z * inject_Z 60 * inject_Z 1000)
               = t + z * 60000) by (cbn; lia).
  rewrite Hn. reflexivity.
Qed.

Lemma validateValidity_integer (P : Platform) (v : jsval) (d : Z) (r : jsnum) :
  ValidationService.validateValidity P v (num d) = ValidationService.ValidityValid r ->
  exists z, r = num z.
Proof.
  intros Hv.
  assert (Hcases : absent v \/ ~ absent v).
  { destruct v; try (left; left; reflexivity); try (left; right; reflexivity);
      right; intros [H | H]; discriminate. }
  destruct Hcases as [Ha | Hp].
  - rewrite (validateValidity_absent P v (num d) Ha) in Hv.
    injection Hv as <-. exists d. reflexivity.
  - destruct (validateValidity_range P v (num d) r Hp Hv) as (z & -> & _).
    exists z. reflexivity.
Qed.

Lemma nextRead_tick (w : World) : nextRead w <= nextRead (tick w).
Proof.
  unfold tick, Date_now. cbn [snd]. unfold nextRead at 2. cbn [now elapsed].
  fold (nextRead w). lia.
Qed.

(** The run of a creation answered 201. *)
Lemma creation_run (P : Platform) (cfg : Config) (fuel : nat) (req : CreateBody)
      (w w' : World) (resp : Response) :
  urlRoutes.postShorturls P cfg fuel req w = (Returned resp, w') ->
  status resp = 201 ->
  exists (s : string) (z : Z) (code : string) (created : Z) (w1 : World),
    body_url req = JStr s /\
    ValidationService.validateUrl P (JStr s) = ValidationService.UrlValid (trim s) /\
    ValidationService.validateValidity P (body_validity req)
      (num (defaultValidityMinutes cfg)) = ValidationService.ValidityValid (num z) /\
    ShortcodeService.processShortcode cfg fuel (body_shortcode req) w
      = (Returned (ShortcodeService.Success code), w1) /\
    resp = {| status := 201;
              body := Created (config_hostname cfg ++ "/" ++ code)%string
                        (nextRead w + z * 60000) |} /\
    nextRead w <= created /\
    created < nextRead w + z * 60000 /\
    urls w' !! trim code = Some (newRecord code (trim s) created (nextRead w + z * 60000)) /\
    Url.validate (newRecord code (trim s) created (nextRead w + z * 60000)) = None /\
    now w' < nextRead w + z * 60000.
Proof.
  intros Hrun H201. unfold urlRoutes.postShorturls in Hrun.
  destruct (body_url req) as [| | | |s|] eqn:Hbody;
    try (cbn in Hrun; injection Hrun as <- <-; discriminate).
  destruct (ValidationService.validateUrl P (JStr s)) as [url|err] eqn:Hurl;
    [|cbn in Hrun; injection Hrun as <- <-; discriminate].
  assert (Hu : url = trim s).
  { pose proof Hurl as Hu. rewrite validateUrl_string in Hu.
    repeat match type of Hu with
           | (if ?c then _ else _) = _ => destruct c; [discriminate|]
           | match ?o with Some _ => _ | None => _ end = _ =>
               destruct o; [|discriminate]
           end.
    congruence. }
  subst url.
  destruct (ValidationService.validateValidity P (body_validity req)
              (num (defaultValidityMinutes cfg))) as [validity|err] eqn:Hval;
    [|cbn in Hrun; injection Hrun as <- <-; discriminate].
  destruct (validateValidity_integer P _ _ _ Hval) as [z ->].
  pose proof (sameClock_processShortcode cfg fuel (body_shortcode req) w) as Hclock.
  destruct (ShortcodeService.processShortcode cfg fuel (body_shortcode req) w)
    as [[[code|err st]|e|] w1] eqn:Hproc; cbn [snd] in Hclock.
  - rewrite (try_catch_bind_returned _ _ _ _ _ _ Hproc) in Hrun.
    rewrite (try_catch_bind_returned _ _ _ _ _ _ (Date_now_run w1)) in Hrun.
    rewrite (try_catch_bind_returned _ _ _ _ _ _ (Url_new_run _ _ _ (tick w1))) in Hrun.
    assert (Hread : nextRead w1 = nextRead w).
    { destruct Hclock as [Hn He]. unfold nextRead. rewrite Hn, He. reflexivity. }
    rewrite Hread, expiry_date in Hrun.
    destruct (Z.abs (nextRead w + z * 60000) <=? 8640000000000000).
    2:{ match type of Hrun with context [Url.saveNew ?d] =>
          destruct (Url.saveNew d (tick (tick w1))) as [[[]|e|] w4] eqn:Hsave end.
        - apply saveNew_returned in Hsave. destruct Hsave as (Hv & _).
          unfold Url.validate in Hv. cbn in Hv.
          repeat match type of Hv with
                 | (if ?b then _ else _) = None => destruct b; [discriminate|]
                 end.
          discriminate.
        - rewrite (try_catch_bind_thrown _ _ _ _ _ _ Hsave) in Hrun.
          destruct (bool_decide _); injection Hrun as <- <-; discriminate.
        - unfold try_catch, bind in Hrun. rewrite Hsave in Hrun. discriminate. }
    match type of Hrun with context [Url.saveNew ?d] =>
      destruct (Url.saveNew d (tick (tick w1))) as [[[]|e|] w4] eqn:Hsave end.
    + rewrite (try_catch_bind_returned _ _ _ _ _ _ Hsave) in Hrun.
      cbn in Hrun. injection Hrun as <- <-.
      pose proof (saveNew_clock _ _ _ Hsave) as Hlast.
      apply saveNew_returned in Hsave. destruct Hsave as (Hv & Hfuture & Hstored).
      cbn [expiryAt shortcode] in Hfuture, Hstored.
      unfold Url.date_le in Hfuture. apply Z.leb_gt in Hfuture.
      exists s, z, code, (nextRead (tick w1)), w1.
      split; [reflexivity|]. split; [exact Hurl|]. split; [reflexivity|].
      split; [reflexivity|]. split; [reflexivity|].
      assert (Hmono1 : nextRead w <= nextRead (tick w1)).
      { rewrite <- Hread. apply nextRead_tick. }
      assert (Hmono2 : nextRead (tick w1) <= nextRead (tick (tick w1))).
      { apply nextRead_tick. }
      split; [exact Hmono1|]. split; [lia|].
      unfold newRecord. split; [exact Hstored|]. split; [exact Hv|].
      rewrite Hlast. exact Hfuture.
    + rewrite (try_catch_bind_thrown _ _ _ _ _ _ Hsave) in Hrun.
      destruct (bool_decide _); injection Hrun as <- <-; discriminate.
    + unfold try_catch, bind in Hrun. rewrite Hsave in Hrun. discriminate.
  - rewrite (try_catch_bind_returned _ _ _ _ _ _ Hproc) in Hrun.
    destruct (processShortcode_failure_status _ _ _ _ _ _ _ Hproc) as [-> | [-> | ->]];
      cbn in Hrun; injection Hrun as <- <-; discriminate.
  - rewrite (try_catch_bind_thrown _ _ _ _ _ _ Hproc) in Hrun.
    destruct (bool_decide _); injection Hrun as <- <-; discriminate.
  - unfold try_catch, bind in Hrun. rewrite Hproc in Hrun. discriminate.
Qed.

(** X10.  A creation answered 201 has stored its record: under the code
    of the short link, with the trimmed URL that was submitted, no clicks
    and a zero counter, expiring exactly [validity] minutes after the
    request's first clock read (the default when the request has none);
    the [expiry] of the response is that of the record, and it lies
    strictly after the last clock read of the request, the one of the
    [pre('save')] hook. *)
Theorem created_record_is_stored :
  forall (P : Platform) (cfg : Config) (fuel : nat) (req : CreateBody)
         (w w' : World) (resp : Response),
    urlRoutes.postShorturls P cfg fuel req w = (Returned resp, w') ->
    status resp = 201 ->
    exists (s : string) (z : Z) (code : string) (created : Z),
      body_url req = JStr s /\
      ValidationService.validateValidity P (body_validity req)
        (num (defaultValidityMinutes cfg)) = ValidationService.ValidityValid (num z) /\
      (absent (body_validity req) -> z = defaultValidityMinutes cfg) /\
      body resp = Created (config_hostname cfg ++ "/" ++ code)%string
                    (nextRead w + z * 60000) /\
      urls w' !! trim code
        = Some {| shortcode := trim code; originalUrl := trim s; createdAt := created;
                  expiryAt := Some (nextRead w + z * 60000);
                  clickCount := 0; clicks := [] |} /\
      now w' < nextRead w + z * 60000.
Proof.
  intros P cfg fuel req w w' resp Hrun H201.
  destruct (creation_run P cfg fuel req w w' resp Hrun H201)
    as (s & z & code & created & w1 & Hbody & _ & Hval & _ & -> & _ & _ & Hstored & _ & Hhook).
  exists s, z, code, created. split; [exact Hbody|]. split; [exact Hval|].
  split; [|split; [reflexivity|split; [|exact Hhook]]].
  - intros Ha. rewrite (validateValidity_absent P _ _ Ha) in Hval.
    injection Hval as Hz. symmetry. exact Hz.
  - unfold newRecord in Hstored. rewrite trim_idempotent in Hstored. exact Hstored.
Qed.

Lemma created_record_is_stored_witness :
  exists d,
    urls (snd (urlRoutes.postShorturls samplePlatform defaultConfig 16
                 (sampleBody (JStr " wxyz ")) sampleWorld)) !! "wxyz" = Some d /\
    originalUrl d = "https://example.com/page" /\
    expiryAt d = Some (100 + 30 * 60000).
Proof.
  destruct (created_record_is_stored samplePlatform defaultConfig 16
              (sampleBody (JStr " wxyz ")) sampleWorld
              (snd (urlRoutes.postShorturls samplePlatform defaultConfig 16
                      (sampleBody (JStr " wxyz ")) sampleWorld))
              {| status := 201;
                 body := Created "http://localhost:3000/wxyz" (100 + 30 * 60000) |})
    as (s & z & code & created & Hbody & Hval & _ & Hresp & Hstored & _).
  - vm_compute. reflexivity.
  - reflexivity.
  - injection Hbody as <-. cbn [body] in Hresp. injection Hresp as Hcode Hz.
    assert (Hc : code = "wxyz").
    { clear -Hcode. vm_compute in Hcode. congruence. }
    subst code. eexists. split; [exact Hstored|]. split; [reflexivity|].
    cbn [expiryAt]. f_equal. unfold sampleWorld, worldWith, nextRead in *. cbn in *. lia.
Defined.

(** X11.  Round trip.  After a creation answered 201, a redirect request
    for the code of the short link, made before the expiry of the
    response while the store answers and with a client address, is
    answered with a 302 to the URL that was submitted, trimmed. *)
Theorem created_link_redirects_to_submitted_url :
  forall (P : Platform) (cfg : Config) (fuel : nat) (req : CreateBody)
         (w w' : World) (resp : Response),
    urlRoutes.postShorturls P cfg fuel req w = (Returned resp, w') ->
    status resp = 201 ->
    exists (s code : string) (expiry : Z),
      body_url req = JStr s /\
      body resp = Created (config_hostname cfg ++ "/" ++ code)%string expiry /\
      forall (visit : Request),
        params_shortcode visit = trim code ->
        nextRead w' <= expiry ->
        hd Calm (weather w') <> Down ->
        hd Calm (tl (weather w')) <> Down ->
        ValidationHelpers.extractClientIP visit <> "" ->
        exists w'',
          urlRoutes.getShortcode P visit w'
            = (Returned {| status := 302; body := Redirect (trim s) |}, w'').
Proof.
  intros P cfg fuel req w w' resp Hrun H201.
  destruct (creation_run P cfg fuel req w w' resp Hrun H201)
    as (s & z & code & created & w1 & Hbody & _ & _ & _ & -> & _ & _ & Hstored & Hvalid & _).
  exists s, code, (nextRead w + z * 60000).
  split; [exact Hbody|]. split; [reflexivity|].
  intros visit Hcode Hlive Hup1 Hup2 Hip.
  rewrite <- Hcode in Hstored.
  destruct (live_redirect_run P visit w' _ _ Hstored Hvalid eq_refl Hlive Hup1 Hup2 Hip)
    as (w'' & t & Hredirect & _).
  exists w''. rewrite Hredirect. unfold newRecord. cbn [originalUrl].
  rewrite trim_idempotent. reflexivity.
Qed.

Lemma created_link_redirects_to_submitted_url_witness :
  status_of (fst (urlRoutes.getShortcode samplePlatform (sampleRequest "wxyz")
                    (snd (urlRoutes.postShorturls samplePlatform defaultConfig 16
                            (sampleBody (JStr " wxyz ")) sampleWorld)))) = Some 302.
Proof.
  destruct (created_link_redirects_to_submitted_url samplePlatform defaultConfig 16
              (sampleBody (JStr " wxyz ")) sampleWorld
              (snd (urlRoutes.postShorturls samplePlatform defaultConfig 16
                      (sampleBody (JStr " wxyz ")) sampleWorld))
              {| status := 201;
                 body := Created "http://localhost:3000/wxyz" (100 + 30 * 60000) |})
    as (s & code & expiry & Hbody & Hresp & Hvisit).
  - vm_compute. reflexivity.
  - reflexivity.
  - cbn [body] in Hresp. injection Hresp as Hcode Hexpiry.
    assert (Hc : code = "wxyz").
    { clear -Hcode. vm_compute in Hcode. congruence. }
    subst code expiry.
    destruct (Hvisit (sampleRequest "wxyz")) as (w'' & Hrun).
    + reflexivity.
    + vm_compute. discriminate.
    + vm_compute. discriminate.
    + vm_compute. discriminate.
    + discriminate.
    + rewrite Hrun. reflexivity.
Defined.

Lemma processShortcode_custom_success (cfg : Config) (fuel : nat) (c code : string)
      (w w1 : World) :
  minCustomLength cfg = 4%nat -> maxCustomLength cfg = 20%nat -> c <> "" ->
  ShortcodeService.processShortcode cfg fuel (JStr c) w
    = (Returned (ShortcodeService.Success code), w1) ->
  code = trim c /\ WellFormedCode (trim c).
Proof.
  intros Hmin Hmax Hc Hrun.
  unfold ShortcodeService.processShortcode, try_catch in Hrun.
  rewrite (truthy_nonempty c Hc) in Hrun.
  destruct (ShortcodeService.validateCustomShortcode cfg (JStr c)) as [t|msg] eqn:Hv;
    [|discriminate].
  assert (Ht : t = trim c /\ WellFormedCode t).
  { unfold ShortcodeService.validateCustomShortcode in Hv.
    rewrite (truthy_nonempty c Hc), Hmin, Hmax in Hv. cbn [negb] in Hv.
    destruct (Nat.ltb_spec (String.length (trim c)) 4); [discriminate|].
    destruct (Nat.ltb_spec 20 (String.length (trim c))); [discriminate|].
    destruct (isAlphanumeric (trim c)) eqn:Hal; [|discriminate].
    injection Hv as <-. split; [reflexivity|]. split; [lia|].
    apply isAlphanumeric_spec; [lia | exact Hal]. }
  destruct Ht as [-> Hwf]. unfold bind in Hrun.
  destruct (ShortcodeService.isShortcodeAvailable (trim c) w) as [[[|]|e|] w2];
    try discriminate.
  injection Hrun as <- <-. done.
Qed.

(** X12.  Once a creation with a custom code was answered 201, a later
    creation asking for the same code (up to surrounding white space) is
    answered 409 "Custom shortcode is already taken", as long as the
    record is still in the collection and the store answers the
    availability check; nothing is inserted. *)
Theorem same_custom_code_twice_answers_409 :
  forall (P : Platform) (cfg : Config) (fuel : nat) (first second : CreateBody)
         (w w' w2 : World) (resp : Response) (c1 c2 url2 : string) (validity2 : jsnum),
    minCustomLength cfg = 4%nat ->
    maxCustomLength cfg = 20%nat ->
    body_shortcode first = JStr c1 ->
    c1 <> "" ->
    urlRoutes.postShorturls P cfg fuel first w = (Returned resp, w') ->
    status resp = 201 ->
    keeping w' w2 ->
    body_shortcode second = JStr c2 ->
    trim c2 = trim c1 ->
    ValidationService.validateUrl P (body_url second) = ValidationService.UrlValid url2 ->
    ValidationService.validateValidity P (body_validity second)
      (num (defaultValidityMinutes cfg)) = ValidationService.ValidityValid validity2 ->
    hd Calm (weather w2) <> Down ->
    exists w3,
      urlRoutes.postShorturls P cfg fuel second w2
        = (Returned {| status := 409;
                       body := Message "Custom shortcode is already taken" |}, w3) /\
      insertAttempts (drop (length (trace w2)) (trace w3)) = 0%nat.
Proof.
  intros P cfg fuel first second w w' w2 resp c1 c2 url2 validity2
         Hmin Hmax Hb1 Hc1 Hrun H201 Hkeep Hb2 Hsame Hurl2 Hval2 Hup.
  destruct (creation_run P cfg fuel first w w' resp Hrun H201)
    as (s & z & code & created & w1 & _ & _ & _ & Hproc & _ & _ & _ & Hstored & _).
  rewrite Hb1 in Hproc.
  destruct (processShortcode_custom_success cfg fuel c1 code w w1 Hmin Hmax Hc1 Hproc)
    as [-> Hwf].
  rewrite trim_idempotent in Hstored. apply Hkeep in Hstored.
  assert (Hc2 : c2 <> "").
  { intros ->. rewrite <- Hsame in Hwf. destruct Hwf as [[Hlen _] _].
    cbn in Hlen. lia. }
  rewrite <- Hsame in Hstored, Hwf.
  destruct (isShortcodeAvailable_taken (trim c2) w2 (ex_intro _ _ Hstored) Hup)
    as [w3 Hchk].
  exists w3.
  assert (Hproc2 : ShortcodeService.processShortcode cfg fuel (JStr c2) w2
                   = (Returned (ShortcodeService.Failure
                                  "Custom shortcode is already taken" 409), w3)).
  { unfold ShortcodeService.processShortcode, try_catch, bind.
    rewrite (truthy_nonempty c2 Hc2).
    rewrite (validateCustomShortcode_accepts cfg Hmin Hmax c2 Hc2 Hwf), Hchk.
    reflexivity. }
  split.
  - unfold urlRoutes.postShorturls, try_catch, bind.
    rewrite Hurl2, Hval2, Hb2, Hproc2. reflexivity.
  - pose proof (allocating_processShortcode cfg fuel (JStr c2) w2) as (evs & Htr & Hall).
    rewrite Hproc2 in Htr. cbn [snd] in Htr. rewrite Htr, drop_app_length.
    apply alloc_events_no_insert, Hall.
Qed.

Lemma same_custom_code_twice_answers_409_witness :
  status_of (fst (urlRoutes.postShorturls samplePlatform defaultConfig 16
                    (sampleBody (JStr "wxyz "))
                    (snd (urlRoutes.postShorturls samplePlatform defaultConfig 16
                            (sampleBody (JStr " wxyz")) emptyWorld)))) = Some 409.
Proof.
  destruct (same_custom_code_twice_answers_409 samplePlatform defaultConfig 16
              (sampleBody (JStr " wxyz")) (sampleBody (JStr "wxyz "))
              emptyWorld
              (snd (urlRoutes.postShorturls samplePlatform defaultConfig 16
                      (sampleBody (JStr " wxyz")) emptyWorld))
              (snd (urlRoutes.postShorturls samplePlatform defaultConfig 16
                      (sampleBody (JStr " wxyz")) emptyWorld))
              {| status := 201;
                 body := Created "http://localhost:3000/wxyz" (1000 + 30 * 60000) |}
              " wxyz" "wxyz " "https://example.com/page" (num 30))
    as (w3 & Hrun & _).
  - reflexivity.
  - reflexivity.
  - reflexivity.
  - discriminate.
  - vm_compute. reflexivity.
  - reflexivity.
  - apply keeping_refl.
  - reflexivity.
  - reflexivity.
  - reflexivity.
  - reflexivity.
  - vm_compute. discriminate.
  - rewrite Hrun. reflexivity.
Defined.

(** ** The statuses a handler answers with *)

(** X13.  With five retries per length, no handler lets an exception
    through: a creation is answered 201, 400, 409 or 500, a redirect 302,
    404, 410 or 500, a statistics request 200, 400, 404 or 500. *)
Theorem handlers_always_answer :
  forall (P : Platform) (cfg : Config) (fuel : nat) (w : World),
    maxRetries cfg = 5%nat ->
    (15 < fuel)%nat ->
    (forall req, exists resp w',
       urlRoutes.postShorturls P cfg fuel req w = (Returned resp, w') /\
       (status resp = 201 \/ status resp = 400 \/ status resp = 409 \/ status resp = 500)) /\
    (forall req, exists resp w',
       urlRoutes.getShortcode P req w = (Returned resp, w') /\
       (status resp = 302 \/ status resp = 404 \/ status resp = 410 \/ status resp = 500)) /\
    (forall sc page limit, exists resp w',
       urlRoutes.getStats P sc page limit w = (Returned resp, w') /\
       (status resp = 200 \/ status resp = 400 \/ status resp = 404 \/ status resp = 500)).
Proof.
  intros P cfg fuel w Hmax Hfuel. split; [|split].
  - intros req. unfold urlRoutes.postShorturls.
    destruct (ValidationService.validateUrl P (body_url req)) as [url|err];
      [|eexists _, _; split; [reflexivity | cbn; auto]].
    destruct (ValidationService.validateValidity P (body_validity req) _) as [validity|err];
      [|eexists _, _; split; [reflexivity | cbn; auto]].
    destruct (processShortcode_returns cfg fuel (body_shortcode req) w Hmax Hfuel)
      as (r & w1 & Hproc & Hshape).
    rewrite (try_catch_bind_returned _ _ _ _ _ _ Hproc).
    destruct r as [code|err st].
    + rewrite (try_catch_bind_returned _ _ _ _ _ _ (Date_now_run w1)).
      rewrite (try_catch_bind_returned _ _ _ _ _ _ (Url_new_run _ _ _ (tick w1))).
      match goal with |- context [Url.saveNew ?d] =>
        destruct (saveNew_run d (tick (tick w1)))
          as [(w4 & Hsave & _) | (e & w4 & Hsave & _)]
      end.
      * rewrite (try_catch_bind_returned _ _ _ _ _ _ Hsave).
        destruct (newDate _); eexists _, _; (split; [reflexivity | cbn; auto]).
      * rewrite (try_catch_bind_thrown _ _ _ _ _ _ Hsave).
        destruct (bool_decide _); eexists _, _; (split; [reflexivity | cbn; auto]).
    + destruct Hshape as [-> | [-> | ->]];
        eexists _, _; (split; [reflexivity | cbn; auto]).
  - intros req.
    destruct (getShortcode_run P req w) as (resp & w' & evs & Hrun & _ & _ & Hcase).
    exists resp, w'. split; [exact Hrun|].
    destruct Hcase; cbn; auto.
  - intros sc page limit. unfold urlRoutes.getStats.
    destruct (ValidationService.validatePagination P page limit) as [p l|err];
      [|eexists _, _; split; [reflexivity | cbn; auto]].
    destruct (findOne_run sc w)
      as [(e & w1 & Hfind & _) | (found & w1 & Hfind & _)].
    + rewrite (try_catch_bind_thrown _ _ _ _ _ _ Hfind).
      eexists _, _; split; [reflexivity | cbn; auto].
    + rewrite (try_catch_bind_returned _ _ _ _ _ _ Hfind).
      destruct found; eexists _, _; (split; [reflexivity | cbn; auto]).
Qed.

Lemma handlers_always_answer_witness :
  maxRetries defaultConfig = 5%nat /\ (15 < 16)%nat /\
  exists resp,
    fst (urlRoutes.postShorturls samplePlatform defaultConfig 16
           (sampleBody JUndefined) crowdedWorld) = Returned resp /\
    (status resp = 201 \/ status resp = 400 \/ status resp = 409 \/ status resp = 500).
Proof.
  split; [reflexivity|]. split; [lia|].
  destruct (handlers_always_answer samplePlatform defaultConfig 16 crowdedWorld eq_refl)
    as (Hpost & _); [lia|].
  destruct (Hpost (sampleBody JUndefined)) as (resp & w' & Hrun & Hst).
  exists resp. rewrite Hrun. split; [reflexivity | exact Hst].
Defined.

(** ** The other lookups and views of the model *)

Lemma findValidByShortcode_run (sc : string) (d : UrlDoc) (w : World) :
  urls w !! sc = Some d ->
  hd Calm (weather w) <> Down ->
  fst (UrlStatics.findValidByShortcode sc w)
    = Returned (if Url.date_gt (expiryAt d) (Some (nextRead w)) then Some d else None).
Proof.
  intros Hd Hup.
  unfold UrlStatics.findValidByShortcode, bind, Date_now, storeOp, readUrls, emit, ret.
  cbv beta iota zeta. cbn [weather urls]. fold (nextRead w).
  destruct (hd Calm (weather w)) as [| |rsc rurl rc re]; [|contradiction|]; cbn.
  - rewrite Hd. reflexivity.
  - destruct (urls w !! rsc) eqn:Hr; cbn.
    + rewrite Hd. reflexivity.
    + rewrite lookup_insert_ne by congruence. rewrite Hd. reflexivity.
Qed.

(** X14.  [findValidByShortcode] returns a record of the collection
    exactly when the clock is strictly before its [expiryAt], while
    [isExpired] holds exactly when the clock is strictly after it: the
    two agree except at the instant of expiry, where the record is
    neither returned as valid nor reported expired. *)
Theorem findValidByShortcode_and_isExpired_at_expiry :
  forall (sc : string) (d : UrlDoc) (e : Z) (w : World),
    urls w !! sc = Some d ->
    expiryAt d = Some e ->
    hd Calm (weather w) <> Down ->
    (fst (UrlStatics.findValidByShortcode sc w) = Returned (Some d) <-> nextRead w < e) /\
    (fst (UrlStatics.findValidByShortcode sc w) = Returned None <-> e <= nextRead w) /\
    (fst (Url.isExpired d w) = Returned true <-> e < nextRead w) /\
    (nextRead w = e ->
       fst (UrlStatics.findValidByShortcode sc w) = Returned None /\
       fst (Url.isExpired d w) = Returned false).
Proof.
  intros sc d e w Hd He Hup.
  rewrite (findValidByShortcode_run sc d w Hd Hup), isExpired_run, He.
  unfold Url.date_gt.
  destruct (Z.ltb_spec (nextRead w) e); destruct (Z.ltb_spec e (nextRead w)); try lia.
  - split; [split; [intros _; lia | reflexivity]|].
    split; [split; [discriminate | lia]|].
    split; [split; [discriminate | lia]|]. lia.
  - split; [split; [discriminate | lia]|].
    split; [split; [intros _; lia | reflexivity]|].
    split; [split; [intros _; lia | reflexivity]|]. lia.
  - split; [split; [discriminate | lia]|].
    split; [split; [intros _; lia | reflexivity]|].
    split; [split; [discriminate | lia]|]. done.
Qed.

Lemma findValidByShortcode_and_isExpired_at_expiry_witness :
  fst (UrlStatics.findValidByShortcode "abcd" (worldWith (sampleDoc "abcd" 5000 []) 5000))
    = Returned None /\
  fst (Url.isExpired (sampleDoc "abcd" 5000 []) (worldWith (sampleDoc "abcd" 5000 []) 5000))
    = Returned false.
Proof.
  destruct (findValidByShortcode_and_isExpired_at_expiry "abcd"
              (sampleDoc "abcd" 5000 []) 5000 (worldWith (sampleDoc "abcd" 5000 []) 5000))
    as (_ & _ & _ & Hat).
  - vm_compute. reflexivity.
  - reflexivity.
  - discriminate.
  - apply Hat. reflexivity.
Defined.

Lemma pageOf_offset {A : Type} (cs : list A) (k : nat) (l : Z) :
  1 <= l ->
  pageOf (Z.of_nat (S k)) l cs = take (Z.to_nat l) (drop (k * Z.to_nat l) cs).
Proof.
  intros Hl. unfold pageOf. do 2 f_equal.
  replace (Z.of_nat (S k) - 1) with (Z.of_nat k) by lia.
  rewrite Z2Nat.inj_mul by lia. rewrite Nat2Z.id. reflexivity.
Qed.

(** X15.  The pages of the [paginatedClicks] view tile the clicks: for a
    limit of at least 1, pages 1 to [k] put end to end are the first
    [k * limit] clicks, so no click is skipped or shown twice; a page
    that starts at or after the end is empty; and without arguments the
    view shows the first 50 clicks.  The statistics handler cuts its page
    with the same expressions. *)
Theorem paginatedClicks_pages_tile_the_clicks :
  forall (d : UrlDoc) (limit : Z) (k : nat),
    1 <= limit ->
    concat (map (fun p => UrlStatics.paginatedClicks d (Some (num (Z.of_nat p)))
                            (Some (num limit)))
              (seq 1 k))
      = take (k * Z.to_nat limit) (clicks d) /\
    (Z.of_nat (length (clicks d)) <= Z.of_nat k * limit ->
       UrlStatics.paginatedClicks d (Some (num (Z.of_nat (S k)))) (Some (num limit)) = []) /\
    UrlStatics.paginatedClicks d None None = take 50 (clicks d).
Proof.
  intros d limit k Hl.
  assert (Hpage : forall p : nat,
            UrlStatics.paginatedClicks d (Some (num (Z.of_nat (S p)))) (Some (num limit))
              = take (Z.to_nat limit) (drop (p * Z.to_nat limit) (clicks d))).
  { intros p. unfold UrlStatics.paginatedClicks. cbv [from_option id].
    rewrite page_window by lia. apply pageOf_offset, Hl. }
  split; [|split].
  - induction k as [|k IH]; [reflexivity|].
    rewrite seq_S, map_app, concat_app, IH. cbn [map concat].
    rewrite app_nil_r. change (1 + k)%nat with (S k). rewrite Hpage.
    rewrite take_take_drop. f_equal. lia.
  - intros Hend. rewrite Hpage. rewrite drop_ge; [apply take_nil|].
    apply Nat2Z.inj_le. rewrite Nat2Z.inj_mul, Z2Nat.id by lia. exact Hend.
  - unfold UrlStatics.paginatedClicks. cbv [from_option id].
    rewrite page_window by lia. unfold pageOf. reflexivity.
Qed.

Lemma paginatedClicks_pages_tile_the_clicks_witness :
  concat (map (fun p => UrlStatics.paginatedClicks clickedDoc (Some (num (Z.of_nat p)))
                          (Some (num 10)))
            (seq 1 3))
    = clicks clickedDoc.
Proof.
  destruct (paginatedClicks_pages_tile_the_clicks clickedDoc 10 3) as (Htile & _); [lia|].
  rewrite Htile. reflexivity.
Defined.

(** X16.  The private-host test knows one loopback address only: a host
    that starts with [127.] and is not [127.0.0.1] passes it, and
    [validateUrl] accepts the URL when the scheme, the syntax check and
    the parser raise no other objection. *)
Theorem other_loopback_hosts_pass_the_guard :
  forall (P : Platform) (s rest : string) (u : URL),
    ValidationService.hasHttpScheme (trim s) = true ->
    isURL P (trim s) = true ->
    newURL P (trim s) = Some u ->
    toLowerCase (hostname u) = ("127." ++ rest)%string ->
    rest <> "0.0.1" ->
    protocol u = "http:" \/ protocol u = "https:" ->
    ValidationService.isPrivateHost (toLowerCase (hostname u)) = false /\
    ValidationService.validateUrl P (JStr s) = ValidationService.UrlValid (trim s).
Proof.
  intros P s rest u Hscheme Hsyntax Hparse Hhost Hrest Hproto.
  assert (Hpriv : ValidationService.isPrivateHost (toLowerCase (hostname u)) = false).
  { rewrite Hhost. unfold ValidationService.isPrivateHost.
    change (String.eqb ("127." ++ rest) "127.0.0.1")
      with (String.eqb rest "0.0.1").
    apply String.eqb_neq in Hrest. rewrite Hrest. reflexivity. }
  split; [exact Hpriv|].
  assert (Hne : trim s <> "").
  { intros He. rewrite He in Hscheme. discriminate. }
  rewrite validateUrl_string.
  destruct (String.eqb_spec s "") as [-> | _]; [contradiction|].
  apply String.eqb_neq in Hne. rewrite Hne, Hscheme, Hsyntax, Hparse, Hpriv.
  cbn [negb]. destruct Hproto as [-> | ->]; reflexivity.
Qed.

Lemma other_loopback_hosts_pass_the_guard_witness :
  ValidationService.validateUrl samplePlatform (JStr "http://127.0.0.2/admin")
    = ValidationService.UrlValid "http://127.0.0.2/admin".
Proof.
  refine (proj2 (other_loopback_hosts_pass_the_guard samplePlatform
                   "http://127.0.0.2/admin" "0.0.2"
                   {| hostname := "127.0.0.2"; protocol := "http:" |} _ _ _ _ _ _)).
  - reflexivity.
  - reflexivity.
  - reflexivity.
  - reflexivity.
  - discriminate.
  - left; reflexivity.
Defined.



(** ** The logging client *)

Section LoggingFacts.

Import LoggingClient.

Lemma performAuth_run (c : Client) (n : Net) :
  exists result c1 n1,
    _performAuth c n = (result, c1, n1) /\
    sent n1 = sent n ++ [AuthPost] /\
    logReplies n1 = logReplies n /\
    clock n <= clock n1 /\
    isAuthenticating c1 = isAuthenticating c /\
    disabled c1 = disabled c /\
    match result with
    | Some t => t <> "" /\ token c1 = Some t /\
                tokenExpiry c1 = Some (clock n1 + 3000000)
    | None => c1 = c
    end.
Proof.
  unfold _performAuth.
  assert (Htook : 0 <= auth_took (hd (AuthRejected 0) (authReplies n))).
  { destruct (hd _ _); cbn; lia. }
  destruct (hd (AuthRejected 0) (authReplies n)) as [took [t|]|took] eqn:Hreply.
  - destruct (truthy (JStr t)) eqn:Ht.
    + eexists _, _, _. split; [reflexivity|]. cbn [sent logReplies clock token
        tokenExpiry isAuthenticating disabled].
      split_and!; try reflexivity; try lia.
      intros ->. discriminate.
    + eexists _, _, _. split; [reflexivity|]. cbn [sent logReplies clock].
      split_and!; try reflexivity; lia.
  - eexists _, _, _. split; [reflexivity|]. cbn [sent logReplies clock].
    split_and!; try reflexivity; lia.
  - eexists _, _, _. split; [reflexivity|]. cbn [sent logReplies clock].
    split_and!; try reflexivity; lia.
Qed.

Lemma authenticate_run (c : Client) (n : Net) :
  disabled c = false ->
  isAuthenticating c = false ->
  exists result c1 n1,
    authenticate c n = (result, c1, n1) /\
    sent n1 = sent n ++ [AuthPost] /\
    logReplies n1 = logReplies n /\
    clock n <= clock n1 /\
    isAuthenticating c1 = false /\
    disabled c1 = false /\
    match result with
    | Some t => t <> "" /\ token c1 = Some t /\
                tokenExpiry c1 = Some (clock n1 + 3000000)
    | None => token c1 = token c /\ tokenExpiry c1 = tokenExpiry c
    end.
Proof.
  intros Hen Hidle. unfold authenticate. rewrite Hen, Hidle.
  set (c0 := mkClient _ _ true _ _).
  destruct (performAuth_run c0 n)
    as (result & c1 & n1 & Hrun & Hsent & Hlog & Hclock & _ & Hdis & Hres).
  rewrite Hrun. eexists _, _, _. split; [reflexivity|].
  cbn [isAuthenticating disabled token tokenExpiry].
  split_and!; try assumption; try reflexivity.
  destruct result as [t|]; [exact Hres | subst c1; split; reflexivity].
Qed.

Lemma isTokenValid_true (c : Client) (n : Net) :
  isTokenValid c n = true <->
  exists t e, token c = Some t /\ t <> "" /\ tokenExpiry c = Some e /\ clock n < e.
Proof.
  unfold isTokenValid. split.
  - destruct (token c) as [t|]; [|discriminate].
    destruct (tokenExpiry c) as [e|]; [|discriminate].
    intros [Ht Hc]%andb_prop. exists t, e. split_and!; try reflexivity.
    + intros ->. discriminate.
    + apply Z.ltb_lt, Hc.
  - intros (t & e & -> & Ht & -> & Hc).
    rewrite (truthy_nonempty t Ht). apply Z.ltb_lt in Hc. rewrite Hc. reflexivity.
Qed.

Lemma Log_run (stack level packageName message : string) (retries : nat)
    (c : Client) (n : Net) :
  isAuthenticating c = false ->
  exists timer c' n' evs,
    Log stack level packageName message retries c n = (timer, c', n') /\
    sent n' = sent n ++ evs /\
    clock n <= clock n' /\
    isAuthenticating c' = false /\
    disabled c' = disabled c /\
    Sends c' stack level packageName message evs /\
    (timer = NoTimer \/
     exists r, retries = S r /\ timer = SetTimeout (backoff retries) r) /\
    (Forall (fun r => accepted r = false) (logReplies n) ->
     Forall (fun r => accepted r = false) (logReplies n') /\
     (disabled c = false -> timer = NoTimer -> retries = O)).
Proof.
  intros Hidle. unfold Log.
  destruct (disabled c) eqn:Hen.
  { exists NoTimer, c, n, []. rewrite app_nil_r.
    split_and!; try reflexivity; try assumption; try lia.
    - left; reflexivity.
    - left; reflexivity.
    - intros Hall. split; [exact Hall | discriminate]. }
  assert (Htoken : exists tok c1 n1 evs1,
            getValidToken c n = (tok, c1, n1) /\
            sent n1 = sent n ++ evs1 /\ (evs1 = [] \/ evs1 = [AuthPost]) /\
            logReplies n1 = logReplies n /\ clock n <= clock n1 /\
            isAuthenticating c1 = false /\ disabled c1 = false /\
            match tok with
            | Some t => t <> "" /\ token c1 = Some t
            | None => evs1 = [AuthPost]
            end).
  { unfold getValidToken. destruct (isTokenValid c n) eqn:Hvalid.
    - apply isTokenValid_true in Hvalid. destruct Hvalid as (t & e & Ht & Hne & _).
      exists (token c), c, n, []. rewrite app_nil_r, Ht.
      split_and!; try reflexivity; try assumption; try lia. left; reflexivity.
    - destruct (authenticate_run c n Hen Hidle)
        as (result & c1 & n1 & Hrun & Hsent & Hlog & Hclock & Hidle1 & Hen1 & Hres).
      exists result, c1, n1, [AuthPost].
      split_and!; try assumption; [right; reflexivity|].
      destruct result as [t|]; [tauto | reflexivity]. }
  destruct Htoken
    as (tok & c1 & n1 & evs1 & -> & Hsent & Hevs1 & Hlog & Hclock & Hidle1 & Hen1 & Htok).
  assert (Htimer : forall (n2 : Net),
            (let '(timer, _, _) :=
               match retries with
               | S r => (SetTimeout (backoff retries) r, c1, n2)
               | O => (NoTimer, c1, n2)
               end in
             (timer = NoTimer \/
              exists r, retries = S r /\ timer = SetTimeout (backoff retries) r) /\
             (timer = NoTimer -> retries = O))).
  { intros n2. destruct retries as [|r].
    - split; [left; reflexivity | reflexivity].
    - split; [right; exists r; split; reflexivity | discriminate]. }
  destruct tok as [t|].
  - destruct Htok as [Hne Ht].
    assert (Htook : 0 <= log_took (hd (LogRejected 0) (logReplies n1))).
    { destruct (hd _ _); cbn; lia. }
    set (n2 := {| clock := clock n1 + log_took (hd (LogRejected 0) (logReplies n1));
                  authReplies := authReplies n1; logReplies := tl (logReplies n1);
                  sent := sent n1 ++
                    [LogPost t stack level packageName message (clock n1)] |}).
    assert (Hshape : Sends c1 stack level packageName message
              (evs1 ++ [LogPost t stack level packageName message (clock n1)])).
    { right; right. exists t, (clock n1). split; [exact Hne|]. split; [exact Ht|].
      destruct Hevs1 as [-> | ->]; [left | right]; reflexivity. }
    assert (Hsent2 : sent n2 = sent n ++
              evs1 ++ [LogPost t stack level packageName message (clock n1)]).
    { cbn [n2 sent]. rewrite Hsent, <- app_assoc. reflexivity. }
    assert (Hrest : Forall (fun r => accepted r = false) (logReplies n) ->
                    Forall (fun r => accepted r = false) (logReplies n2) /\
                    accepted (hd (LogRejected 0) (logReplies n1)) = false).
    { intros Hall. rewrite <- Hlog in Hall. cbn [n2 logReplies].
      destruct (logReplies n1) as [|r rs]; [split; [constructor | reflexivity]|].
      inversion Hall; subst. split; assumption. }
    destruct (accepted (hd (LogRejected 0) (logReplies n1))) eqn:Hacc.
    + exists NoTimer, c1, n2, (evs1 ++ [LogPost t stack level packageName message (clock n1)]).
      split_and!; try reflexivity; try assumption.
      * cbn [n2 clock]. lia.
      * left; reflexivity.
      * intros Hall. destruct (Hrest Hall) as [_ ?]. discriminate.
    + specialize (Htimer n2).
      destruct (match retries with
                | S r => (SetTimeout (backoff retries) r, c1, n2)
                | O => (NoTimer, c1, n2)
                end) as [[timer c'] n'] eqn:Hm.
      assert (c' = c1 /\ n' = n2) as [-> ->].
      { destruct retries; injection Hm as <- <- <-; split; reflexivity. }
      exists timer, c1, n2, (evs1 ++ [LogPost t stack level packageName message (clock n1)]).
      split_and!; try reflexivity; try assumption.
      * cbn [n2 clock]. lia.
      * apply Htimer.
      * intros Hall. split; [apply Hrest, Hall | intros _; apply Htimer].
  - specialize (Htimer n1).
    destruct (match retries with
              | S r => (SetTimeout (backoff retries) r, c1, n1)
              | O => (NoTimer, c1, n1)
              end) as [[timer c'] n'] eqn:Hm.
    assert (c' = c1 /\ n' = n1) as [-> ->].
    { destruct retries; injection Hm as <- <- <-; split; reflexivity. }
    exists timer, c1, n1, evs1.
    split_and!; try reflexivity; try assumption.
    + right; left. exact Htok.
    + apply Htimer.
    + intros Hall. split; [rewrite Hlog; exact Hall | intros _; apply Htimer].
Qed.

End LoggingFacts.

Section LoggingProperties.

Import LoggingClient.

Lemma Log_timer (stack level packageName message : string) (retries : nat)
    (c : Client) (n : Net) :
  (Log stack level packageName message retries c n).1.1 = NoTimer \/
  exists r, retries = S r /\
    (Log stack level packageName message retries c n).1.1 = SetTimeout (backoff retries) r.
Proof.
  unfold Log. destruct (disabled c); [left; reflexivity|].
  destruct (getValidToken c n) as [[[t|] c1] n1].
  - destruct (accepted _); [left; reflexivity|].
    destruct retries as [|r]; [left; reflexivity | right; exists r; split; reflexivity].
  - destruct retries as [|r]; [left; reflexivity | right; exists r; split; reflexivity].
Qed.

Lemma schedule_S (r : nat) : schedule (S r) = backoff (S r) :: schedule r.
Proof.
  unfold schedule. rewrite seq_S, rev_unit. reflexivity.
Qed.

(** X18.  One call of [Log] on a client that is not in the middle of an
    authentication sends at most one request for a token and at most one
    log entry, the entry never without a token and always under the token
    the client then holds.  A disabled client sends nothing.  While the
    cached token is valid no token is requested, whether the entry is
    then accepted or rejected.  A timer is set only when retries are
    left, with delay [2^(3 - retries)] seconds. *)
Theorem Log_sends_one_entry_under_a_token :
  forall (stack level packageName message : string) (retries : nat)
         (c : Client) (n : Net),
    isAuthenticating c = false ->
    exists (timer : Timer) (c' : Client) (n' : Net) (evs : list Sent),
      Log stack level packageName message retries c n = (timer, c', n') /\
      sent n' = sent n ++ evs /\
      Sends c' stack level packageName message evs /\
      isAuthenticating c' = false /\
      (disabled c = true -> evs = [] /\ timer = NoTimer /\ c' = c) /\
      (disabled c = false -> isTokenValid c n = true ->
         c' = c /\
         exists bearer,
           token c = Some bearer /\
           evs = [LogPost bearer stack level packageName message (clock n)]) /\
      (timer = NoTimer \/
       exists r, retries = S r /\ timer = SetTimeout (backoff retries) r).
Proof.
  intros stack level packageName message retries c n Hidle.
  destruct (Log_run stack level packageName message retries c n Hidle)
    as (timer & c' & n' & evs & Hrun & Hsent & _ & Hidle' & _ & Hshape & Htimer & _).
  exists timer, c', n', evs. split_and!; try assumption.
  - intros Hdis. unfold Log in Hrun. rewrite Hdis in Hrun.
    injection Hrun as <- <- <-.
    apply (f_equal (@length Sent)) in Hsent. rewrite length_app in Hsent.
    destruct evs; [done | cbn in Hsent; lia].
  - intros Hen Hvalid. unfold Log, getValidToken in Hrun.
    rewrite Hen, Hvalid in Hrun.
    apply isTokenValid_true in Hvalid. destruct Hvalid as (t & e & Ht & _).
    rewrite Ht in Hrun.
    assert (Hc : c' = c).
    { destruct (accepted _); [congruence|]. destruct retries; congruence. }
    assert (Hn : sent n' = sent n ++ [LogPost t stack level packageName message (clock n)]).
    { destruct (accepted _); [injection Hrun as <- <- <-; reflexivity|].
      destruct retries; injection Hrun as <- <- <-; reflexivity. }
    split; [exact Hc|]. exists t. split; [exact Ht|].
    rewrite Hsent in Hn. apply app_inv_head in Hn. exact Hn.
Qed.

Lemma Log_sends_one_entry_under_a_token_witness :
  exists (c' : Client) (n' : Net),
    Log "backend" "info" "route" "Redirect" 3 (new sampleLoggingConfig) sampleNet
      = (SetTimeout 1000 2, c', n') /\
    sent n' = [AuthPost; LogPost "tok-1" "backend" "info" "route" "Redirect" 1120].
Proof.
  destruct (Log_sends_one_entry_under_a_token "backend" "info" "route" "Redirect" 3
              (new sampleLoggingConfig) sampleNet eq_refl)
    as (timer & c' & n' & evs & Hrun & _).
  exists c', n'. vm_compute in Hrun. injection Hrun as <- <- <-.
  split; reflexivity.
Defined.

(** X19.  A token obtained by [authenticate] is cached for 50 minutes
    from the moment the response arrived: until then [getValidToken]
    returns it without any request and without touching the client; from
    then on it authenticates again. *)
Theorem token_is_reused_for_fifty_minutes :
  forall (c c1 : Client) (n n1 : Net) (t : string),
    isAuthenticating c = false ->
    authenticate c n = (Some t, c1, n1) ->
    t <> "" /\
    token c1 = Some t /\
    tokenExpiry c1 = Some (clock n1 + 50 * 60 * 1000) /\
    sent n1 = sent n ++ [AuthPost] /\
    forall n2 : Net,
      (clock n2 < clock n1 + 50 * 60 * 1000 ->
         getValidToken c1 n2 = (Some t, c1, n2)) /\
      (clock n1 + 50 * 60 * 1000 <= clock n2 ->
         getValidToken c1 n2 = authenticate c1 n2 /\
         sent (authenticate c1 n2).2 = sent n2 ++ [AuthPost]).
Proof.
  intros c c1 n n1 t Hidle Hrun.
  assert (Hen : disabled c = false).
  { unfold authenticate in Hrun. destruct (disabled c); [discriminate | reflexivity]. }
  destruct (authenticate_run c n Hen Hidle)
    as (result & c1' & n1' & Hrun' & Hsent & _ & _ & Hidle1 & Hen1 & Hres).
  rewrite Hrun in Hrun'. injection Hrun' as <- <- <-.
  destruct Hres as (Hne & Ht & He).
  split_and!; try assumption.
  intros n2. split.
  - intros Hc. unfold getValidToken.
    assert (Hvalid : isTokenValid c1 n2 = true).
    { apply isTokenValid_true. exists t, (clock n1 + 3000000). done. }
    rewrite Hvalid, Ht. reflexivity.
  - intros Hc. unfold getValidToken.
    assert (Hvalid : isTokenValid c1 n2 = false).
    { apply not_true_is_false. intros (t' & e' & _ & _ & He' & Hlt)%isTokenValid_true.
      rewrite He in He'. injection He' as <-. lia. }
    rewrite Hvalid. split; [reflexivity|].
    destruct (authenticate_run c1 n2 Hen1 Hidle1) as (r & c2 & n3 & -> & Hsent2 & _).
    exact Hsent2.
Qed.

Lemma token_is_reused_for_fifty_minutes_witness :
  exists (c1 : Client) (n1 : Net),
    authenticate (new sampleLoggingConfig) sampleNet = (Some "tok-1", c1, n1) /\
    getValidToken c1 (fire 2999999 (clock n1) n1) = (Some "tok-1", c1, fire 2999999 (clock n1) n1).
Proof.
  destruct (authenticate (new sampleLoggingConfig) sampleNet) as [[r c1] n1] eqn:Hrun.
  assert (Hr : r = Some "tok-1").
  { vm_compute in Hrun. congruence. }
  subst r. exists c1, n1. split; [reflexivity|].
  destruct (token_is_reused_for_fifty_minutes (new sampleLoggingConfig) c1 sampleNet n1
              "tok-1" eq_refl Hrun)
    as (_ & _ & _ & _ & Hlater).
  apply (Hlater (fire 2999999 (clock n1) n1)).
  vm_compute in Hrun. injection Hrun as <- <-. vm_compute. reflexivity.
Defined.

(** X20.  An entry logged with [retries] retries is tried at most
    [retries + 1] times whatever else happens to the client in between:
    the delays of its timers are an initial part of the schedule, which
    for the 3 retries of [info], [error] and [warn] is 1, 2 and 4
    seconds.  When the log service accepts nothing, an enabled client
    left alone sets every timer of the schedule and then gives the entry
    up. *)
Theorem entry_backs_off_and_gives_up :
  forall (stack level packageName message : string) (retries : nat)
         (c : Client) (n : Net),
    (forall between,
       (entry between stack level packageName message retries c n).1.1
         `prefix_of` schedule retries) /\
    schedule 3 = [1000; 2000; 4000]%Q /\
    (disabled c = false ->
     isAuthenticating c = false ->
     Forall (fun r => accepted r = false) (logReplies n) ->
     (entry (fun s => s) stack level packageName message retries c n).1.1
       = schedule retries).
Proof.
  intros stack level packageName message retries c n. split_and!.
  - intros between. revert c n. induction retries as [|r IH]; intros c n.
    + cbn [entry]. destruct (Log _ _ _ _ _ _ _) as [[[|delay r'] c1] n1];
        apply prefix_nil.
    + cbn [entry]. pose proof (Log_timer stack level packageName message (S r) c n) as Ht.
      destruct (Log stack level packageName message (S r) c n) as [[timer c1] n1].
      cbn [fst] in Ht. destruct Ht as [-> | (r' & _ & ->)]; [apply prefix_nil|].
      destruct (between (c1, n1)) as [c2 n2].
      specialize (IH c2 (fire (backoff (S r)) (clock n1) n2)).
      destruct (entry between _ _ _ _ r c2 _) as [[delays c3] n3].
      cbn [fst] in *. rewrite schedule_S. apply prefix_cons, IH.
  - reflexivity.
  - revert c n. induction retries as [|r IH]; intros c n Hen Hidle Hall.
    + cbn [entry]. destruct (Log _ _ _ _ _ _ _) as [[[|delay r'] c1] n1]; reflexivity.
    + cbn [entry].
      destruct (Log_run stack level packageName message (S r) c n Hidle)
        as (timer & c1 & n1 & evs & -> & _ & _ & Hidle1 & Hen1 & _ & Htimer & Hrej).
      destruct (Hrej Hall) as [Hall1 Hset].
      destruct Htimer as [-> | (r' & _ & ->)]; [specialize (Hset Hen eq_refl); discriminate|].
      rewrite Hen in Hen1.
      specialize (IH c1 (fire (backoff (S r)) (clock n1) n1) Hen1 Hidle1 Hall1).
      destruct (entry _ _ _ _ _ r c1 _) as [[delays c3] n3].
      cbn [fst] in *. rewrite schedule_S, IH. reflexivity.
Qed.

Lemma entry_backs_off_and_gives_up_witness :
  (entry (fun s => s) "backend" "error" "service" "lost" 3
     (new sampleLoggingConfig) deadNet).1.1 = [1000; 2000; 4000]%Q.
Proof.
  destruct (entry_backs_off_and_gives_up "backend" "error" "service" "lost" 3
              (new sampleLoggingConfig) deadNet) as (_ & Hthree & Hall).
  rewrite <- Hthree. apply Hall.
  - reflexivity.
  - reflexivity.
  - constructor.
Defined.

(** X21.  A client built from a configuration in which one of the eight
    required values is missing or empty is disabled: it refuses to
    authenticate and, whatever is logged through it, sends nothing and
    sets no timer.  With all eight values present the client is
    enabled. *)
Theorem incomplete_configuration_disables_logging :
  forall (cfg : LoggingConfig),
    (Exists (fun kv => snd kv = None \/ snd kv = Some "") (required cfg) ->
     disabled (new cfg) = true /\
     forall between stack level packageName message retries n,
       authenticate (new cfg) n = (None, new cfg, n) /\
       entry between stack level packageName message retries (new cfg) n
         = ([], new cfg, n)) /\
    (Forall (fun kv => exists s, snd kv = Some s /\ s <> "") (required cfg) ->
     disabled (new cfg) = false).
Proof.
  intros cfg. split.
  - intros Hex.
    assert (Hdis : disabled (new cfg) = true).
    { cbn [new disabled]. apply Exists_exists in Hex. destruct Hex as ([k v] & Hin & Hv).
      assert (Hk : In k (missing cfg)).
      { unfold missing. apply in_map_iff. exists (k, v). split; [reflexivity|].
        apply filter_In. split; [apply list_elem_of_In, Hin|].
        cbn [snd] in *. destruct Hv as [-> | ->]; reflexivity. }
      destruct (missing cfg); [destruct Hk | reflexivity]. }
    split; [exact Hdis|].
    intros between stack level packageName message retries n.
    split; [unfold authenticate; rewrite Hdis; reflexivity|].
    destruct retries; cbn [entry]; unfold Log; rewrite Hdis; reflexivity.
  - intros Hall. cbn [new disabled].
    assert (Hnone : missing cfg = []).
    { unfold missing.
      induction (required cfg) as [|[k v] l IH]; [reflexivity|].
      inversion Hall as [|? ? (s & Hs & Hne) Hrest]; subst. cbn [snd] in Hs. subst v.
      cbn [List.filter snd from_option]. rewrite (truthy_nonempty s Hne).
      cbn [negb]. apply IH, Hrest. }
    rewrite Hnone. reflexivity.
Qed.

Lemma incomplete_configuration_disables_logging_witness :
  disabled (new (mkLoggingConfig (Some "https://logs.example/auth") None (Some "code")
                   (Some "id") (Some "") (Some "dev@example.com") (Some "Dev")
                   (Some "22IT3043"))) = true.
Proof.
  apply incomplete_configuration_disables_logging.
  apply Exists_cons_tl, Exists_cons_hd. left; reflexivity.
Defined.

End LoggingProperties.
